(** * k8s-certmon: the certificate-health snapshot engine

    A shallow embedding of the two variants of [main.go] found in the
    repository, and the properties of the refresh cycle, the expiry
    classification and the status handler.

    - [IngressVariant] embeds [src/main.go]: certificates are discovered
      through the TLS sections of ingress objects ([getIngresses]).
    - [SecretVariant] embeds [src/unnamed/part_000]: certificates are
      discovered by listing the secrets of type [kubernetes.io/tls]
      ([getCertificateList]).

    Conventions of the embedding:
    - a Go slice is [option (list A)]: [None] is the nil slice, which
      [encoding/json] prints as [null], [Some []] is an empty non-nil slice;
    - a Go [error] is the text returned by its [Error()] method, and a nil
      error is [None];
    - a call that returns [(value, err)] and whose value the program reads
      only after it has found [err] nil is a [result]; the two per-namespace
      [List] calls, whose error the program drops, are pairs;
    - [int64] values are [Z], with the wrap-around of the one subtraction
      written out ([wrap64]); [int] is 64 bits wide on the build targets of
      the Dockerfile, so [int(daysLeft)] and [int64(cfg.CritDaysLeft)] are
      the identity;
    - the Kubernetes client, [encoding/pem], [crypto/x509], [encoding/json]
      and the wall clock are not code of this repository: the answers of the
      cluster are fields of [Clientset], the library functions and the clock
      are section variables, and the state of a cycle counts the readings
      taken from the clock;
    - the log lines of [main] are left out. *)

From stdpp Require Import gmap strings list pretty.

Open Scope Z_scope.

(* ===================================================================== *)
(** ** Go values shared by the two variants *)
(* ===================================================================== *)

Definition slice (A : Type) : Type := option (list A).

Definition elems {A} (s : slice A) : list A := default [] s.

(** [len(s)]: zero for the nil slice. *)
Definition len {A} (s : slice A) : Z := Z.of_nat (length (elems s)).

(** [append(s, x)]: never nil. *)
Definition append {A} (s : slice A) (x : A) : slice A := Some (elems s ++ [x]).

(** [make([]T, 0)]. *)
Definition make0 {A} : slice A := Some [].

Definition error : Type := string.

Definition bytes : Type := list Byte.byte.

(** [int64] arithmetic wraps modulo [2^64]. *)
Definition wrap64 (z : Z) : Z := (z + 2 ^ 63) `mod` 2 ^ 64 - 2 ^ 63.

Definition in_int64 (z : Z) : Prop := - 2 ^ 63 <= z < 2 ^ 63.

(** Go's [/] on integers truncates toward zero. *)
Definition int64_div (a b : Z) : Z := wrap64 (Z.quot a b).

(** A [time.Time], as far as the program looks at it: through [Unix()]
    and [String()]. *)
Record Time := mkTime {
  time_Unix : Z;
  time_String : string;
}.

(** The fields of [x509.Certificate] the program reads.  [SubjectNames]
    holds [fmt.Sprintf("%v", n.Value)] for each [n] of [Subject.Names]. *)
Record Certificate := mkCertificate {
  cert_NotBefore : Time;
  cert_NotAfter : Time;
  cert_IssuerCommonName : string;
  cert_SubjectNames : list string;
  cert_DNSNames : slice string;
}.

(** [strings.Join(s, sep)]. *)
Definition strings_Join (s : slice string) (sep : string) : string :=
  String.concat sep (elems s).

(** [%d] of [fmt.Sprintf]. *)
Definition fmt_d (z : Z) : string := pretty z.

(** Does [s] contain [sub]? ([strings.Contains]; used to state what a
    message mentions.) *)
Fixpoint contains (s sub : string) : bool :=
  String.prefix sub s ||
  match s with
  | EmptyString => false
  | String _ s' => contains s' sub
  end.

(** A Go call returning [(value, error)] of which the caller looks at the
    value only after it has found the error nil. *)
Inductive result (A : Type) : Type :=
  | Ok (a : A)
  | Err (e : error).
Arguments Ok {A} a.
Arguments Err {A} e.

(** ** The cluster, as the Kubernetes client shows it *)

(** [v1.Namespace]. *)
Record v1_Namespace := mkNamespace { ns_Name : string }.

Record IngressTLS := mkIngressTLS {
  tls_Hosts : slice string;
  tls_SecretName : string;
}.

Record Ingress := mkIngress {
  ing_Name : string;
  ing_TLS : list IngressTLS;
}.

Record Secret := mkSecret {
  sec_Name : string;
  sec_Namespace : string;
  sec_Type : string;
  sec_Labels : gmap string string;
  sec_Data : gmap string bytes;
}.

(** [kubernetes.Clientset]: what each call of the client answers during one
    refresh cycle.  The two per-namespace [List] calls are pairs, because
    the program reads the items whatever the error is (the client returns a
    list object, without items, also when it fails). *)
Record Clientset := mkClientset {
  Namespaces_List : result (list v1_Namespace);
  Ingresses_List : string -> list Ingress * option error;
  Secrets_Get : string -> string -> result Secret;
  Secrets_List : string -> list Secret * option error;
}.

(** ApplicationConfig (the same struct in both variants). *)
Record ApplicationConfig := mkApplicationConfig {
  KubeConfig : string;
  UpdateInterval : Z;
  ListenPort : Z;
  CritDaysLeft : Z;
  WarnDaysLeft : Z;
  KubeClient : Clientset;
}.

(** [daysLeft := (x509Data.NotAfter.Unix() - time.Now().Unix()) / 86400]
    (main.go:147, part_000:140). *)
Definition daysLeft_of (notAfter now : Time) : Z :=
  int64_div (wrap64 (time_Unix notAfter - time_Unix now)) 86400.

(** The HTTP response of the status handler. *)
Record Response := mkResponse {
  resp_ContentType : string;
  resp_StatusCode : Z;
  resp_Body : string;
}.

Definition dquote : string := String (Ascii.ascii_of_nat 34) EmptyString.
Definition newline : string := String (Ascii.ascii_of_nat 10) EmptyString.

(* ===================================================================== *)
(** ** src/main.go: certificates found through ingress objects *)
(* ===================================================================== *)

Module IngressVariant.

Record CertificateInfo := mkCertificateInfo {
  Issuer : string;
  CommonNames : slice string;
  NotBefore : string;
  NotAfter : string;
  DNSNames : slice string;
  DaysLeft : Z;
  IsValid : bool;
}.

Record IngressInfo := mkIngressInfo {
  Name : string;
  Namespace : string;
  Hosts : slice string;
  TLSSecretName : string;
  x509 : option Certificate;
  (* the field [CertificateInfo], under its JSON name *)
  certificate : option CertificateInfo;
}.

Record StatusResponse := mkStatusResponse {
  LastUpdated : string;
  Errors : slice string;
  Warnings : slice string;
  Certificates : slice IngressInfo;
}.

Definition set_IsValid (b : bool) (c : CertificateInfo) : CertificateInfo :=
  mkCertificateInfo (Issuer c) (CommonNames c) (NotBefore c) (NotAfter c)
    (DNSNames c) (DaysLeft c) b.

Definition add_CommonName (c : CertificateInfo) (n : string) : CertificateInfo :=
  mkCertificateInfo (Issuer c) (append (CommonNames c) n) (NotBefore c)
    (NotAfter c) (DNSNames c) (DaysLeft c) (IsValid c).

(** The variables of [getIngresses] that the body of its innermost loop
    reads and writes: the three results and the number of readings taken
    from the clock so far. *)
Record Cycle := mkCycle {
  ingressInfoList : slice IngressInfo;
  warnings : slice string;
  errors : slice string;
  ticks : nat;
}.

(** What lines 162-176 work on: the certificate record being filled and
    the two diagnostic lists. *)
Record Verdict := mkVerdict {
  certInfo : CertificateInfo;
  vd_warnings : slice string;
  vd_errors : slice string;
}.

Section Program.

(** [pem.Decode]: the bytes of the first PEM block, if there is one. *)
Variable pem_Decode : bytes -> option bytes.
(** [x509.ParseCertificate]. *)
Variable x509_ParseCertificate : bytes -> result Certificate.
(** The method [VerifyHostname] of [x509.Certificate]: nil when the host
    is covered. *)
Variable VerifyHostname : Certificate -> string -> option error.
(** [json.MarshalIndent] with the arguments of line 252. *)
Variable json_MarshalIndent : StatusResponse -> result string.
(** [time.Now()]: the n-th reading of the wall clock. *)
Variable time_Now : nat -> Time.

(** main.go:87-113. *)
Definition getx509Data (client : Clientset) (ingress : IngressInfo)
  : result Certificate :=
  match Secrets_Get client (Namespace ingress) (TLSSecretName ingress) with
  | Err err => Err err
  | Ok secret =>
    match sec_Data secret !! "tls.crt" with
    | None =>
      Err ("tls.crt does not exist in " +:+ Namespace ingress +:+ "/"
             +:+ TLSSecretName ingress)
    | Some tlsCrt =>
      if decide (length tlsCrt = 0%nat) then
        Err ("tls.crt for " +:+ Namespace ingress +:+ "/"
               +:+ TLSSecretName ingress +:+ " is empty")
      else
        match pem_Decode tlsCrt with
        | None =>
          Err ("Failed to decode certificate " +:+ Namespace ingress +:+ "/"
                 +:+ TLSSecretName ingress)
        | Some block_Bytes =>
          match x509_ParseCertificate block_Bytes with
          | Err _ =>
            Err ("Failed to parse certificate " +:+ Namespace ingress +:+ "/"
                   +:+ TLSSecretName ingress)
          | Ok parsedCert => Ok parsedCert
          end
        end
    end
  end.

(** main.go:149-156. *)
Definition new_certInfo (x509Data : Certificate) (daysLeft : Z) : CertificateInfo :=
  {| NotBefore := time_String (cert_NotBefore x509Data);
     NotAfter := time_String (cert_NotAfter x509Data);
     Issuer := cert_IssuerCommonName x509Data;
     DNSNames := cert_DNSNames x509Data;
     DaysLeft := daysLeft;
     IsValid := true;
     CommonNames := None |}.

(** main.go:158-160. *)
Definition collect_CommonNames (x509Data : Certificate) (c : CertificateInfo)
  : CertificateInfo :=
  fold_left add_CommonName (cert_SubjectNames x509Data) c.

Definition msg_expired (nsName ingressName : string) (c : CertificateInfo) : string :=
  "certificate " +:+ nsName +:+ "/" +:+ ingressName +:+ " ("
    +:+ strings_Join (DNSNames c) ", " +:+ ") expired on " +:+ NotAfter c.

Definition msg_expiring (nsName ingressName : string) (c : CertificateInfo) : string :=
  "certificate " +:+ nsName +:+ "/" +:+ ingressName +:+ " ("
    +:+ strings_Join (DNSNames c) ", " +:+ ") will expire in "
    +:+ fmt_d (DaysLeft c) +:+ " days (" +:+ NotAfter c +:+ ").".

Definition msg_host (nsName ingressName h : string) : string :=
  "certificate for " +:+ nsName +:+ "/" +:+ ingressName
    +:+ " is not valid for host " +:+ h.

(** main.go:162-169, the expiry ladder. *)
Definition expiry_ladder (appConfig : ApplicationConfig)
    (nsName ingressName : string) (daysLeft : Z) (k : Verdict) : Verdict :=
  if decide (daysLeft <= 0) then
    mkVerdict (set_IsValid false (certInfo k)) (vd_warnings k)
      (append (vd_errors k) (msg_expired nsName ingressName (certInfo k)))
  else if decide (daysLeft <= CritDaysLeft appConfig) then
    mkVerdict (certInfo k) (vd_warnings k)
      (append (vd_errors k) (msg_expiring nsName ingressName (certInfo k)))
  else if decide (daysLeft < WarnDaysLeft appConfig) then
    mkVerdict (certInfo k)
      (append (vd_warnings k) (msg_expiring nsName ingressName (certInfo k)))
      (vd_errors k)
  else k.

(** main.go:172-175, the body of the loop over the expected hosts. *)
Definition verify_host (x509Data : Certificate) (nsName ingressName : string)
    (k : Verdict) (h : string) : Verdict :=
  match VerifyHostname x509Data h with
  | Some _ =>
    mkVerdict (set_IsValid false (certInfo k)) (vd_warnings k)
      (append (vd_errors k) (msg_host nsName ingressName h))
  | None => k
  end.

(** main.go:171-176. *)
Definition verify_hosts (x509Data : Certificate) (nsName ingressName : string)
    (hosts : slice string) (k : Verdict) : Verdict :=
  fold_left (verify_host x509Data nsName ingressName) (elems hosts) k.

(** main.go:146-178: the [else] branch, for a certificate that parsed;
    [now] is the reading of the clock at line 147. *)
Definition classify (appConfig : ApplicationConfig) (nsName ingressName : string)
    (hosts : slice string) (x509Data : Certificate) (now : Time)
    (warnings errors : slice string) : Verdict :=
  let daysLeft := daysLeft_of (cert_NotAfter x509Data) now in
  let certInfo := collect_CommonNames x509Data (new_certInfo x509Data daysLeft) in
  verify_hosts x509Data nsName ingressName hosts
    (expiry_ladder appConfig nsName ingressName daysLeft
       (mkVerdict certInfo warnings errors)).

(** main.go:131-182, the body of the loop over the TLS sections of one
    ingress. *)
Definition tls_step (appConfig : ApplicationConfig) (ns : v1_Namespace)
    (ingress : Ingress) (st : Cycle) (tlsSpec : IngressTLS) : Cycle :=
  let ingressInfo :=
    {| Name := ing_Name ingress;
       Namespace := ns_Name ns;
       TLSSecretName := tls_SecretName tlsSpec;
       Hosts := tls_Hosts tlsSpec;
       x509 := None;
       certificate := None |} in
  match getx509Data (KubeClient appConfig) ingressInfo with
  | Err err =>
    mkCycle (ingressInfoList st) (warnings st) (append (errors st) err) (ticks st)
  | Ok x509Data =>
    let k := classify appConfig (ns_Name ns) (ing_Name ingress)
               (tls_Hosts tlsSpec) x509Data (time_Now (ticks st))
               (warnings st) (errors st) in
    let ingressInfo' :=
      mkIngressInfo (Name ingressInfo) (Namespace ingressInfo)
        (Hosts ingressInfo) (TLSSecretName ingressInfo)
        (Some x509Data) (Some (certInfo k)) in
    mkCycle (append (ingressInfoList st) ingressInfo')
      (vd_warnings k) (vd_errors k) (S (ticks st))
  end.

(** main.go:129-183. *)
Definition ingress_step (appConfig : ApplicationConfig) (ns : v1_Namespace)
    (st : Cycle) (ingress : Ingress) : Cycle :=
  fold_left (tls_step appConfig ns ingress) (ing_TLS ingress) st.

(** main.go:123-184, the body of the loop over the namespaces.  The error
    of [Ingresses(ns.Name).List] is bound to [_]; the [err] tested at line
    125 is the one of line 117, passed here as [err]. *)
Definition namespace_step (appConfig : ApplicationConfig) (err : option error)
    (st : Cycle) (ns : v1_Namespace) : Cycle :=
  let '(ingresses, _) := Ingresses_List (KubeClient appConfig) (ns_Name ns) in
  match err with
  | Some _ => st
  | None => fold_left (ingress_step appConfig ns) ingresses st
  end.

(** main.go:116-187.  The named results start as nil slices; [t] is the
    number of clock readings taken before the call. *)
Definition getIngresses (appConfig : ApplicationConfig) (t : nat) : Cycle :=
  let st := mkCycle None None None t in
  match Namespaces_List (KubeClient appConfig) with
  | Err err => mkCycle None (warnings st) (append (errors st) err) (ticks st)
  | Ok namespaces =>
    fold_left (namespace_step appConfig None) namespaces st
  end.

(** The state of the process after start-up: the shared variable
    [currentStatus] of [main] and the clock readings taken so far. *)
Record Process := mkProcess {
  currentStatus : StatusResponse;
  proc_ticks : nat;
}.

(** main.go:205, [var currentStatus StatusResponse]. *)
Definition initial_status : StatusResponse :=
  mkStatusResponse EmptyString None None None.

(** main.go:208-236, one iteration of the refresh loop, up to the sleep.
    The log lines are not part of the state. *)
Definition refresh_iteration (appConfig : ApplicationConfig) (p : Process)
  : Process :=
  let t0 := S (proc_ticks p) in
  let r := getIngresses appConfig t0 in
  let status :=
    {| LastUpdated := time_String (time_Now (ticks r));
       Errors := errors r;
       Warnings := warnings r;
       Certificates := ingressInfoList r |} in
  mkProcess status (S (S (ticks r))).

(** main.go:244-250. *)
Definition status_code (s : StatusResponse) : Z :=
  if decide (len (Errors s) > 0) then 202
  else if decide (len (Warnings s) > 0) then 201
  else 200.

(** main.go:241-259, the handler run on the value of [currentStatus]. *)
Definition handler (currentStatus : StatusResponse) : Response :=
  let code := status_code currentStatus in
  match json_MarshalIndent currentStatus with
  | Err err =>
    mkResponse "application/json" code
      ("{" +:+ dquote +:+ "error" +:+ dquote +:+ ": " +:+ dquote +:+ err
         +:+ dquote +:+ "}" +:+ newline)
  | Ok j => mkResponse "application/json" code j
  end.

End Program.

End IngressVariant.

(* ===================================================================== *)
(** ** src/unnamed/part_000: certificates found by listing TLS secrets *)
(* ===================================================================== *)

Module SecretVariant.

Record CertificateInfo := mkCertificateInfo {
  SecretName : string;
  Namespace : string;
  Issuer : string;
  CommonNames : slice string;
  NotBefore : string;
  NotAfter : string;
  DNSNames : slice string;
  DaysLeft : Z;
  IsValid : bool;
}.

Record StatusResponse := mkStatusResponse {
  LastUpdated : string;
  Errors : slice string;
  Warnings : slice string;
  Certificates : slice CertificateInfo;
}.

Definition set_IsValid (b : bool) (c : CertificateInfo) : CertificateInfo :=
  mkCertificateInfo (SecretName c) (Namespace c) (Issuer c) (CommonNames c)
    (NotBefore c) (NotAfter c) (DNSNames c) (DaysLeft c) b.

Definition add_CommonName (c : CertificateInfo) (n : string) : CertificateInfo :=
  mkCertificateInfo (SecretName c) (Namespace c) (Issuer c)
    (append (CommonNames c) n) (NotBefore c) (NotAfter c) (DNSNames c)
    (DaysLeft c) (IsValid c).

(** The three results of [getCertificateList] and the number of readings
    taken from the clock so far. *)
Record Cycle := mkCycle {
  certificateInfoList : slice CertificateInfo;
  warnings : slice string;
  errors : slice string;
  ticks : nat;
}.

(** What lines 153-160 work on. *)
Record Verdict := mkVerdict {
  certificateInfo : CertificateInfo;
  vd_warnings : slice string;
  vd_errors : slice string;
}.

Section Program.

Variable pem_Decode : bytes -> option bytes.
Variable x509_ParseCertificate : bytes -> result Certificate.
Variable json_MarshalIndent : StatusResponse -> result string.
Variable time_Now : nat -> Time.

(** part_000:80-102. *)
Definition getx509Data (client : Clientset) (secret : Secret)
  : result Certificate :=
  match sec_Data secret !! "tls.crt" with
  | None =>
    Err ("tls.crt does not exist in " +:+ sec_Namespace secret +:+ "/"
           +:+ sec_Name secret)
  | Some tlsCrt =>
    if decide (length tlsCrt = 0%nat) then
      Err ("tls.crt for " +:+ sec_Namespace secret +:+ "/"
             +:+ sec_Name secret +:+ " is empty")
    else
      match pem_Decode tlsCrt with
      | None =>
        Err ("Failed to decode certificate " +:+ sec_Namespace secret +:+ "/"
               +:+ sec_Name secret)
      | Some block_Bytes =>
        match x509_ParseCertificate block_Bytes with
        | Err _ =>
          Err ("Failed to parse certificate " +:+ sec_Namespace secret +:+ "/"
                 +:+ sec_Name secret)
        | Ok parsedCert => Ok parsedCert
        end
      end
  end.

(** part_000:129-132 and 142-147. *)
Definition new_certificateInfo (secret : Secret) (ns : v1_Namespace)
    (x509Data : Certificate) (daysLeft : Z) : CertificateInfo :=
  {| SecretName := sec_Name secret;
     Namespace := ns_Name ns;
     NotBefore := time_String (cert_NotBefore x509Data);
     NotAfter := time_String (cert_NotAfter x509Data);
     Issuer := cert_IssuerCommonName x509Data;
     DNSNames := cert_DNSNames x509Data;
     DaysLeft := daysLeft;
     IsValid := true;
     CommonNames := None |}.

(** part_000:149-151. *)
Definition collect_CommonNames (x509Data : Certificate) (c : CertificateInfo)
  : CertificateInfo :=
  fold_left add_CommonName (cert_SubjectNames x509Data) c.

Definition msg_expired (nsName : string) (c : CertificateInfo) : string :=
  "certificate " +:+ nsName +:+ "/" +:+ SecretName c +:+ " ("
    +:+ strings_Join (DNSNames c) ", " +:+ ") expired on " +:+ NotAfter c.

Definition msg_expiring (nsName : string) (c : CertificateInfo) : string :=
  "certificate " +:+ nsName +:+ "/" +:+ SecretName c +:+ " ("
    +:+ strings_Join (DNSNames c) ", " +:+ ") will expire in "
    +:+ fmt_d (DaysLeft c) +:+ " days (" +:+ NotAfter c +:+ ").".

(** part_000:153-160, the expiry ladder. *)
Definition expiry_ladder (appConfig : ApplicationConfig) (nsName : string)
    (daysLeft : Z) (k : Verdict) : Verdict :=
  if decide (daysLeft <= 0) then
    mkVerdict (set_IsValid false (certificateInfo k)) (vd_warnings k)
      (append (vd_errors k) (msg_expired nsName (certificateInfo k)))
  else if decide (daysLeft <= CritDaysLeft appConfig) then
    mkVerdict (certificateInfo k) (vd_warnings k)
      (append (vd_errors k) (msg_expiring nsName (certificateInfo k)))
  else if decide (daysLeft < WarnDaysLeft appConfig) then
    mkVerdict (certificateInfo k)
      (append (vd_warnings k) (msg_expiring nsName (certificateInfo k)))
      (vd_errors k)
  else k.

(** part_000:139-161: the [else] branch, for a certificate that parsed. *)
Definition classify (appConfig : ApplicationConfig) (ns : v1_Namespace)
    (secret : Secret) (x509Data : Certificate) (now : Time)
    (warnings errors : slice string) : Verdict :=
  let daysLeft := daysLeft_of (cert_NotAfter x509Data) now in
  let c := collect_CommonNames x509Data
             (new_certificateInfo secret ns x509Data daysLeft) in
  expiry_ladder appConfig (ns_Name ns) daysLeft (mkVerdict c warnings errors).

(** part_000:123-127: a secret copied by kubed from another namespace. *)
Definition copied_from_elsewhere (secret : Secret) (ns : v1_Namespace) : bool :=
  match sec_Labels secret !! "kubed.appscode.com/origin.namespace" with
  | Some originNS => bool_decide (originNS <> ns_Name ns)
  | None => false
  end.

(** part_000:118-164, the body of the loop over the secrets of one
    namespace. *)
Definition secret_step (appConfig : ApplicationConfig) (ns : v1_Namespace)
    (st : Cycle) (secret : Secret) : Cycle :=
  if decide (sec_Type secret <> "kubernetes.io/tls") then st
  else if copied_from_elsewhere secret ns then st
  else
    match getx509Data (KubeClient appConfig) secret with
    | Err err =>
      mkCycle (certificateInfoList st) (warnings st) (append (errors st) err)
        (ticks st)
    | Ok x509Data =>
      let k := classify appConfig ns secret x509Data (time_Now (ticks st))
                 (warnings st) (errors st) in
      mkCycle (append (certificateInfoList st) (certificateInfo k))
        (vd_warnings k) (vd_errors k) (S (ticks st))
    end.

(** part_000:112-165, the body of the loop over the namespaces; [err] is
    the variable of line 106, tested again at line 114. *)
Definition namespace_step (appConfig : ApplicationConfig) (err : option error)
    (st : Cycle) (ns : v1_Namespace) : Cycle :=
  let '(secrets, _) := Secrets_List (KubeClient appConfig) (ns_Name ns) in
  match err with
  | Some _ => st
  | None => fold_left (secret_step appConfig ns) secrets st
  end.

(** part_000:167-173. *)
Definition normalize (st : Cycle) : Cycle :=
  let warnings' := match warnings st with None => make0 | Some w => Some w end in
  let errors' := match errors st with None => make0 | Some e => Some e end in
  mkCycle (certificateInfoList st) warnings' errors' (ticks st).

(** part_000:105-176. *)
Definition getCertificateList (appConfig : ApplicationConfig) (t : nat) : Cycle :=
  let st := mkCycle None None None t in
  match Namespaces_List (KubeClient appConfig) with
  | Err err => mkCycle None (warnings st) (append (errors st) err) (ticks st)
  | Ok namespaces =>
    normalize (fold_left (namespace_step appConfig None) namespaces st)
  end.

Record Process := mkProcess {
  currentStatus : StatusResponse;
  proc_ticks : nat;
}.

(** part_000:194. *)
Definition initial_status : StatusResponse :=
  mkStatusResponse EmptyString None None None.

(** part_000:197-225, one iteration of the refresh loop, up to the sleep. *)
Definition refresh_iteration (appConfig : ApplicationConfig) (p : Process)
  : Process :=
  let t0 := S (proc_ticks p) in
  let r := getCertificateList appConfig t0 in
  let status :=
    {| LastUpdated := time_String (time_Now (ticks r));
       Errors := errors r;
       Warnings := warnings r;
       Certificates := certificateInfoList r |} in
  mkProcess status (S (S (ticks r))).

(** part_000:233-239. *)
Definition status_code (s : StatusResponse) : Z :=
  if decide (len (Errors s) > 0) then 202
  else if decide (len (Warnings s) > 0) then 201
  else 200.

(** part_000:230-248. *)
Definition handler (currentStatus : StatusResponse) : Response :=
  let code := status_code currentStatus in
  match json_MarshalIndent currentStatus with
  | Err err =>
    mkResponse "application/json" code
      ("{" +:+ dquote +:+ "error" +:+ dquote +:+ ": " +:+ dquote +:+ err
         +:+ dquote +:+ "}" +:+ newline)
  | Ok j => mkResponse "application/json" code j
  end.

End Program.

End SecretVariant.

(* ===================================================================== *)
(** ** The vocabulary of the specification *)
(* ===================================================================== *)

(** The severity of the specification (section 4.2, step 3), written from
    its words: the program has no such field, only the rung of the expiry
    ladder that fires. *)
Inductive Severity := OK | WARN | CRIT.

Definition spec_severity (cfg : ApplicationConfig) (daysLeft : Z) : Severity :=
  if decide (daysLeft <= 0) then CRIT
  else if decide (daysLeft <= CritDaysLeft cfg) then CRIT
  else if decide (daysLeft < WarnDaysLeft cfg) then WARN
  else OK.

(** What one pass through the ladder has to do, in the words of section
    4.2, step 3: [d] is daysLeft, [expired] and [expiring] are the two
    diagnostics, [w], [e] the lists before and [w'], [e'] after,
    [valid'] the record's isValid after (it is [true] before). *)
Definition ladder_contract (cfg : ApplicationConfig) (d : Z) (notAfter : string)
    (expired expiring : string) (valid' : bool)
    (w e w' e' : slice string) : Prop :=
  (d <= 0 ->
     spec_severity cfg d = CRIT /\ e' = append e expired /\ w' = w /\
     valid' = false) /\
  (0 < d <= CritDaysLeft cfg ->
     spec_severity cfg d = CRIT /\ e' = append e expiring /\ w' = w /\
     valid' = true) /\
  (0 < d -> CritDaysLeft cfg < d < WarnDaysLeft cfg ->
     spec_severity cfg d = WARN /\ w' = append w expiring /\ e' = e /\
     valid' = true) /\
  (0 < d -> CritDaysLeft cfg < d -> WarnDaysLeft cfg <= d ->
     spec_severity cfg d = OK /\ w' = w /\ e' = e /\ valid' = true) /\
  contains expired ("expired on " +:+ notAfter) = true /\
  contains expiring ("will expire in " +:+ fmt_d d +:+ " days") = true /\
  len e' + len w' <= len e + len w + 1.

(** The effect of [errors = append(errors, err.Error()); continue]
    (main.go:143-144) on the variables of the cycle. *)
Definition record_error (err : error) (st : IngressVariant.Cycle)
  : IngressVariant.Cycle :=
  IngressVariant.mkCycle (IngressVariant.ingressInfoList st)
    (IngressVariant.warnings st)
    (append (IngressVariant.errors st) err) (IngressVariant.ticks st).

(** The source that the TLS section [tlsSpec] of [ingress] in namespace
    [ns] stands for (main.go:132-138). *)
Definition source_of (ns : v1_Namespace) (ingress : Ingress)
    (tlsSpec : IngressTLS) : IngressVariant.IngressInfo :=
  IngressVariant.mkIngressInfo (ing_Name ingress) (ns_Name ns)
    (tls_Hosts tlsSpec) (tls_SecretName tlsSpec) None None.

(** The same client, with the errors of the per-namespace listings
    replaced by nil. *)
Definition without_list_errors (c : Clientset) : Clientset :=
  {| Namespaces_List := Namespaces_List c;
     Ingresses_List := fun ns => ((Ingresses_List c ns).1, None);
     Secrets_Get := Secrets_Get c;
     Secrets_List := fun ns => ((Secrets_List c ns).1, None) |}.

Definition with_client (c : Clientset) (cfg : ApplicationConfig)
  : ApplicationConfig :=
  mkApplicationConfig (KubeConfig cfg) (UpdateInterval cfg) (ListenPort cfg)
    (CritDaysLeft cfg) (WarnDaysLeft cfg) c.

(** The expected hosts the certificate does not cover, in order. *)
Definition mismatching (VerifyHostname : Certificate -> string -> option error)
    (x509Data : Certificate) (hosts : slice string) : list string :=
  filter (fun h => VerifyHostname x509Data h <> None) (elems hosts).

(* ===================================================================== *)
(** ** A small cluster and stand-ins for the libraries, for the examples *)
(* ===================================================================== *)

Module Demo.

Definition payload (s : string) : bytes := String.list_byte_of_string s.

(** A stand-in for [pem.Decode]: a payload that starts with a dash holds a
    block, whose bytes are the rest. *)
Definition pem_Decode (b : bytes) : option bytes :=
  match b with
  | Byte.x2d :: rest => Some rest
  | _ => None
  end.

Definition at_ (unix : Z) (shown : string) : Time := mkTime unix shown.

(** The clock of the examples stands at 1 700 000 000 s. *)
Definition t_now : Z := 1700000000.
Definition time_Now (n : nat) : Time := at_ t_now "2023-11-14 22:13:20 +0000 UTC".

Definition cert_far : Certificate :=
  mkCertificate (at_ (t_now - 86400) "2023-11-13 22:13:20 +0000 UTC")
    (at_ (t_now + 100 * 86400) "2024-02-22 22:13:20 +0000 UTC")
    "Demo CA" ["a.example.com"] (Some ["a.example.com"]).

Definition cert_soon : Certificate :=
  mkCertificate (at_ (t_now - 86400) "2023-11-13 22:13:20 +0000 UTC")
    (at_ (t_now + 20 * 86400) "2023-12-04 22:13:20 +0000 UTC")
    "Demo CA" ["a.example.com"] (Some ["a.example.com"]).

Definition cert_gone : Certificate :=
  mkCertificate (at_ (t_now - 90 * 86400) "2023-08-16 22:13:20 +0000 UTC")
    (at_ (t_now - 1) "2023-11-14 22:13:19 +0000 UTC")
    "Demo CA" ["a.example.com"] (Some ["a.example.com"]).

(** A stand-in for [x509.ParseCertificate]: the block names one of the
    certificates above. *)
Definition x509_ParseCertificate (b : bytes) : result Certificate :=
  if decide (String.string_of_list_byte b = "far") then Ok cert_far
  else if decide (String.string_of_list_byte b = "soon") then Ok cert_soon
  else if decide (String.string_of_list_byte b = "gone") then Ok cert_gone
  else Err "x509: malformed certificate".

(** A stand-in for [VerifyHostname]: the host is one of the DNS names. *)
Definition VerifyHostname (c : Certificate) (h : string) : option error :=
  if decide (h ∈ elems (cert_DNSNames c)) then None
  else Some ("x509: certificate is not valid for " +:+ h).

Definition tls_secret (ns name body : string) : Secret :=
  mkSecret name ns "kubernetes.io/tls" ∅ (<["tls.crt" := payload body]> ∅).

Definition not_found (name : string) : error :=
  "secrets " +:+ dquote +:+ name +:+ dquote +:+ " not found".

(** One namespace [prod]; one ingress [web] with one TLS section, secret
    [web-tls] and the two expected hosts; the secrets are given by [get]
    and [secrets]; [list_err] is the error of the per-namespace listing. *)
Definition client (get : string -> string -> result Secret)
    (secrets : list Secret) (list_err : option error) : Clientset :=
  {| Namespaces_List := Ok [mkNamespace "prod"];
     Ingresses_List := fun ns =>
       ([mkIngress "web"
           [mkIngressTLS (Some ["a.example.com"; "b.example.com"]) "web-tls"]],
        list_err);
     Secrets_Get := get;
     Secrets_List := fun ns => (secrets, list_err) |}.

Definition config (c : Clientset) : ApplicationConfig :=
  mkApplicationConfig EmptyString 60 8080 3 30 c.

Definition get_ok (body : string) (ns name : string) : result Secret :=
  Ok (tls_secret ns name body).

Definition get_missing (ns name : string) : result Secret :=
  Err (not_found name).

(** A stand-in for [json.MarshalIndent] that never fails. *)
Definition json_MarshalIndent {A} (v : A) : result string := Ok "{}".

(** A client whose per-namespace listings fail, with no items. *)
Definition client_list_fails (e : error) : Clientset :=
  {| Namespaces_List := Ok [mkNamespace "prod"];
     Ingresses_List := fun _ => ([], Some e);
     Secrets_Get := get_missing;
     Secrets_List := fun _ => ([], Some e) |}.

(** A client whose namespace enumeration fails. *)
Definition client_down (e : error) : Clientset :=
  {| Namespaces_List := Err e;
     Ingresses_List := fun _ => ([], Some e);
     Secrets_Get := fun _ _ => Err e;
     Secrets_List := fun _ => ([], Some e) |}.

End Demo.

(* ===================================================================== *)
(** ** The rest of main.go: the client, the loop, the Nagios plugin *)
(* ===================================================================== *)

Section Startup.

(** [rest.Config]. *)
Variable Config : Type.
(** [clientcmd.BuildConfigFromFlags]. *)
Variable BuildConfigFromFlags : string -> string -> result Config.
(** [rest.InClusterConfig()]. *)
Variable InClusterConfig : result Config.
(** [kubernetes.NewForConfig]. *)
Variable NewForConfig : Config -> result Clientset.

(** main.go:61-83 (part_000:54-76).  The function reads only the field
    [KubeConfig] of its argument (the client is not set yet), so it takes
    that field. *)
Definition newKubernetesClient (appConfig_KubeConfig : string) : result Clientset :=
  let config :=
    if decide (appConfig_KubeConfig <> EmptyString) then
      BuildConfigFromFlags EmptyString appConfig_KubeConfig
    else InClusterConfig in
  match config with
  | Err err => Err err
  | Ok config =>
    match NewForConfig config with
    | Err err => Err err
    | Ok clientset => Ok clientset
    end
  end.

End Startup.

(** The sources of a cycle of the ingress variant, in the order the three
    loops of [getIngresses] visit them (main.go:123-131). *)
Definition ingress_sources (appConfig : ApplicationConfig)
  : list (v1_Namespace * Ingress * IngressTLS) :=
  match Namespaces_List (KubeClient appConfig) with
  | Err _ => []
  | Ok namespaces =>
    flat_map (fun ns =>
      flat_map (fun ingress => map (fun tlsSpec => (ns, ingress, tlsSpec))
                                 (ing_TLS ingress))
        (Ingresses_List (KubeClient appConfig) (ns_Name ns)).1)
      namespaces
  end.

(** The secrets that the loop of [getCertificateList] does not skip
    (part_000:119-127). *)
Definition relevant_secret (ns : v1_Namespace) (secret : Secret) : bool :=
  bool_decide (sec_Type secret = "kubernetes.io/tls")
  && negb (SecretVariant.copied_from_elsewhere secret ns).

(** The sources of a cycle of the secret variant, in the order of the two
    loops (part_000:112-118). *)
Definition secret_sources (appConfig : ApplicationConfig)
  : list (v1_Namespace * Secret) :=
  match Namespaces_List (KubeClient appConfig) with
  | Err _ => []
  | Ok namespaces =>
    flat_map (fun ns =>
      map (fun secret => (ns, secret))
        (filter (fun secret => relevant_secret ns secret = true)
           (Secrets_List (KubeClient appConfig) (ns_Name ns)).1))
      namespaces
  end.

(** The same client, listing only the secrets that are not skipped. *)
Definition only_relevant_secrets (c : Clientset) : Clientset :=
  {| Namespaces_List := Namespaces_List c;
     Ingresses_List := Ingresses_List c;
     Secrets_Get := Secrets_Get c;
     Secrets_List := fun ns =>
       (filter (fun secret => relevant_secret (mkNamespace ns) secret = true)
          (Secrets_List c ns).1,
        (Secrets_List c ns).2) |}.

(** What identifies a published record of the ingress variant. *)
Definition record_identity (r : IngressVariant.IngressInfo)
  : string * string * string * slice string :=
  (IngressVariant.Namespace r, IngressVariant.Name r,
   IngressVariant.TLSSecretName r, IngressVariant.Hosts r).

(** A record of the ingress variant mirrors the certificate it was built
    from (main.go:146-160, 178). *)
Definition mirrors_certificate (r : IngressVariant.IngressInfo) : Prop :=
  exists x c,
    IngressVariant.x509 r = Some x /\ IngressVariant.certificate r = Some c /\
    IngressVariant.Issuer c = cert_IssuerCommonName x /\
    IngressVariant.NotBefore c = time_String (cert_NotBefore x) /\
    IngressVariant.NotAfter c = time_String (cert_NotAfter x) /\
    IngressVariant.DNSNames c = cert_DNSNames x /\
    elems (IngressVariant.CommonNames c) = cert_SubjectNames x.

(** The record raises no error and no warning of its own: valid, and more
    days left than both thresholds. *)
Definition healthy (cfg : ApplicationConfig) (valid : bool) (daysLeft : Z) : Prop :=
  valid = true /\ CritDaysLeft cfg < daysLeft /\ WarnDaysLeft cfg <= daysLeft.

(** The window of the warning rung of the ladder. *)
Definition in_warn_window (cfg : ApplicationConfig) (daysLeft : Z) : Prop :=
  0 < daysLeft /\ CritDaysLeft cfg < daysLeft < WarnDaysLeft cfg.

#[global] Instance healthy_dec cfg valid daysLeft : Decision (healthy cfg valid daysLeft).
Proof. unfold healthy. apply _. Defined.

#[global] Instance in_warn_window_dec cfg daysLeft :
  Decision (in_warn_window cfg daysLeft).
Proof. unfold in_warn_window. apply _. Defined.

(** One pass through the body of the innermost loop, on a source. *)
Definition ingress_source_step (pem_Decode : bytes -> option bytes)
    (x509_ParseCertificate : bytes -> result Certificate)
    (VerifyHostname : Certificate -> string -> option error)
    (time_Now : nat -> Time) (appConfig : ApplicationConfig)
    (st : IngressVariant.Cycle) (src : v1_Namespace * Ingress * IngressTLS)
  : IngressVariant.Cycle :=
  IngressVariant.tls_step pem_Decode x509_ParseCertificate VerifyHostname
    time_Now appConfig src.1.1 src.1.2 st src.2.

Definition secret_source_step (pem_Decode : bytes -> option bytes)
    (x509_ParseCertificate : bytes -> result Certificate)
    (time_Now : nat -> Time) (appConfig : ApplicationConfig)
    (st : SecretVariant.Cycle) (src : v1_Namespace * Secret)
  : SecretVariant.Cycle :=
  SecretVariant.secret_step pem_Decode x509_ParseCertificate time_Now appConfig
    src.1 st src.2.

(** Does the certificate of the source parse? *)
Definition ingress_parses (pem_Decode : bytes -> option bytes)
    (x509_ParseCertificate : bytes -> result Certificate)
    (appConfig : ApplicationConfig) (src : v1_Namespace * Ingress * IngressTLS)
  : bool :=
  match IngressVariant.getx509Data pem_Decode x509_ParseCertificate
          (KubeClient appConfig) (source_of src.1.1 src.1.2 src.2) with
  | Ok _ => true
  | Err _ => false
  end.

Definition secret_parses (pem_Decode : bytes -> option bytes)
    (x509_ParseCertificate : bytes -> result Certificate)
    (appConfig : ApplicationConfig) (src : v1_Namespace * Secret) : bool :=
  match SecretVariant.getx509Data pem_Decode x509_ParseCertificate
          (KubeClient appConfig) src.2 with
  | Ok _ => true
  | Err _ => false
  end.

(** The daysLeft of the published records that carry a certificate. *)
Definition ingress_daysLeft (records : slice IngressVariant.IngressInfo) : list Z :=
  omap (fun r => IngressVariant.DaysLeft <$> IngressVariant.certificate r)
    (elems records).

(** The rungs of the ladder that append an error. *)
Definition critical_days (cfg : ApplicationConfig) (daysLeft : Z) : Prop :=
  daysLeft <= 0 \/ daysLeft <= CritDaysLeft cfg.

#[global] Instance critical_days_dec cfg daysLeft :
  Decision (critical_days cfg daysLeft).
Proof. unfold critical_days. apply _. Defined.

(** The number of expected hosts that the certificates of the published
    records do not cover. *)
Definition ingress_mismatches (VerifyHostname : Certificate -> string -> option error)
    (records : slice IngressVariant.IngressInfo) : nat :=
  sum_list_with
    (fun r =>
       match IngressVariant.x509 r with
       | Some x => length (mismatching VerifyHostname x (IngressVariant.Hosts r))
       | None => 0%nat
       end)
    (elems records).

(** The state of the process after [n] iterations of the refresh loop
    (main.go:208-236, part_000:197-225). *)
Section Loop.
Variable pem_Decode : bytes -> option bytes.
Variable x509_ParseCertificate : bytes -> result Certificate.
Variable VerifyHostname : Certificate -> string -> option error.
Variable time_Now : nat -> Time.
Variable appConfig : ApplicationConfig.

Fixpoint ingress_refresh_loop (n : nat) (p : IngressVariant.Process)
  : IngressVariant.Process :=
  match n with
  | O => p
  | S n' =>
    ingress_refresh_loop n'
      (IngressVariant.refresh_iteration pem_Decode x509_ParseCertificate
         VerifyHostname time_Now appConfig p)
  end.

Fixpoint secret_refresh_loop (n : nat) (p : SecretVariant.Process)
  : SecretVariant.Process :=
  match n with
  | O => p
  | S n' =>
    secret_refresh_loop n'
      (SecretVariant.refresh_iteration pem_Decode x509_ParseCertificate
         time_Now appConfig p)
  end.

End Loop.

(** *** The Nagios plugin (the Perl script kept with main.go, lines
    265-327)

    The Perl run time is a parameter: the document returned by
    [parse_json_safe], its truth value, and the dereference of one of its
    fields as an array of printable elements (which dies when the field is
    not an array reference). *)
Module Nagios.

Record HTTPResponse := mkHTTPResponse {
  code : Z;
  status_line : string;
  content : string;
}.

(** [HTTP::Response::is_success]: a 2xx code. *)
Definition is_success (resp : HTTPResponse) : bool :=
  bool_decide (200 <= code resp < 300).

(** How the script ends: [exit(n)] after printing [out], or dead. *)
Inductive Outcome :=
  | Exit (status : Z) (out : string)
  | Died.

Section Plugin.

Variable Json : Type.
Variable parse_json_safe : string -> Json.
Variable truthy : Json -> bool.
Variable array_field : Json -> string -> option (list string).
(** [$ua->get($url)]. *)
Variable ua_get : string -> HTTPResponse.

Definition h_200 (resp : Json) : Outcome :=
  Exit 0 ("OK: All certificates is valid." +:+ newline).

Definition h_201 (resp : Json) : Outcome :=
  match array_field resp "warnings" with
  | None => Died
  | Some ws => Exit 1 ("WARNING: " +:+ String.concat ", " ws +:+ newline)
  end.

Definition h_202 (resp : Json) : Outcome :=
  match array_field resp "errors" with
  | None => Died
  | Some es => Exit 2 ("Critical: " +:+ String.concat ", " es +:+ newline)
  end.

(** [%handlers]. *)
Definition handlers (code : Z) : option (Json -> Outcome) :=
  if decide (code = 200) then Some h_200
  else if decide (code = 201) then Some h_201
  else if decide (code = 202) then Some h_202
  else None.

(** The body of the script, on its arguments. *)
Definition check_k8s_certmon (argv : list string) : Outcome :=
  match argv with
  | [] => Died
  | url :: _ =>
    let resp := ua_get url in
    if is_success resp then
      match handlers (code resp) with
      | Some h =>
        let json_data := parse_json_safe (content resp) in
        if negb (truthy json_data) then
          Exit 2 ("CRITICAL: Invalid JSON response from '" +:+ url +:+ "'."
                    +:+ newline)
        else h json_data
      | None =>
        Exit 2 ("CRITICAL: Got invalid status code '" +:+ status_line resp
                  +:+ "'." +:+ newline)
      end
    else Exit 2 ("CRITICAL: Request to " +:+ url +:+ " failed." +:+ newline)
  end.

End Plugin.

End Nagios.

(** More fixtures for the examples: a cluster in which everything is in
    order, and thresholds that leave no room for the warning rung. *)
Module Demo2.

(** One namespace [prod], one ingress [web] expecting only
    [a.example.com], one TLS secret [web-tls] with the certificate that
    expires in 100 days. *)
Definition healthy_client : Clientset :=
  {| Namespaces_List := Ok [mkNamespace "prod"];
     Ingresses_List := fun ns =>
       ([mkIngress "web" [mkIngressTLS (Some ["a.example.com"]) "web-tls"]], None);
     Secrets_Get := Demo.get_ok "-far";
     Secrets_List := fun ns =>
       ([Demo.tls_secret "prod" "web-tls" "-far";
         mkSecret "token" "prod" "Opaque" ∅ ∅], None) |}.

Definition healthy_config : ApplicationConfig := Demo.config healthy_client.

(** Thresholds with WarnDaysLeft = CritDaysLeft. *)
Definition flat_config (c : Clientset) : ApplicationConfig :=
  mkApplicationConfig EmptyString 60 8080 30 30 c.

End Demo2.

(* ===================================================================== *)
(** ** The handler beside the refresh loop (main.go:205-218, 241-259) *)
(* ===================================================================== *)


(** The refresh goroutine and a handler, interleaved statement by
    statement: the assignment of main.go:213 is one step, and so is each
    read of the handler.  [cfgs n] holds the answers of the cluster during
    cycle [n] (the cluster may change from one cycle to the next). *)
Section Interleaving.
Variable pem_Decode : bytes -> option bytes.
Variable x509_ParseCertificate : bytes -> result Certificate.
Variable VerifyHostname : Certificate -> string -> option error.
Variable time_Now : nat -> Time.
Variable json_MarshalIndent : IngressVariant.StatusResponse -> result string.
Variable cfgs : nat -> ApplicationConfig.
Variable p0 : IngressVariant.Process.




End Interleaving.

(** Fixtures: the secret of the healthy cluster is deleted between the
    first cycle and the second, and a stand-in for [json.MarshalIndent]
    that shows the errors of the snapshot. *)
Module Demo3.



Definition json_MarshalIndent (s : IngressVariant.StatusResponse) : result string :=
  Ok ("errors: " +:+ strings_Join (IngressVariant.Errors s) ", ").


End Demo3.

(* ===================================================================== *)
(** ** General facts *)
(* ===================================================================== *)

Lemma wrap64_id (z : Z) : in_int64 z -> wrap64 z = z.
Proof.
  unfold in_int64, wrap64. intros Hz.
  rewrite Z.mod_small by lia. lia.
Qed.

Lemma quot_86400_in_int64 (z : Z) : in_int64 z -> in_int64 (Z.quot z 86400).
Proof.
  unfold in_int64. intros Hz.
  destruct (Z.le_gt_cases 0 z) as [Hpos | Hneg].
  - rewrite Z.quot_div_nonneg by lia.
    assert (0 <= z `div` 86400 <= z) by (split; [apply Z.div_pos | apply Z.div_le_upper_bound]; lia).
    lia.
  - replace z with (- (- z)) by lia. rewrite Z.quot_opp_l by lia.
    rewrite Z.quot_div_nonneg by lia.
    assert (0 <= (- z) `div` 86400 <= - z) by (split; [apply Z.div_pos | apply Z.div_le_upper_bound]; lia).
    lia.
Qed.

Lemma daysLeft_of_quot (notAfter now : Time) :
  in_int64 (time_Unix notAfter - time_Unix now) ->
  daysLeft_of notAfter now = Z.quot (time_Unix notAfter - time_Unix now) 86400.
Proof.
  intros Hd. unfold daysLeft_of, int64_div.
  rewrite (wrap64_id _ Hd). apply wrap64_id, quot_86400_in_int64, Hd.
Qed.

Lemma len_append {A} (s : slice A) (x : A) : len (append s x) = len s + 1.
Proof. unfold len, append. simpl. rewrite length_app. simpl. lia. Qed.

Lemma len_nonneg {A} (s : slice A) : 0 <= len s.
Proof. unfold len. lia. Qed.

Lemma elems_append {A} (s : slice A) (x : A) : elems (append s x) = elems s ++ [x].
Proof. reflexivity. Qed.

Lemma prefix_app (sub rest : string) : String.prefix sub (sub +:+ rest) = true.
Proof.
  induction sub as [| c sub IH].
  - destruct rest; reflexivity.
  - change (String c sub +:+ rest) with (String c (sub +:+ rest)).
    cbn [String.prefix]. destruct (Ascii.ascii_dec c c); [exact IH | congruence].
Qed.

Lemma contains_here (sub rest : string) : contains (sub +:+ rest) sub = true.
Proof.
  pose proof (prefix_app sub rest) as H.
  destruct (sub +:+ rest); cbn [contains]; rewrite H; reflexivity.
Qed.

Lemma contains_app_r (pre s sub : string) :
  contains s sub = true -> contains (pre +:+ s) sub = true.
Proof.
  intros H. induction pre as [| c pre IH]; [exact H |].
  change (String c pre +:+ s) with (String c (pre +:+ s)).
  cbn [contains]. rewrite IH. apply orb_true_r.
Qed.

Lemma contains_mid (pre sub post : string) :
  contains (pre +:+ sub +:+ post) sub = true.
Proof. apply contains_app_r, contains_here. Qed.

Lemma string_app_empty_r (s : string) : s +:+ EmptyString = s.
Proof.
  induction s as [| c s IH]; [reflexivity |].
  change (String c s +:+ EmptyString) with (String c (s +:+ EmptyString)).
  congruence.
Qed.

Lemma contains_end (pre sub : string) : contains (pre +:+ sub) sub = true.
Proof.
  pose proof (contains_mid pre sub EmptyString) as H.
  rewrite string_app_empty_r in H. exact H.
Qed.

Lemma string_app_assoc (a b c : string) : (a +:+ b) +:+ c = a +:+ (b +:+ c).
Proof.
  induction a as [| x a IH]; [reflexivity |].
  change ((String x a +:+ b) +:+ c) with (String x ((a +:+ b) +:+ c)).
  change (String x a +:+ (b +:+ c)) with (String x (a +:+ (b +:+ c))).
  congruence.
Qed.

Lemma elems_nil_len {A} (s : slice A) : elems s = [] <-> len s = 0.
Proof.
  unfold len. destruct (elems s); simpl; split; intros H; try done; lia.
Qed.

(* ===================================================================== *)
(** ** The expiry ladder (C1) *)
(* ===================================================================== *)

Lemma spec_severity_cases (cfg : ApplicationConfig) (d : Z) :
  (d <= 0 -> spec_severity cfg d = CRIT) /\
  (0 < d <= CritDaysLeft cfg -> spec_severity cfg d = CRIT) /\
  (0 < d -> CritDaysLeft cfg < d < WarnDaysLeft cfg -> spec_severity cfg d = WARN) /\
  (0 < d -> CritDaysLeft cfg < d -> WarnDaysLeft cfg <= d -> spec_severity cfg d = OK).
Proof.
  unfold spec_severity. repeat split; intros; repeat case_decide; done || lia.
Qed.

Lemma mentions_expired (notAfter : string) :
  contains (") expired on " +:+ notAfter) ("expired on " +:+ notAfter) = true.
Proof.
  change (") expired on " +:+ notAfter) with (") " +:+ "expired on " +:+ notAfter).
  apply contains_end.
Qed.

Lemma mentions_expiring (days rest : string) :
  contains (") will expire in " +:+ days +:+ " days (" +:+ rest)
    ("will expire in " +:+ days +:+ " days") = true.
Proof.
  change (") will expire in " +:+ days +:+ " days (" +:+ rest)
    with (") " +:+ "will expire in " +:+ days +:+ " days" +:+ " (" +:+ rest).
  rewrite <- (string_app_assoc days " days").
  rewrite <- (string_app_assoc "will expire in ").
  apply contains_mid.
Qed.

Module IngressFacts.
Import IngressVariant.

Lemma ing_collect_CommonNames_fields (x : Certificate) (c : CertificateInfo) :
  let c' := collect_CommonNames x c in
  Issuer c' = Issuer c /\ NotBefore c' = NotBefore c /\ NotAfter c' = NotAfter c /\
  DNSNames c' = DNSNames c /\ DaysLeft c' = DaysLeft c /\ IsValid c' = IsValid c.
Proof.
  unfold collect_CommonNames. revert c.
  induction (cert_SubjectNames x) as [| n ns IH]; intros c; simpl; [done |].
  specialize (IH (add_CommonName c n)). simpl in IH. exact IH.
Qed.

Lemma ing_msg_expired_text (ns name : string) (c : CertificateInfo) :
  contains (msg_expired ns name c) ("expired on " +:+ NotAfter c) = true.
Proof.
  unfold msg_expired. do 6 apply contains_app_r. apply mentions_expired.
Qed.

Lemma ing_msg_expiring_text (ns name : string) (c : CertificateInfo) :
  contains (msg_expiring ns name c)
    ("will expire in " +:+ fmt_d (DaysLeft c) +:+ " days") = true.
Proof.
  unfold msg_expiring. do 6 apply contains_app_r. apply mentions_expiring.
Qed.

Lemma ing_ladder_contract_holds (cfg : ApplicationConfig) (ns name : string)
    (c : CertificateInfo) (w e : slice string) :
  IsValid c = true ->
  let k' := expiry_ladder cfg ns name (DaysLeft c) (mkVerdict c w e) in
  ladder_contract cfg (DaysLeft c) (NotAfter c)
    (msg_expired ns name c) (msg_expiring ns name c)
    (IsValid (certInfo k')) w e (vd_warnings k') (vd_errors k').
Proof.
  intros Hv k'. subst k'. unfold ladder_contract, expiry_ladder.
  pose proof (spec_severity_cases cfg (DaysLeft c)) as (S1 & S2 & S3 & S4).
  pose proof (len_nonneg w). pose proof (len_nonneg e).
  pose proof (ing_msg_expired_text ns name c) as T1.
  pose proof (ing_msg_expiring_text ns name c) as T2.
  repeat case_decide; simpl; rewrite ?len_append;
    (repeat split; intros; try done; try lia; auto).
Qed.

Lemma ing_expiry_ladder_fields (cfg : ApplicationConfig) (ns name : string) (d : Z)
    (k : Verdict) :
  let c' := certInfo (expiry_ladder cfg ns name d k) in
  Issuer c' = Issuer (certInfo k) /\ CommonNames c' = CommonNames (certInfo k) /\
  NotBefore c' = NotBefore (certInfo k) /\ NotAfter c' = NotAfter (certInfo k) /\
  DNSNames c' = DNSNames (certInfo k) /\ DaysLeft c' = DaysLeft (certInfo k).
Proof. unfold expiry_ladder. repeat case_decide; done. Qed.

Lemma ing_expiry_ladder_OK (cfg : ApplicationConfig) (ns name : string) (d : Z)
    (k : Verdict) :
  spec_severity cfg d = OK -> expiry_ladder cfg ns name d k = k.
Proof.
  unfold spec_severity, expiry_ladder. repeat case_decide; done.
Qed.

Lemma msg_host_names_host (ns name h : string) :
  contains (msg_host ns name h) h = true.
Proof.
  unfold msg_host. rewrite <- !string_app_assoc. apply contains_end.
Qed.

Section Hosts.
Variable VerifyHostname : Certificate -> string -> option error.

Lemma ing_verify_hosts_spec (x : Certificate) (ns name : string)
    (hosts : slice string) (k : Verdict) :
  let k' := verify_hosts VerifyHostname x ns name hosts k in
  let bad := mismatching VerifyHostname x hosts in
  vd_warnings k' = vd_warnings k /\
  elems (vd_errors k') = elems (vd_errors k) ++ map (msg_host ns name) bad /\
  (bad = [] -> k' = k) /\
  (bad <> [] -> IsValid (certInfo k') = false) /\
  Issuer (certInfo k') = Issuer (certInfo k) /\
  CommonNames (certInfo k') = CommonNames (certInfo k) /\
  NotBefore (certInfo k') = NotBefore (certInfo k) /\
  NotAfter (certInfo k') = NotAfter (certInfo k) /\
  DNSNames (certInfo k') = DNSNames (certInfo k) /\
  DaysLeft (certInfo k') = DaysLeft (certInfo k).
Proof.
  unfold verify_hosts, mismatching. revert k.
  induction (elems hosts) as [| h hs IH]; intros k.
  - simpl. rewrite app_nil_r. done.
  - cbn [fold_left]. specialize (IH (verify_host VerifyHostname x ns name k h)).
    cbv zeta in IH. destruct IH as (Hw & He & Hnil & Hbad & F1 & F2 & F3 & F4 & F5 & F6).
    unfold verify_host in *. rewrite filter_cons.
    destruct (VerifyHostname x h) as [err |] eqn:Hv.
    + rewrite decide_True by done. cbn [certInfo vd_warnings vd_errors] in *.
      rewrite elems_append in He. rewrite <- app_assoc in He.
      split_and!; try done.
      destruct (decide (filter (fun h0 => VerifyHostname x h0 <> None) hs = [])) as [E | E].
      * rewrite (Hnil E). done.
      * intros _. auto.
    + rewrite decide_False by (intros H; apply H; done).
      split_and!; done.
Qed.

End Hosts.

End IngressFacts.

Module SecretFacts.
Import SecretVariant.

Lemma sec_collect_CommonNames_fields (x : Certificate) (c : CertificateInfo) :
  let c' := collect_CommonNames x c in
  SecretName c' = SecretName c /\ Namespace c' = Namespace c /\
  Issuer c' = Issuer c /\ NotBefore c' = NotBefore c /\ NotAfter c' = NotAfter c /\
  DNSNames c' = DNSNames c /\ DaysLeft c' = DaysLeft c /\ IsValid c' = IsValid c.
Proof.
  unfold collect_CommonNames. revert c.
  induction (cert_SubjectNames x) as [| n ns IH]; intros c; simpl; [done |].
  specialize (IH (add_CommonName c n)). simpl in IH. exact IH.
Qed.

Lemma sec_msg_expired_text (ns : string) (c : CertificateInfo) :
  contains (msg_expired ns c) ("expired on " +:+ NotAfter c) = true.
Proof.
  unfold msg_expired. do 6 apply contains_app_r. apply mentions_expired.
Qed.

Lemma sec_msg_expiring_text (ns : string) (c : CertificateInfo) :
  contains (msg_expiring ns c)
    ("will expire in " +:+ fmt_d (DaysLeft c) +:+ " days") = true.
Proof.
  unfold msg_expiring. do 6 apply contains_app_r. apply mentions_expiring.
Qed.

Lemma sec_ladder_contract_holds (cfg : ApplicationConfig) (ns : string)
    (c : CertificateInfo) (w e : slice string) :
  IsValid c = true ->
  let k' := expiry_ladder cfg ns (DaysLeft c) (mkVerdict c w e) in
  ladder_contract cfg (DaysLeft c) (NotAfter c)
    (msg_expired ns c) (msg_expiring ns c)
    (IsValid (certificateInfo k')) w e (vd_warnings k') (vd_errors k').
Proof.
  intros Hv k'. subst k'. unfold ladder_contract, expiry_ladder.
  pose proof (spec_severity_cases cfg (DaysLeft c)) as (S1 & S2 & S3 & S4).
  pose proof (len_nonneg w). pose proof (len_nonneg e).
  pose proof (sec_msg_expired_text ns c) as T1.
  pose proof (sec_msg_expiring_text ns c) as T2.
  repeat case_decide; simpl; rewrite ?len_append;
    (repeat split; intros; try done; try lia; auto).
Qed.

Lemma sec_classify_DaysLeft (cfg : ApplicationConfig) (ns : v1_Namespace)
    (secret : Secret) (x : Certificate) (now : Time) (w e : slice string) :
  DaysLeft (certificateInfo (classify cfg ns secret x now w e))
  = daysLeft_of (cert_NotAfter x) now.
Proof.
  unfold classify.
  pose proof (sec_collect_CommonNames_fields x
                (new_certificateInfo secret ns x (daysLeft_of (cert_NotAfter x) now))) as F.
  simpl in F. destruct F as (_ & _ & _ & _ & _ & _ & Hd & _).
  unfold expiry_ladder. repeat case_decide; exact Hd.
Qed.

End SecretFacts.

(** C1. For every parsed certificate the expiry ladder is first-match-wins:
    daysLeft <= 0 gives CRIT, isValid = false and the "expired on
    {notAfter}" diagnostic appended to the errors; otherwise daysLeft <=
    CritDaysLeft gives CRIT and the "will expire in {daysLeft} days"
    diagnostic appended to the errors; otherwise daysLeft < WarnDaysLeft
    gives WARN and that diagnostic appended to the warnings; otherwise OK
    and nothing is appended.  At most one expiry diagnostic is produced.
    Stated for the ladder of [getIngresses] (main.go:162-169) and the one of
    [getCertificateList] (part_000:153-160), on the record and the lists as
    the code has them when it reaches the ladder. *)
Theorem C1_expiry_ladder_first_match
    (cfg : ApplicationConfig) (x509Data : Certificate) (now : Time)
    (w e : slice string) :
  let d := daysLeft_of (cert_NotAfter x509Data) now in
  let notAfter := time_String (cert_NotAfter x509Data) in
  (forall (VerifyHostname : Certificate -> string -> option error)
          (nsName ingressName : string),
     let c := IngressVariant.collect_CommonNames x509Data
                (IngressVariant.new_certInfo x509Data d) in
     let k := IngressVariant.expiry_ladder cfg nsName ingressName d
                (IngressVariant.mkVerdict c w e) in
     IngressVariant.classify VerifyHostname cfg nsName ingressName None
       x509Data now w e = k /\
     ladder_contract cfg d notAfter
       (IngressVariant.msg_expired nsName ingressName c)
       (IngressVariant.msg_expiring nsName ingressName c)
       (IngressVariant.IsValid (IngressVariant.certInfo k))
       w e (IngressVariant.vd_warnings k) (IngressVariant.vd_errors k)) /\
  (forall (ns : v1_Namespace) (secret : Secret),
     let c := SecretVariant.collect_CommonNames x509Data
                (SecretVariant.new_certificateInfo secret ns x509Data d) in
     let k := SecretVariant.classify cfg ns secret x509Data now w e in
     ladder_contract cfg d notAfter
       (SecretVariant.msg_expired (ns_Name ns) c)
       (SecretVariant.msg_expiring (ns_Name ns) c)
       (SecretVariant.IsValid (SecretVariant.certificateInfo k))
       w e (SecretVariant.vd_warnings k) (SecretVariant.vd_errors k)).
Proof.
  intros d notAfter. split.
  - intros VerifyHostname nsName ingressName c k. split; [reflexivity |].
    pose proof (IngressFacts.ing_collect_CommonNames_fields x509Data
                  (IngressVariant.new_certInfo x509Data d)) as F.
    simpl in F. destruct F as (_ & _ & Hna & _ & Hd & Hv).
    fold c in Hna, Hd, Hv.
    pose proof (IngressFacts.ing_ladder_contract_holds cfg nsName ingressName c w e Hv) as L.
    simpl in L. rewrite Hd, Hna in L. exact L.
  - intros ns secret c k.
    pose proof (SecretFacts.sec_collect_CommonNames_fields x509Data
                  (SecretVariant.new_certificateInfo secret ns x509Data d)) as F.
    simpl in F. destruct F as (_ & _ & _ & _ & Hna & _ & Hd & Hv).
    fold c in Hna, Hd, Hv.
    pose proof (SecretFacts.sec_ladder_contract_holds cfg (ns_Name ns) c w e Hv) as L.
    simpl in L. rewrite Hd, Hna in L. exact L.
Qed.

(* ===================================================================== *)
(** ** daysLeft (C4) *)
(* ===================================================================== *)

(** C4 does not hold as stated: one second after expiry the program
    computes daysLeft = 0 (truncation toward zero), the floor of -1/86400
    is -1. *)
Lemma C4_daysLeft_is_not_floor :
  let notAfter := mkTime 1699999999 "2023-11-14 22:13:19 +0000 UTC" in
  let now := mkTime 1700000000 "2023-11-14 22:13:20 +0000 UTC" in
  daysLeft_of notAfter now = 0 /\
  (time_Unix notAfter - time_Unix now) `div` 86400 = -1 /\
  daysLeft_of notAfter now <> (time_Unix notAfter - time_Unix now) `div` 86400.
Proof. vm_compute. repeat split; congruence. Qed.

(** C4, amended. For every parsed certificate and current time whose
    difference in seconds is an int64, daysLeft is that difference divided
    by 86400 with truncation toward zero.  It is the floor when notAfter is
    not before now or the difference is a whole number of days, and the
    floor plus one otherwise; both variants store it in the record. *)
Theorem C4_daysLeft_truncates_toward_zero
    (x509Data : Certificate) (now : Time) :
  let diff := time_Unix (cert_NotAfter x509Data) - time_Unix now in
  let daysLeft := daysLeft_of (cert_NotAfter x509Data) now in
  in_int64 diff ->
  daysLeft = Z.quot diff 86400 /\
  (0 <= diff -> daysLeft = diff `div` 86400) /\
  (diff < 0 -> daysLeft = - ((- diff) `div` 86400)) /\
  (diff `mod` 86400 = 0 -> daysLeft = diff `div` 86400) /\
  (diff < 0 -> diff `mod` 86400 <> 0 -> daysLeft = diff `div` 86400 + 1) /\
  (forall VerifyHostname cfg nsName ingressName hosts w e,
     IngressVariant.DaysLeft
       (IngressVariant.certInfo
          (IngressVariant.classify VerifyHostname cfg nsName ingressName hosts
             x509Data now w e)) = Z.quot diff 86400) /\
  (forall cfg ns secret w e,
     SecretVariant.DaysLeft
       (SecretVariant.certificateInfo
          (SecretVariant.classify cfg ns secret x509Data now w e))
     = Z.quot diff 86400).
Proof.
  intros diff daysLeft Hd.
  assert (Hq : daysLeft = Z.quot diff 86400) by (apply daysLeft_of_quot, Hd).
  pose proof (Z.quot_rem' diff 86400) as Hqr.
  pose proof (Z.div_mod diff 86400 ltac:(lia)) as Hdm.
  pose proof (Z.mod_pos_bound diff 86400 ltac:(lia)) as Hmb.
  assert (Hrb : (0 <= diff -> 0 <= Z.rem diff 86400 < 86400) /\
                (diff <= 0 -> - 86400 < Z.rem diff 86400 <= 0)).
  { split; intros.
    - apply Z.rem_bound_pos; lia.
    - pose proof (Z.rem_bound_pos_neg diff 86400 ltac:(lia) ltac:(lia)). lia. }
  destruct Hrb as [Hrp Hrn].
  split_and!.
  - exact Hq.
  - intros. rewrite Hq. specialize (Hrp ltac:(lia)). lia.
  - intros. rewrite Hq.
    pose proof (Z.div_mod (- diff) 86400 ltac:(lia)).
    pose proof (Z.mod_pos_bound (- diff) 86400 ltac:(lia)).
    specialize (Hrn ltac:(lia)). lia.
  - intros. rewrite Hq.
    destruct (Z.le_gt_cases 0 diff); [specialize (Hrp ltac:(lia)) | specialize (Hrn ltac:(lia))]; lia.
  - intros. rewrite Hq. specialize (Hrn ltac:(lia)). lia.
  - intros. unfold IngressVariant.classify.
    pose proof (IngressFacts.ing_verify_hosts_spec VerifyHostname x509Data nsName
                  ingressName hosts) as V.
    cbv zeta in V. edestruct V as (_ & _ & _ & _ & _ & _ & _ & _ & _ & ->).
    pose proof (IngressFacts.ing_expiry_ladder_fields cfg nsName ingressName) as L.
    cbv zeta in L. edestruct L as (_ & _ & _ & _ & _ & ->).
    cbn [IngressVariant.certInfo].
    pose proof (IngressFacts.ing_collect_CommonNames_fields x509Data) as F.
    cbv zeta in F. edestruct F as (_ & _ & _ & _ & -> & _).
    exact Hq.
  - intros. rewrite SecretFacts.sec_classify_DaysLeft. exact Hq.
Qed.

(** The certificate of the examples that expired one second ago is inside
    the range of C4: its daysLeft is 0. *)
Lemma C4_daysLeft_witness :
  in_int64 (time_Unix (cert_NotAfter Demo.cert_gone) - time_Unix (Demo.time_Now 0)) /\
  daysLeft_of (cert_NotAfter Demo.cert_gone) (Demo.time_Now 0) = 0.
Proof.
  assert (H : in_int64 (time_Unix (cert_NotAfter Demo.cert_gone)
                        - time_Unix (Demo.time_Now 0)))
    by (vm_compute; split; congruence).
  split; [exact H |].
  exact (proj1 (C4_daysLeft_truncates_toward_zero Demo.cert_gone (Demo.time_Now 0) H)).
Defined.

(* ===================================================================== *)
(** ** The status code of the handler (C6) *)
(* ===================================================================== *)

Lemma len_pos_iff {A} (s : slice A) : len s > 0 <-> elems s <> [].
Proof.
  rewrite elems_nil_len. pose proof (len_nonneg s). lia.
Qed.

Lemma len_npos_iff {A} (s : slice A) : ~ len s > 0 <-> elems s = [].
Proof.
  rewrite elems_nil_len. pose proof (len_nonneg s). lia.
Qed.

(** C6. For every snapshot the handler answers 202 if the errors list is
    non-empty, whatever the warnings are; otherwise 201 if the warnings
    list is non-empty; otherwise 200; so 200 exactly when both lists are
    empty.  Both variants, whatever [json.MarshalIndent] returns. *)
Theorem C6_status_code_tiers :
  (forall (json : IngressVariant.StatusResponse -> result string)
          (s : IngressVariant.StatusResponse),
     let code := resp_StatusCode (IngressVariant.handler json s) in
     (elems (IngressVariant.Errors s) <> [] -> code = 202) /\
     (elems (IngressVariant.Errors s) = [] ->
      elems (IngressVariant.Warnings s) <> [] -> code = 201) /\
     (elems (IngressVariant.Errors s) = [] ->
      elems (IngressVariant.Warnings s) = [] -> code = 200) /\
     (code = 200 <->
      elems (IngressVariant.Errors s) = [] /\ elems (IngressVariant.Warnings s) = [])) /\
  (forall (json : SecretVariant.StatusResponse -> result string)
          (s : SecretVariant.StatusResponse),
     let code := resp_StatusCode (SecretVariant.handler json s) in
     (elems (SecretVariant.Errors s) <> [] -> code = 202) /\
     (elems (SecretVariant.Errors s) = [] ->
      elems (SecretVariant.Warnings s) <> [] -> code = 201) /\
     (elems (SecretVariant.Errors s) = [] ->
      elems (SecretVariant.Warnings s) = [] -> code = 200) /\
     (code = 200 <->
      elems (SecretVariant.Errors s) = [] /\ elems (SecretVariant.Warnings s) = [])).
Proof.
  split; intros json s code; subst code.
  - unfold IngressVariant.handler, IngressVariant.status_code.
    pose proof (len_pos_iff (IngressVariant.Errors s)) as He.
    pose proof (len_pos_iff (IngressVariant.Warnings s)) as Hw.
    pose proof (len_npos_iff (IngressVariant.Errors s)) as He'.
    pose proof (len_npos_iff (IngressVariant.Warnings s)) as Hw'.
    destruct (json s); cbn [resp_StatusCode]; repeat case_decide;
      intuition (try congruence; try lia).
  - unfold SecretVariant.handler, SecretVariant.status_code.
    pose proof (len_pos_iff (SecretVariant.Errors s)) as He.
    pose proof (len_pos_iff (SecretVariant.Warnings s)) as Hw.
    pose proof (len_npos_iff (SecretVariant.Errors s)) as He'.
    pose proof (len_npos_iff (SecretVariant.Warnings s)) as Hw'.
    destruct (json s); cbn [resp_StatusCode]; repeat case_decide;
      intuition (try congruence; try lia).
Qed.

(* ===================================================================== *)
(** ** The hostname check of the ingress variant (C5, C3) *)
(* ===================================================================== *)

(** C5. Every expected hostname of a source is passed to [VerifyHostname];
    each one it rejects appends one diagnostic naming that host and forces
    isValid = false; the loop does not stop at the first rejection (the
    diagnostics are those of all rejected hosts, in order); and the check
    leaves the expiry tier alone: warnings, daysLeft and the expiry
    diagnostics are those of the same certificate without expected hosts. *)
Theorem C5_every_expected_host_is_checked
    (VerifyHostname : Certificate -> string -> option error)
    (cfg : ApplicationConfig) (nsName ingressName : string)
    (hosts : slice string) (x509Data : Certificate) (now : Time)
    (w e : slice string) :
  let k0 := IngressVariant.classify VerifyHostname cfg nsName ingressName None
              x509Data now w e in
  let k := IngressVariant.classify VerifyHostname cfg nsName ingressName hosts
             x509Data now w e in
  let bad := mismatching VerifyHostname x509Data hosts in
  elems (IngressVariant.vd_errors k)
  = elems (IngressVariant.vd_errors k0)
    ++ map (IngressVariant.msg_host nsName ingressName) bad /\
  (forall h, h ∈ elems hosts ->
     (VerifyHostname x509Data h <> None ->
      h ∈ bad /\
      IngressVariant.msg_host nsName ingressName h ∈ elems (IngressVariant.vd_errors k) /\
      contains (IngressVariant.msg_host nsName ingressName h) h = true /\
      IngressVariant.IsValid (IngressVariant.certInfo k) = false) /\
     (VerifyHostname x509Data h = None -> h ∉ bad)) /\
  (bad = [] -> k = k0) /\
  IngressVariant.vd_warnings k = IngressVariant.vd_warnings k0 /\
  IngressVariant.DaysLeft (IngressVariant.certInfo k)
  = IngressVariant.DaysLeft (IngressVariant.certInfo k0) /\
  spec_severity cfg (IngressVariant.DaysLeft (IngressVariant.certInfo k))
  = spec_severity cfg (daysLeft_of (cert_NotAfter x509Data) now).
Proof.
  intros k0 k bad.
  set (d := daysLeft_of (cert_NotAfter x509Data) now).
  set (c := IngressVariant.collect_CommonNames x509Data
              (IngressVariant.new_certInfo x509Data d)).
  set (k1 := IngressVariant.expiry_ladder cfg nsName ingressName d
               (IngressVariant.mkVerdict c w e)).
  assert (E0 : k0 = k1) by reflexivity.
  pose proof (IngressFacts.ing_verify_hosts_spec VerifyHostname x509Data nsName
                ingressName hosts k1) as V.
  cbv zeta in V. fold bad in V.
  change (IngressVariant.verify_hosts VerifyHostname x509Data nsName ingressName
            hosts k1) with k in V.
  destruct V as (Hw & He & Hnil & Hbad & _ & _ & _ & _ & _ & Hd).
  assert (Hmem : forall h, h ∈ bad <-> h ∈ elems hosts /\ VerifyHostname x509Data h <> None).
  { intros h. unfold bad, mismatching. rewrite list_elem_of_filter. tauto. }
  rewrite E0. split_and!; try done.
  - intros h Hin. split.
    + intros Hv. assert (Hb : h ∈ bad) by (apply Hmem; done).
      split_and!.
      * exact Hb.
      * apply list_elem_of_In. rewrite He. apply in_or_app. right.
        apply in_map, list_elem_of_In, Hb.
      * apply IngressFacts.msg_host_names_host.
      * apply Hbad. intros Hn. rewrite Hn in Hb. by apply not_elem_of_nil in Hb.
    + intros Hv Hb. apply Hmem in Hb. tauto.
  - rewrite Hd.
    pose proof (IngressFacts.ing_expiry_ladder_fields cfg nsName ingressName d
                  (IngressVariant.mkVerdict c w e)) as L.
    cbv zeta in L. fold k1 in L. destruct L as (_ & _ & _ & _ & _ & ->).
    cbn [IngressVariant.certInfo].
    pose proof (IngressFacts.ing_collect_CommonNames_fields x509Data
                  (IngressVariant.new_certInfo x509Data d)) as F.
    cbv zeta in F. fold c in F. destruct F as (_ & _ & _ & _ & -> & _).
    reflexivity.
Qed.

(** C3 does not hold as stated.  The cluster of the examples: ingress
    [prod/web] expects [a.example.com] and [b.example.com], its certificate
    expires in 100 days (thresholds 3 and 30, so the tier is OK) and covers
    only [a.example.com].  After one refresh the record has isValid = false
    and the diagnostic naming [b.example.com] is in the errors list, so the
    handler answers 202, not 200. *)
Lemma C3_mismatch_alone_answers_202 :
  let cfg := Demo.config (Demo.client (Demo.get_ok "-far") [] None) in
  let p := IngressVariant.refresh_iteration Demo.pem_Decode
             Demo.x509_ParseCertificate Demo.VerifyHostname Demo.time_Now cfg
             (IngressVariant.mkProcess IngressVariant.initial_status 0) in
  let s := IngressVariant.currentStatus p in
  spec_severity cfg (daysLeft_of (cert_NotAfter Demo.cert_far) (Demo.time_Now 1)) = OK /\
  Demo.VerifyHostname Demo.cert_far "b.example.com" <> None /\
  (IngressVariant.IsValid <$>
     (head (elems (IngressVariant.Certificates s)) ≫= IngressVariant.certificate))
  = Some false /\
  IngressVariant.Warnings s = None /\
  IngressVariant.Errors s
  = Some ["certificate for prod/web is not valid for host b.example.com"] /\
  resp_StatusCode (IngressVariant.handler Demo.json_MarshalIndent s) = 202 /\
  ~ (resp_StatusCode (IngressVariant.handler Demo.json_MarshalIndent s) = 200 /\
     elems (IngressVariant.Errors s) = [] /\
     elems (IngressVariant.Warnings s) = []).
Proof.
  vm_compute. split_and!; try reflexivity; try discriminate.
  intros (H & _). discriminate H.
Qed.

(** C3, amended. For every certificate of the ingress variant that is far
    from expiry (tier OK) but is rejected for at least one expected
    hostname, the record has isValid = false, one diagnostic naming each
    rejected host is appended to the errors list, the warnings are
    untouched, and a snapshot carrying these errors is answered with 202. *)
Theorem C3_hostname_mismatch_is_an_error
    (VerifyHostname : Certificate -> string -> option error)
    (json : IngressVariant.StatusResponse -> result string)
    (cfg : ApplicationConfig) (nsName ingressName : string)
    (hosts : slice string) (x509Data : Certificate) (now : Time)
    (w e : slice string) (lastUpdated : string)
    (certs : slice IngressVariant.IngressInfo) :
  let k := IngressVariant.classify VerifyHostname cfg nsName ingressName hosts
             x509Data now w e in
  let bad := mismatching VerifyHostname x509Data hosts in
  spec_severity cfg (daysLeft_of (cert_NotAfter x509Data) now) = OK ->
  bad <> [] ->
  IngressVariant.IsValid (IngressVariant.certInfo k) = false /\
  IngressVariant.vd_warnings k = w /\
  elems (IngressVariant.vd_errors k)
  = elems e ++ map (IngressVariant.msg_host nsName ingressName) bad /\
  (forall h, contains (IngressVariant.msg_host nsName ingressName h) h = true) /\
  resp_StatusCode
    (IngressVariant.handler json
       (IngressVariant.mkStatusResponse lastUpdated (IngressVariant.vd_errors k)
          (IngressVariant.vd_warnings k) certs)) = 202.
Proof.
  intros k bad Hok Hbad.
  set (c := IngressVariant.collect_CommonNames x509Data
              (IngressVariant.new_certInfo x509Data
                 (daysLeft_of (cert_NotAfter x509Data) now))).
  assert (Ek : k = IngressVariant.verify_hosts VerifyHostname x509Data nsName
                     ingressName hosts (IngressVariant.mkVerdict c w e)).
  { unfold k, IngressVariant.classify.
    rewrite (IngressFacts.ing_expiry_ladder_OK _ _ _ _ _ Hok). reflexivity. }
  pose proof (IngressFacts.ing_verify_hosts_spec VerifyHostname x509Data nsName
                ingressName hosts (IngressVariant.mkVerdict c w e)) as V.
  cbv zeta in V. fold bad in V. rewrite <- Ek in V.
  destruct V as (Hw & He & _ & Hinv & _).
  cbn [IngressVariant.vd_warnings IngressVariant.vd_errors] in Hw, He.
  split_and!; auto using IngressFacts.msg_host_names_host.
  unfold IngressVariant.handler, IngressVariant.status_code.
  cbn [IngressVariant.Errors IngressVariant.Warnings].
  assert (Hpos : len (IngressVariant.vd_errors k) > 0).
  { apply len_pos_iff. rewrite He. destruct bad; [done |].
    intros Hn. apply app_eq_nil in Hn as [_ Hn]. discriminate Hn. }
  destruct (json _); cbn [resp_StatusCode]; rewrite decide_True by exact Hpos; reflexivity.
Qed.

(** The certificate of the examples that expires in 100 days, expected to
    cover [a.example.com] and [b.example.com], is an instance of C3. *)
Lemma C3_hostname_mismatch_witness :
  let cfg := Demo.config (Demo.client (Demo.get_ok "-far") [] None) in
  let hosts := Some ["a.example.com"; "b.example.com"] in
  spec_severity cfg (daysLeft_of (cert_NotAfter Demo.cert_far) (Demo.time_Now 0)) = OK /\
  mismatching Demo.VerifyHostname Demo.cert_far hosts <> [] /\
  IngressVariant.IsValid
    (IngressVariant.certInfo
       (IngressVariant.classify Demo.VerifyHostname cfg "prod" "web" hosts
          Demo.cert_far (Demo.time_Now 0) None None)) = false.
Proof.
  intros cfg hosts.
  assert (H1 : spec_severity cfg
                 (daysLeft_of (cert_NotAfter Demo.cert_far) (Demo.time_Now 0)) = OK)
    by reflexivity.
  assert (H2 : mismatching Demo.VerifyHostname Demo.cert_far hosts <> [])
    by (vm_compute; discriminate).
  split_and!; [exact H1 | exact H2 |].
  exact (proj1 (C3_hostname_mismatch_is_an_error Demo.VerifyHostname
                  Demo.json_MarshalIndent cfg "prod" "web" hosts Demo.cert_far
                  (Demo.time_Now 0) None None EmptyString None H1 H2)).
Defined.

(* ===================================================================== *)
(** ** Sources whose certificate cannot be fetched or parsed (C7) *)
(* ===================================================================== *)

Lemma fold_left_preserves {A B} (f : A -> B -> A) (Q : A -> Prop) (l : list B) :
  (forall s y, Q s -> Q (f s y)) -> forall s, Q s -> Q (fold_left f l s).
Proof.
  intros Hstep. induction l as [| y l IH]; intros s Hs; simpl; auto.
Qed.

Lemma fold_left_reaches {A B} (f : A -> B -> A) (Q : A -> Prop) (l : list B)
    (x : B) :
  x ∈ l -> (forall s, Q (f s x)) -> (forall s y, Q s -> Q (f s y)) ->
  forall s, Q (fold_left f l s).
Proof.
  intros Hin Hx Hstep. induction l as [| y l IH]; intros s.
  - by apply not_elem_of_nil in Hin.
  - simpl. apply elem_of_cons in Hin as [-> | Hin].
    + apply fold_left_preserves; auto.
    + apply IH, Hin.
Qed.

Lemma contains_mid3 (pre a b c post : string) :
  contains (pre +:+ a +:+ b +:+ c +:+ post) (a +:+ b +:+ c) = true.
Proof.
  rewrite <- (string_app_assoc b c post), <- (string_app_assoc a (b +:+ c) post).
  apply contains_mid.
Qed.

Module IngressCycle.
Import IngressVariant.

Section Run.
Variable pem_Decode : bytes -> option bytes.
Variable x509_ParseCertificate : bytes -> result Certificate.
Variable VerifyHostname : Certificate -> string -> option error.
Variable time_Now : nat -> Time.
Variable cfg : ApplicationConfig.

Lemma getx509Data_failure (src : IngressInfo) (err : error) :
  getx509Data pem_Decode x509_ParseCertificate (KubeClient cfg) src = Err err ->
  match Secrets_Get (KubeClient cfg) (Namespace src) (TLSSecretName src) with
  | Err e0 => err = e0
  | Ok _ => contains err (Namespace src +:+ "/" +:+ TLSSecretName src) = true
  end.
Proof.
  unfold getx509Data.
  destruct (Secrets_Get _ _ _) as [secret | e0]; [| congruence].
  destruct (sec_Data secret !! "tls.crt") as [tlsCrt |].
  - case_decide.
    + intros [= <-]. apply contains_mid3.
    + destruct (pem_Decode tlsCrt) as [b |].
      * destruct (x509_ParseCertificate b); [discriminate |].
        intros [= <-]. apply contains_end.
      * intros [= <-]. apply contains_end.
  - intros [= <-]. apply contains_end.
Qed.

Lemma classify_keeps_errors (ns name : string) (hosts : slice string)
    (x : Certificate) (now : Time) (w e : slice string) (m : string) :
  m ∈ elems e ->
  m ∈ elems (vd_errors (classify VerifyHostname cfg ns name hosts x now w e)).
Proof.
  intros Hm. unfold classify.
  pose proof (IngressFacts.ing_verify_hosts_spec VerifyHostname x ns name hosts) as V.
  cbv zeta in V. edestruct V as (_ & -> & _).
  apply elem_of_app. left.
  unfold expiry_ladder. repeat case_decide; cbn [vd_errors]; rewrite ?elems_append;
    try apply elem_of_app; auto.
Qed.

Lemma tls_step_keeps_errors (ns : v1_Namespace) (ingress : Ingress)
    (st : Cycle) (tlsSpec : IngressTLS) (m : string) :
  m ∈ elems (errors st) ->
  m ∈ elems (errors (tls_step pem_Decode x509_ParseCertificate VerifyHostname
                       time_Now cfg ns ingress st tlsSpec)).
Proof.
  intros Hm. unfold tls_step. destruct (getx509Data _ _ _ _); cbn [errors].
  - by apply classify_keeps_errors.
  - rewrite elems_append. apply elem_of_app. by left.
Qed.

Lemma ingress_step_keeps_errors (ns : v1_Namespace) (st : Cycle)
    (ingress : Ingress) (m : string) :
  m ∈ elems (errors st) ->
  m ∈ elems (errors (ingress_step pem_Decode x509_ParseCertificate VerifyHostname
                       time_Now cfg ns st ingress)).
Proof.
  unfold ingress_step.
  apply (fold_left_preserves _ (fun s => m ∈ elems (errors s))).
  intros s y. apply tls_step_keeps_errors.
Qed.

Lemma namespace_step_keeps_errors (st : Cycle) (ns : v1_Namespace) (m : string) :
  m ∈ elems (errors st) ->
  m ∈ elems (errors (namespace_step pem_Decode x509_ParseCertificate VerifyHostname
                       time_Now cfg None st ns)).
Proof.
  unfold namespace_step. destruct (Ingresses_List _ _) as [ingresses ?].
  apply (fold_left_preserves _ (fun s => m ∈ elems (errors s))).
  intros s y. apply ingress_step_keeps_errors.
Qed.

Lemma tls_step_failure (ns : v1_Namespace) (ingress : Ingress) (st : Cycle)
    (tlsSpec : IngressTLS) (err : error) :
  getx509Data pem_Decode x509_ParseCertificate (KubeClient cfg)
    (source_of ns ingress tlsSpec) = Err err ->
  tls_step pem_Decode x509_ParseCertificate VerifyHostname time_Now cfg ns
    ingress st tlsSpec = record_error err st.
Proof.
  intros H. unfold tls_step. fold (source_of ns ingress tlsSpec). rewrite H.
  reflexivity.
Qed.

End Run.
End IngressCycle.

(** C7 does not hold as stated.  In the cluster of the examples the
    secret [web-tls] of ingress [prod/web] is missing: the one message
    appended is the text of the client's error, which names the secret but
    not the namespace [prod] (and not the ingress [web]). *)
Lemma C7_missing_secret_message_lacks_namespace :
  let cfg := Demo.config (Demo.client Demo.get_missing [] None) in
  let r := IngressVariant.getIngresses Demo.pem_Decode Demo.x509_ParseCertificate
             Demo.VerifyHostname Demo.time_Now cfg 0 in
  IngressVariant.getx509Data Demo.pem_Decode Demo.x509_ParseCertificate
    (KubeClient cfg)
    (source_of (mkNamespace "prod")
       (mkIngress "web" [mkIngressTLS (Some ["a.example.com"; "b.example.com"]) "web-tls"])
       (mkIngressTLS (Some ["a.example.com"; "b.example.com"]) "web-tls"))
  = Err (Demo.not_found "web-tls") /\
  IngressVariant.errors r = Some [Demo.not_found "web-tls"] /\
  contains (Demo.not_found "web-tls") "prod" = false /\
  ~ (forall m, m ∈ elems (IngressVariant.errors r) -> contains m "prod" = true).
Proof.
  vm_compute. split_and!; try reflexivity.
  intros H. specialize (H _ (list_elem_of_here _ _)). vm_compute in H. discriminate H.
Qed.

(** C7, amended. For every source of the ingress variant whose certificate
    fetch or parse fails, exactly one error message is appended to the
    cycle's error list and nothing to the records or the warnings; the
    message of a missing or empty [tls.crt], of a PEM decode failure and of
    an X.509 parse failure contains the namespace and the name of the TLS
    secret, the message of a failed fetch of the secret is the client's
    error text as it is; the remaining sources are processed, and the
    message is in the errors of the snapshot the cycle installs. *)
Theorem C7_failed_source_is_one_error
    (pem_Decode : bytes -> option bytes)
    (x509_ParseCertificate : bytes -> result Certificate)
    (VerifyHostname : Certificate -> string -> option error)
    (time_Now : nat -> Time) (cfg : ApplicationConfig)
    (ns : v1_Namespace) (ingress : Ingress) (tlsSpec : IngressTLS) (err : error) :
  let run_tls := IngressVariant.tls_step pem_Decode x509_ParseCertificate
                   VerifyHostname time_Now cfg ns ingress in
  IngressVariant.getx509Data pem_Decode x509_ParseCertificate (KubeClient cfg)
    (source_of ns ingress tlsSpec) = Err err ->
  (forall st,
     IngressVariant.errors (run_tls st tlsSpec)
     = append (IngressVariant.errors st) err /\
     IngressVariant.ingressInfoList (run_tls st tlsSpec)
     = IngressVariant.ingressInfoList st /\
     IngressVariant.warnings (run_tls st tlsSpec) = IngressVariant.warnings st) /\
  match Secrets_Get (KubeClient cfg) (ns_Name ns) (tls_SecretName tlsSpec) with
  | Err e0 => err = e0
  | Ok _ =>
    contains err (ns_Name ns +:+ "/" +:+ tls_SecretName tlsSpec) = true
  end /\
  (forall pre post st, ing_TLS ingress = pre ++ tlsSpec :: post ->
     IngressVariant.ingress_step pem_Decode x509_ParseCertificate VerifyHostname
       time_Now cfg ns st ingress
     = fold_left run_tls post (record_error err (fold_left run_tls pre st))) /\
  (forall namespaces p,
     Namespaces_List (KubeClient cfg) = Ok namespaces ->
     ns ∈ namespaces ->
     ingress ∈ (Ingresses_List (KubeClient cfg) (ns_Name ns)).1 ->
     tlsSpec ∈ ing_TLS ingress ->
     err ∈ elems (IngressVariant.Errors
                    (IngressVariant.currentStatus
                       (IngressVariant.refresh_iteration pem_Decode
                          x509_ParseCertificate VerifyHostname time_Now cfg p)))).
Proof.
  intros run_tls Hfail.
  assert (Hstep : forall st, run_tls st tlsSpec = record_error err st)
    by (intros st; apply IngressCycle.tls_step_failure, Hfail).
  split_and!.
  - intros st. rewrite Hstep. done.
  - apply (IngressCycle.getx509Data_failure _ _ _ _ _ Hfail).
  - intros pre post st E. unfold IngressVariant.ingress_step. rewrite E.
    rewrite fold_left_app. cbn [fold_left]. fold run_tls. rewrite Hstep. reflexivity.
  - intros namespaces p Hns Hin_ns Hin_ing Hin_tls.
    unfold IngressVariant.refresh_iteration. cbn [IngressVariant.currentStatus IngressVariant.Errors].
    unfold IngressVariant.getIngresses. rewrite Hns.
    apply (fold_left_reaches _ (fun s => err ∈ elems (IngressVariant.errors s)) _ ns Hin_ns);
      [| intros s y; apply IngressCycle.namespace_step_keeps_errors].
    intros s. unfold IngressVariant.namespace_step.
    destruct (Ingresses_List (KubeClient cfg) (ns_Name ns)) as [ingresses lerr].
    cbn [fst] in Hin_ing.
    apply (fold_left_reaches _ (fun s => err ∈ elems (IngressVariant.errors s)) _ ingress Hin_ing);
      [| intros s' y; apply IngressCycle.ingress_step_keeps_errors].
    intros s'. unfold IngressVariant.ingress_step.
    apply (fold_left_reaches _ (fun s => err ∈ elems (IngressVariant.errors s)) _ tlsSpec Hin_tls);
      [| intros s'' y; apply IngressCycle.tls_step_keeps_errors].
    intros s''. fold run_tls. rewrite Hstep. unfold record_error.
    cbn [IngressVariant.errors]. rewrite elems_append. apply elem_of_app. right.
    apply list_elem_of_here.
Qed.

(** In the cluster of the examples, a [tls.crt] that holds no PEM block is
    an instance of C7. *)
Lemma C7_failed_source_witness :
  let cfg := Demo.config (Demo.client (Demo.get_ok "far") [] None) in
  let tlsSpec := mkIngressTLS (Some ["a.example.com"; "b.example.com"]) "web-tls" in
  let ingress := mkIngress "web" [tlsSpec] in
  let err := "Failed to decode certificate prod/web-tls" in
  IngressVariant.getx509Data Demo.pem_Decode Demo.x509_ParseCertificate
    (KubeClient cfg) (source_of (mkNamespace "prod") ingress tlsSpec) = Err err /\
  contains err "prod/web-tls" = true.
Proof.
  intros cfg tlsSpec ingress err.
  assert (H : IngressVariant.getx509Data Demo.pem_Decode Demo.x509_ParseCertificate
                (KubeClient cfg) (source_of (mkNamespace "prod") ingress tlsSpec)
              = Err err) by reflexivity.
  split; [exact H |].
  exact (proj1 (proj2 (C7_failed_source_is_one_error Demo.pem_Decode
                         Demo.x509_ParseCertificate Demo.VerifyHostname Demo.time_Now
                         cfg (mkNamespace "prod") ingress tlsSpec err H))).
Defined.

(* ===================================================================== *)
(** ** Failures of the listings (C8, C9) and nil results (C10) *)
(* ===================================================================== *)

(** C8. If the enumeration of the namespaces fails, the cycle records
    exactly one error (the text of that failure), returns no records, and
    the iteration still installs a snapshot built from these, whatever the
    previous snapshot held.  Both variants. *)
Theorem C8_enumeration_failure_is_one_error
    (pem_Decode : bytes -> option bytes)
    (x509_ParseCertificate : bytes -> result Certificate)
    (VerifyHostname : Certificate -> string -> option error)
    (time_Now : nat -> Time) (cfg : ApplicationConfig) (e : error) :
  Namespaces_List (KubeClient cfg) = Err e ->
  (forall p : IngressVariant.Process,
     let s := IngressVariant.currentStatus
                (IngressVariant.refresh_iteration pem_Decode x509_ParseCertificate
                   VerifyHostname time_Now cfg p) in
     IngressVariant.Errors s = Some [e] /\
     IngressVariant.Certificates s = None /\
     len (IngressVariant.Certificates s) = 0 /\
     IngressVariant.Warnings s = None) /\
  (forall p : SecretVariant.Process,
     let s := SecretVariant.currentStatus
                (SecretVariant.refresh_iteration pem_Decode x509_ParseCertificate
                   time_Now cfg p) in
     SecretVariant.Errors s = Some [e] /\
     SecretVariant.Certificates s = None /\
     len (SecretVariant.Certificates s) = 0 /\
     SecretVariant.Warnings s = None).
Proof.
  intros Hfail. split; intros p s; subst s.
  - unfold IngressVariant.refresh_iteration, IngressVariant.getIngresses.
    rewrite Hfail. done.
  - unfold SecretVariant.refresh_iteration, SecretVariant.getCertificateList.
    rewrite Hfail. done.
Qed.

(** A client whose namespace enumeration fails with [boom], after a
    snapshot that held an error of its own. *)
Lemma C8_enumeration_failure_witness :
  let cfg := Demo.config (Demo.client_down "boom") in
  let before := IngressVariant.mkProcess
                  (IngressVariant.mkStatusResponse "earlier" (Some ["old"]) None None) 7 in
  Namespaces_List (KubeClient cfg) = Err "boom" /\
  IngressVariant.Errors
    (IngressVariant.currentStatus
       (IngressVariant.refresh_iteration Demo.pem_Decode Demo.x509_ParseCertificate
          Demo.VerifyHostname Demo.time_Now cfg before)) = Some ["boom"].
Proof.
  intros cfg before.
  assert (H : Namespaces_List (KubeClient cfg) = Err "boom") by reflexivity.
  split; [exact H |].
  exact (proj1 (proj1 (C8_enumeration_failure_is_one_error Demo.pem_Decode
                         Demo.x509_ParseCertificate Demo.VerifyHostname Demo.time_Now
                         cfg "boom" H) before)).
Defined.

(** C9 does not hold as stated.  With a client whose per-namespace
    listings fail, nothing is appended: the ingress variant returns nil
    lists, the secret variant empty ones, and the handler answers 200. *)
Lemma C9_listing_failure_is_dropped :
  let cfg := Demo.config (Demo.client_list_fails "ingresses is forbidden") in
  let r := IngressVariant.getIngresses Demo.pem_Decode Demo.x509_ParseCertificate
             Demo.VerifyHostname Demo.time_Now cfg 0 in
  let r' := SecretVariant.getCertificateList Demo.pem_Decode
              Demo.x509_ParseCertificate Demo.time_Now cfg 0 in
  (Ingresses_List (KubeClient cfg) "prod").2 = Some "ingresses is forbidden" /\
  (Secrets_List (KubeClient cfg) "prod").2 = Some "ingresses is forbidden" /\
  IngressVariant.errors r = None /\
  SecretVariant.errors r' = Some [] /\
  resp_StatusCode
    (IngressVariant.handler Demo.json_MarshalIndent
       (IngressVariant.currentStatus
          (IngressVariant.refresh_iteration Demo.pem_Decode
             Demo.x509_ParseCertificate Demo.VerifyHostname Demo.time_Now cfg
             (IngressVariant.mkProcess IngressVariant.initial_status 0)))) = 200.
Proof. vm_compute. split_and!; reflexivity. Qed.

Lemma fold_left_pointwise {A B} (f g : A -> B -> A) (l : list B) :
  (forall s x, f s x = g s x) -> forall s, fold_left f l s = fold_left g l s.
Proof.
  intros Hfg. induction l as [| x l IH]; intros s; simpl; [reflexivity |].
  rewrite Hfg. apply IH.
Qed.

(** C9, amended. For every refresh cycle and every namespace, the error of
    the per-namespace listing call (ingresses or secrets) is discarded:
    nothing is appended for it, and the records, warnings and errors of the
    cycle are those of the same cluster with these errors nil.  Both
    variants. *)
Theorem C9_listing_errors_are_discarded
    (pem_Decode : bytes -> option bytes)
    (x509_ParseCertificate : bytes -> result Certificate)
    (VerifyHostname : Certificate -> string -> option error)
    (time_Now : nat -> Time) (cfg : ApplicationConfig) (t : nat) :
  let quiet := with_client (without_list_errors (KubeClient cfg)) cfg in
  IngressVariant.getIngresses pem_Decode x509_ParseCertificate VerifyHostname
    time_Now cfg t
  = IngressVariant.getIngresses pem_Decode x509_ParseCertificate VerifyHostname
      time_Now quiet t /\
  SecretVariant.getCertificateList pem_Decode x509_ParseCertificate time_Now cfg t
  = SecretVariant.getCertificateList pem_Decode x509_ParseCertificate time_Now
      quiet t.
Proof.
  intros quiet. split.
  - unfold IngressVariant.getIngresses.
    change (Namespaces_List (KubeClient quiet)) with (Namespaces_List (KubeClient cfg)).
    destruct (Namespaces_List (KubeClient cfg)) as [namespaces | e]; [| reflexivity].
    apply fold_left_pointwise. intros s ns.
    unfold IngressVariant.namespace_step.
    change (Ingresses_List (KubeClient quiet) (ns_Name ns))
      with ((Ingresses_List (KubeClient cfg) (ns_Name ns)).1, @None error).
    destruct (Ingresses_List (KubeClient cfg) (ns_Name ns)) as [ingresses lerr].
    reflexivity.
  - unfold SecretVariant.getCertificateList.
    change (Namespaces_List (KubeClient quiet)) with (Namespaces_List (KubeClient cfg)).
    destruct (Namespaces_List (KubeClient cfg)) as [namespaces | e]; [| reflexivity].
    f_equal. apply fold_left_pointwise. intros s ns.
    unfold SecretVariant.namespace_step.
    change (Secrets_List (KubeClient quiet) (ns_Name ns))
      with ((Secrets_List (KubeClient cfg) (ns_Name ns)).1, @None error).
    destruct (Secrets_List (KubeClient cfg) (ns_Name ns)) as [secrets lerr].
    reflexivity.
Qed.

(** C10, the code at the failing input.  When the enumeration of the
    namespaces fails, [getCertificateList] returns at line 109, before the
    normalisation of lines 167-173: the warnings are the nil slice (and so
    are the records), which the status body shows as [null]. *)
Lemma C10_early_return_leaves_warnings_nil :
  let cfg := Demo.config (Demo.client_down "boom") in
  let r := SecretVariant.getCertificateList Demo.pem_Decode
             Demo.x509_ParseCertificate Demo.time_Now cfg 0 in
  SecretVariant.warnings r = None /\
  SecretVariant.errors r = Some ["boom"] /\
  SecretVariant.Warnings
    (SecretVariant.currentStatus
       (SecretVariant.refresh_iteration Demo.pem_Decode Demo.x509_ParseCertificate
          Demo.time_Now cfg (SecretVariant.mkProcess SecretVariant.initial_status 0)))
  = None.
Proof. vm_compute. split_and!; reflexivity. Qed.

(** On the other path the normalisation does what C10 says: when the
    enumeration succeeds, both lists are non-nil; and [getIngresses] has no
    such step (an empty cluster gives nil lists). *)
Lemma getCertificateList_normalized
    (pem_Decode : bytes -> option bytes)
    (x509_ParseCertificate : bytes -> result Certificate)
    (time_Now : nat -> Time) (cfg : ApplicationConfig) (t : nat)
    (namespaces : list v1_Namespace) :
  Namespaces_List (KubeClient cfg) = Ok namespaces ->
  let r := SecretVariant.getCertificateList pem_Decode x509_ParseCertificate
             time_Now cfg t in
  SecretVariant.warnings r <> None /\ SecretVariant.errors r <> None.
Proof.
  intros H r. subst r. unfold SecretVariant.getCertificateList. rewrite H.
  unfold SecretVariant.normalize. cbn [SecretVariant.warnings SecretVariant.errors].
  split; match goal with |- context [match ?x with _ => _ end] => destruct x end; done.
Qed.

Lemma getIngresses_not_normalized :
  let cfg := Demo.config
               (mkClientset (Ok []) (fun _ => ([], None)) Demo.get_missing
                  (fun _ => ([], None))) in
  let r := IngressVariant.getIngresses Demo.pem_Decode Demo.x509_ParseCertificate
             Demo.VerifyHostname Demo.time_Now cfg 0 in
  IngressVariant.warnings r = None /\ IngressVariant.errors r = None.
Proof. vm_compute. split; reflexivity. Qed.

(* ===================================================================== *)
(** ** The scenarios of section 8, run on the examples *)
(* ===================================================================== *)

(** Scenario B on the secret variant: a certificate that expires in 20
    days, thresholds 3 and 30: one warning, no error, HTTP 201. *)
Example scenario_B_secret_variant :
  let cfg := Demo.config
               (Demo.client Demo.get_missing
                  [Demo.tls_secret "prod" "web-tls" "-soon"] None) in
  let p := SecretVariant.refresh_iteration Demo.pem_Decode
             Demo.x509_ParseCertificate Demo.time_Now cfg
             (SecretVariant.mkProcess SecretVariant.initial_status 0) in
  let s := SecretVariant.currentStatus p in
  SecretVariant.Warnings s
  = Some ["certificate prod/web-tls (a.example.com) will expire in 20 days (2023-12-04 22:13:20 +0000 UTC)."] /\
  SecretVariant.Errors s = Some [] /\
  resp_StatusCode (SecretVariant.handler Demo.json_MarshalIndent s) = 201.
Proof. vm_compute. split_and!; reflexivity. Qed.

(** Scenario C on the ingress variant: 100 days left and every expected
    host covered: isValid, no diagnostics. *)
Example scenario_C_ingress_variant :
  let cfg := Demo.config (Demo.client (Demo.get_ok "-far") [] None) in
  let k := IngressVariant.classify Demo.VerifyHostname cfg "prod" "web"
             (Some ["a.example.com"]) Demo.cert_far (Demo.time_Now 0) None None in
  IngressVariant.IsValid (IngressVariant.certInfo k) = true /\
  IngressVariant.DaysLeft (IngressVariant.certInfo k) = 100 /\
  IngressVariant.vd_errors k = None /\ IngressVariant.vd_warnings k = None /\
  IngressVariant.status_code
    (IngressVariant.mkStatusResponse EmptyString (IngressVariant.vd_errors k)
       (IngressVariant.vd_warnings k) None) = 200.
Proof. vm_compute. split_and!; reflexivity. Qed.

(** An expired certificate in the ingress variant: daysLeft 0 one second
    after expiry, an "expired on" error, and the hostname error after it. *)
Example scenario_expired_ingress_variant :
  let cfg := Demo.config (Demo.client (Demo.get_ok "-gone") [] None) in
  let r := IngressVariant.getIngresses Demo.pem_Decode Demo.x509_ParseCertificate
             Demo.VerifyHostname Demo.time_Now cfg 0 in
  IngressVariant.errors r
  = Some ["certificate prod/web (a.example.com) expired on 2023-11-14 22:13:19 +0000 UTC";
          "certificate for prod/web is not valid for host b.example.com"] /\
  IngressVariant.warnings r = None.
Proof. vm_compute. split; reflexivity. Qed.

(* ===================================================================== *)
(** ** A cycle as one pass over its sources *)
(* ===================================================================== *)

Lemma fold_left_over_map {A B C} (f : A -> C -> A) (h : B -> C) (l : list B) (s : A) :
  fold_left f (map h l) s = fold_left (fun s x => f s (h x)) l s.
Proof. revert s. induction l as [| x l IH]; intros s; simpl; auto. Qed.

Lemma fold_left_over_flat_map {A B C} (f : A -> C -> A) (g : B -> list C)
    (l : list B) (s : A) :
  fold_left f (flat_map g l) s = fold_left (fun s x => fold_left f (g x) s) l s.
Proof.
  revert s. induction l as [| x l IH]; intros s; simpl; [reflexivity |].
  rewrite fold_left_app. apply IH.
Qed.

Lemma fold_left_over_filter {A B} (f : A -> B -> A) (P : B -> Prop)
    `{forall x, Decision (P x)} (l : list B) (s : A) :
  (forall s x, ~ P x -> f s x = s) ->
  fold_left f (filter P l) s = fold_left f l s.
Proof.
  intros Hskip. revert s. induction l as [| x l IH]; intros s; [reflexivity |].
  rewrite filter_cons. destruct (decide (P x)) as [Hx | Hx]; simpl.
  - apply IH.
  - rewrite (Hskip s x Hx). apply IH.
Qed.

(** An invariant that also sees the inputs consumed so far. *)
Lemma fold_left_with_history {A B} (f : A -> B -> A) (P : list B -> A -> Prop)
    (l : list B) (s : A) :
  P [] s ->
  (forall pre x s, P pre s -> P (pre ++ [x]) (f s x)) ->
  P l (fold_left f l s).
Proof.
  intros H0 Hstep.
  assert (G : forall pre s, P pre s -> P (pre ++ l) (fold_left f l s)).
  { induction l as [| x l IH]; intros pre s' Hs; simpl.
    - by rewrite app_nil_r.
    - replace (pre ++ x :: l) with ((pre ++ [x]) ++ l) by (by rewrite <- app_assoc).
      apply IH, Hstep, Hs. }
  apply (G [] s H0).
Qed.

Module IngressRun.
Import IngressVariant.

Section Run.
Variable pem_Decode : bytes -> option bytes.
Variable x509_ParseCertificate : bytes -> result Certificate.
Variable VerifyHostname : Certificate -> string -> option error.
Variable time_Now : nat -> Time.
Variable cfg : ApplicationConfig.

Lemma getIngresses_over_sources (t : nat) :
  getIngresses pem_Decode x509_ParseCertificate VerifyHostname time_Now cfg t
  = match Namespaces_List (KubeClient cfg) with
    | Err err => mkCycle None None (Some [err]) t
    | Ok _ =>
      fold_left (ingress_source_step pem_Decode x509_ParseCertificate
                   VerifyHostname time_Now cfg)
        (ingress_sources cfg) (mkCycle None None None t)
    end.
Proof.
  unfold getIngresses, ingress_sources.
  destruct (Namespaces_List (KubeClient cfg)) as [namespaces | err]; [| reflexivity].
  rewrite fold_left_over_flat_map. apply fold_left_pointwise. intros s ns.
  unfold namespace_step.
  destruct (Ingresses_List (KubeClient cfg) (ns_Name ns)) as [ingresses lerr].
  cbn [fst]. rewrite fold_left_over_flat_map. apply fold_left_pointwise.
  intros s' ingress. unfold ingress_step. rewrite fold_left_over_map. reflexivity.
Qed.

Lemma collect_CommonNames_elems (x : Certificate) (c : CertificateInfo) :
  elems (CommonNames (collect_CommonNames x c))
  = elems (CommonNames c) ++ cert_SubjectNames x.
Proof.
  unfold collect_CommonNames. revert c.
  induction (cert_SubjectNames x) as [| n ns IH]; intros c; simpl.
  - by rewrite app_nil_r.
  - rewrite IH. cbn [add_CommonName CommonNames]. rewrite elems_append.
    by rewrite <- app_assoc.
Qed.

(** What [classify] does to the record and to the two lists. *)
Lemma classify_outcome (ns name : string) (hosts : slice string)
    (x : Certificate) (now : Time) (w e : slice string) :
  let d := daysLeft_of (cert_NotAfter x) now in
  let bad := mismatching VerifyHostname x hosts in
  let k := classify VerifyHostname cfg ns name hosts x now w e in
  exists X Y,
    elems (vd_errors k) = elems e ++ X /\
    elems (vd_warnings k) = elems w ++ Y /\
    (X = [] -> vd_errors k = e) /\
    (Y = [] -> vd_warnings k = w) /\
    (X = [] <-> 0 < d /\ CritDaysLeft cfg < d /\ bad = []) /\
    (in_warn_window cfg d -> length Y = 1%nat) /\
    (~ in_warn_window cfg d -> Y = []) /\
    DaysLeft (certInfo k) = d /\
    (IsValid (certInfo k) = true <-> 0 < d /\ bad = []) /\
    Issuer (certInfo k) = cert_IssuerCommonName x /\
    NotBefore (certInfo k) = time_String (cert_NotBefore x) /\
    NotAfter (certInfo k) = time_String (cert_NotAfter x) /\
    DNSNames (certInfo k) = cert_DNSNames x /\
    elems (CommonNames (certInfo k)) = cert_SubjectNames x.
Proof.
  intros d bad k.
  set (c := collect_CommonNames x (new_certInfo x d)).
  set (k1 := expiry_ladder cfg ns name d (mkVerdict c w e)).
  pose proof (IngressFacts.ing_collect_CommonNames_fields x (new_certInfo x d)) as F.
  cbv zeta in F. fold c in F. cbn [new_certInfo Issuer NotBefore NotAfter DNSNames DaysLeft IsValid] in F.
  destruct F as (F1 & F2 & F3 & F4 & F5 & F6).
  pose proof (collect_CommonNames_elems x (new_certInfo x d)) as FC.
  fold c in FC. cbn [new_certInfo CommonNames elems default] in FC. simpl in FC.
  pose proof (IngressFacts.ing_verify_hosts_spec VerifyHostname x ns name hosts k1) as V.
  cbv zeta in V. fold bad in V.
  change (verify_hosts VerifyHostname x ns name hosts k1) with k in V.
  destruct V as (Vw & Ve & Vnil & Vbad & V1 & V2 & V3 & V4 & V5 & V6).
  assert (L : exists X1 Y,
             elems (vd_errors k1) = elems e ++ X1 /\
             elems (vd_warnings k1) = elems w ++ Y /\
             (X1 = [] -> vd_errors k1 = e) /\
             (Y = [] -> vd_warnings k1 = w) /\
             (X1 = [] <-> 0 < d /\ CritDaysLeft cfg < d) /\
             (in_warn_window cfg d -> length Y = 1%nat) /\
             (~ in_warn_window cfg d -> Y = []) /\
             (IsValid (certInfo k1) = true <-> 0 < d) /\
             Issuer (certInfo k1) = Issuer c /\ CommonNames (certInfo k1) = CommonNames c /\
             NotBefore (certInfo k1) = NotBefore c /\ NotAfter (certInfo k1) = NotAfter c /\
             DNSNames (certInfo k1) = DNSNames c /\ DaysLeft (certInfo k1) = DaysLeft c).
  { unfold k1, expiry_ladder, in_warn_window. repeat case_decide.
    - exists [msg_expired ns name c], []. cbn. rewrite app_nil_r.
      split_and!; try done; try (intros; lia); split; intros; first [done | lia].
    - exists [msg_expiring ns name c], []. cbn. rewrite app_nil_r, F6.
      split_and!; try done; try (intros; lia); split; intros; first [done | lia].
    - exists [], [msg_expiring ns name c]. cbn. rewrite app_nil_r, F6.
      split_and!; try done; try (intros; lia); split; intros; first [done | lia].
    - exists [], []. cbn. rewrite !app_nil_r, F6.
      split_and!; try done; try (intros; lia); split; intros; first [done | lia]. }
  destruct L as (X1 & Y & Le & Lw & Lenil & Lwnil & LX & LY1 & LY0 & Lv & L1 & L2 & L3 & L4 & L5 & L6).
  exists (X1 ++ map (msg_host ns name) bad), Y.
  split_and!.
  - rewrite Ve, Le. by rewrite <- app_assoc.
  - by rewrite Vw.
  - intros HX. apply app_eq_nil in HX as [HX1 Hb].
    assert (bad = []) as Hbad by (by destruct bad).
    rewrite (Vnil Hbad). auto.
  - intros HY. rewrite Vw. auto.
  - split.
    + intros HX. apply app_eq_nil in HX as [HX1 Hb].
      assert (bad = []) by (by destruct bad). tauto.
    + intros (H1 & H2 & ->). simpl. rewrite app_nil_r. tauto.
  - exact LY1.
  - exact LY0.
  - by rewrite V6, L6.
  - destruct (decide (bad = [])) as [Hb | Hb].
    + rewrite (Vnil Hb). tauto.
    + rewrite (Vbad Hb). split; [done | tauto].
  - by rewrite V1, L1.
  - by rewrite V3, L3.
  - by rewrite V4, L4.
  - by rewrite V5, L5.
  - by rewrite V2, L2.
Qed.

(** One pass of the innermost loop body, by the outcome of
    [getx509Data]. *)
Lemma source_step_outcome (st : Cycle) (src : v1_Namespace * Ingress * IngressTLS) :
  let st' := ingress_source_step pem_Decode x509_ParseCertificate VerifyHostname
               time_Now cfg st src in
  match getx509Data pem_Decode x509_ParseCertificate (KubeClient cfg)
          (source_of src.1.1 src.1.2 src.2) with
  | Err err =>
    ingress_parses pem_Decode x509_ParseCertificate cfg src = false /\
    st' = record_error err st
  | Ok x =>
    ingress_parses pem_Decode x509_ParseCertificate cfg src = true /\
    exists c X Y,
      let d := daysLeft_of (cert_NotAfter x) (time_Now (ticks st)) in
      let bad := mismatching VerifyHostname x (tls_Hosts src.2) in
      ingressInfoList st'
      = append (ingressInfoList st)
          (mkIngressInfo (ing_Name src.1.2) (ns_Name src.1.1) (tls_Hosts src.2)
             (tls_SecretName src.2) (Some x) (Some c)) /\
      ticks st' = S (ticks st) /\
      elems (errors st') = elems (errors st) ++ X /\
      elems (warnings st') = elems (warnings st) ++ Y /\
      (X = [] -> errors st' = errors st) /\
      (Y = [] -> warnings st' = warnings st) /\
      (X = [] <-> 0 < d /\ CritDaysLeft cfg < d /\ bad = []) /\
      (in_warn_window cfg d -> length Y = 1%nat) /\
      (~ in_warn_window cfg d -> Y = []) /\
      DaysLeft c = d /\
      (IsValid c = true <-> 0 < d /\ bad = []) /\
      Issuer c = cert_IssuerCommonName x /\
      NotBefore c = time_String (cert_NotBefore x) /\
      NotAfter c = time_String (cert_NotAfter x) /\
      DNSNames c = cert_DNSNames x /\
      elems (CommonNames c) = cert_SubjectNames x
  end.
Proof.
  destruct src as [[ns ingress] tlsSpec]. cbn [fst snd].
  unfold ingress_source_step, ingress_parses, tls_step. cbn [fst snd].
  fold (source_of ns ingress tlsSpec).
  destruct (getx509Data _ _ _ _) as [x | err]; [| done].
  split; [done |].
  pose proof (classify_outcome (ns_Name ns) (ing_Name ingress) (tls_Hosts tlsSpec) x
                (time_Now (ticks st)) (warnings st) (errors st)) as C.
  cbv zeta in C. destruct C as (X & Y & C).
  eexists _, X, Y. cbn [ingressInfoList ticks errors warnings].
  split; [reflexivity |]. split; [reflexivity |]. exact C.
Qed.

(** The invariants of a pass over sources, with the sources seen so far. *)
Lemma pass_invariants (l : list (v1_Namespace * Ingress * IngressTLS)) (t : nat) :
  let st := fold_left (ingress_source_step pem_Decode x509_ParseCertificate
                         VerifyHostname time_Now cfg) l (mkCycle None None None t) in
  map record_identity (elems (ingressInfoList st))
  = map (fun src => record_identity (source_of src.1.1 src.1.2 src.2))
      (filter (fun src => ingress_parses pem_Decode x509_ParseCertificate cfg src = true) l) /\
  Forall (fun r =>
            mirrors_certificate r /\
            forall x c, x509 r = Some x -> certificate r = Some c ->
              (IsValid c = true <->
               0 < DaysLeft c /\ mismatching VerifyHostname x (Hosts r) = []))
    (elems (ingressInfoList st)) /\
  length (elems (warnings st))
  = length (filter (in_warn_window cfg) (ingress_daysLeft (ingressInfoList st))) /\
  (elems (errors st) = [] /\ elems (warnings st) = [] <->
   Forall (fun src => ingress_parses pem_Decode x509_ParseCertificate cfg src = true) l /\
   Forall (fun r => exists c, certificate r = Some c /\
                              healthy cfg (IsValid c) (DaysLeft c))
     (elems (ingressInfoList st))) /\
  (elems (errors st) = [] -> errors st = None) /\
  (elems (warnings st) = [] -> warnings st = None).
Proof.
  cbv zeta.
  apply (fold_left_with_history
           (ingress_source_step pem_Decode x509_ParseCertificate VerifyHostname
              time_Now cfg)
           (fun l st =>
              map record_identity (elems (ingressInfoList st))
              = map (fun src => record_identity (source_of src.1.1 src.1.2 src.2))
                  (filter (fun src => ingress_parses pem_Decode x509_ParseCertificate cfg src = true) l) /\
              Forall (fun r =>
                        mirrors_certificate r /\
                        forall x c, x509 r = Some x -> certificate r = Some c ->
                          (IsValid c = true <->
                           0 < DaysLeft c /\ mismatching VerifyHostname x (Hosts r) = []))
                (elems (ingressInfoList st)) /\
              length (elems (warnings st))
              = length (filter (in_warn_window cfg) (ingress_daysLeft (ingressInfoList st))) /\
              (elems (errors st) = [] /\ elems (warnings st) = [] <->
               Forall (fun src => ingress_parses pem_Decode x509_ParseCertificate cfg src = true) l /\
               Forall (fun r => exists c, certificate r = Some c /\
                                          healthy cfg (IsValid c) (DaysLeft c))
                 (elems (ingressInfoList st))) /\
              (elems (errors st) = [] -> errors st = None) /\
              (elems (warnings st) = [] -> warnings st = None))).
  - cbn. split_and!; done.
  - intros pre src st (I1 & I2 & I3 & I4 & I5 & I6).
    pose proof (source_step_outcome st src) as O. cbv zeta in O.
    destruct (getx509Data _ _ _ _) as [x | err].
    + destruct O as (Hp & c & X & Y & Hl & Ht & He & Hw & Henil & Hwnil & HX & HY1 & HY0
                     & Hd & Hv & F1 & F2 & F3 & F4 & F5).
      set (st' := ingress_source_step _ _ _ _ _ st src) in *.
      set (r := mkIngressInfo _ _ _ _ _ _) in Hl.
      assert (El : elems (ingressInfoList st') = elems (ingressInfoList st) ++ [r])
        by (rewrite Hl; reflexivity).
      split_and!.
      * rewrite El, map_app, I1, filter_app, map_app. f_equal.
        rewrite filter_cons, decide_True by exact Hp. reflexivity.
      * rewrite El. apply Forall_app. split; [exact I2 |].
        constructor; [| constructor]. split.
        -- exists x, c. subst r. cbn. split_and!; done.
        -- intros x0 c0 [= <-] [= <-]. subst r. cbn [Hosts]. rewrite Hd. exact Hv.
      * rewrite Hw, length_app, I3. unfold ingress_daysLeft.
        rewrite El, omap_app, filter_app, length_app. f_equal.
        assert (Er : omap (fun r0 => DaysLeft <$> certificate r0) [r] = [DaysLeft c])
          by reflexivity.
        rewrite Er, Hd, filter_cons, filter_nil.
        destruct (decide (in_warn_window cfg _)) as [Hin | Hout].
        -- by rewrite (HY1 Hin).
        -- by rewrite (HY0 Hout).
      * rewrite He, Hw, El. rewrite Forall_app, Forall_app, !Forall_singleton.
        split.
        -- intros (HeX & HwY). apply app_eq_nil in HeX as [He0 HX0].
           apply app_eq_nil in HwY as [Hw0 HY0'].
           destruct I4 as [I4 _]. destruct (I4 (conj He0 Hw0)) as [A B].
           split_and!; try done.
           exists c. subst r. cbn. split; [done |].
           apply HX in HX0 as (D1 & D2 & D3).
           unfold healthy. rewrite Hd. split_and!.
           ++ apply Hv. done.
           ++ done.
           ++ destruct (decide (in_warn_window cfg (daysLeft_of (cert_NotAfter x) (time_Now (ticks st))))) as [Hin | Hout].
              ** apply HY1 in Hin. rewrite HY0' in Hin. done.
              ** unfold in_warn_window in Hout. lia.
        -- intros ((A & _) & (B & (c0 & Hc0 & Hh))).
           destruct I4 as [_ I4]. destruct (I4 (conj A B)) as [He0 Hw0].
           subst r. cbn in Hc0. injection Hc0 as <-.
           unfold healthy in Hh. rewrite Hd in Hh. destruct Hh as (H1 & H2 & H3).
           apply Hv in H1 as (H1 & Hb).
           assert (X = []) as -> by (apply HX; done).
           assert (Y = []) as ->.
           { apply HY0. unfold in_warn_window. lia. }
           rewrite He0, Hw0. done.
      * intros E. rewrite He in E. apply app_eq_nil in E as [E0 EX].
        rewrite (Henil EX). auto.
      * intros E. rewrite Hw in E. apply app_eq_nil in E as [E0 EY].
        rewrite (Hwnil EY). auto.
    + destruct O as (Hp & ->). unfold record_error.
      cbn [ingressInfoList warnings errors]. rewrite elems_append.
      split_and!.
      * rewrite I1, filter_app, map_app.
        rewrite filter_cons, decide_False by (rewrite Hp; done).
        cbn. by rewrite app_nil_r.
      * exact I2.
      * exact I3.
      * split.
        -- intros (E & _). by apply app_eq_nil in E as [_ E].
        -- intros (A & _). apply Forall_app in A as [_ A].
           rewrite Forall_singleton in A. congruence.
      * intros E. by apply app_eq_nil in E as [_ E].
      * exact I6.
Qed.

End Run.
End IngressRun.

(* ===================================================================== *)
(** ** The ingress variant: what a cycle publishes *)
(* ===================================================================== *)

Lemma ing_status_200_iff (s : IngressVariant.StatusResponse) :
  IngressVariant.status_code s = 200 <->
  elems (IngressVariant.Errors s) = [] /\ elems (IngressVariant.Warnings s) = [].
Proof.
  unfold IngressVariant.status_code.
  pose proof (len_npos_iff (IngressVariant.Errors s)).
  pose proof (len_npos_iff (IngressVariant.Warnings s)).
  repeat case_decide; intuition (try congruence; try lia).
Qed.

Lemma ingress_sources_of_failure (cfg : ApplicationConfig) (e : error) :
  Namespaces_List (KubeClient cfg) = Err e -> ingress_sources cfg = [].
Proof. unfold ingress_sources. by intros ->. Qed.

Section IngressPublished.
Variable pem_Decode : bytes -> option bytes.
Variable x509_ParseCertificate : bytes -> result Certificate.
Variable VerifyHostname : Certificate -> string -> option error.
Variable time_Now : nat -> Time.
Variable cfg : ApplicationConfig.

Lemma ing_cycle_invariants (t : nat) :
  let st := IngressVariant.getIngresses pem_Decode x509_ParseCertificate
              VerifyHostname time_Now cfg t in
  map record_identity (elems (IngressVariant.ingressInfoList st))
  = map (fun src => record_identity (source_of src.1.1 src.1.2 src.2))
      (filter (fun src => ingress_parses pem_Decode x509_ParseCertificate cfg src = true)
         (ingress_sources cfg)) /\
  Forall (fun r =>
            mirrors_certificate r /\
            forall x c, IngressVariant.x509 r = Some x ->
              IngressVariant.certificate r = Some c ->
              (IngressVariant.IsValid c = true <->
               0 < IngressVariant.DaysLeft c /\
               mismatching VerifyHostname x (IngressVariant.Hosts r) = []))
    (elems (IngressVariant.ingressInfoList st)) /\
  length (elems (IngressVariant.warnings st))
  = length (filter (in_warn_window cfg)
              (ingress_daysLeft (IngressVariant.ingressInfoList st))) /\
  (elems (IngressVariant.warnings st) = [] -> IngressVariant.warnings st = None).
Proof.
  cbv zeta. rewrite IngressRun.getIngresses_over_sources.
  destruct (Namespaces_List (KubeClient cfg)) as [nss | e] eqn:E.
  - pose proof (IngressRun.pass_invariants pem_Decode x509_ParseCertificate
                  VerifyHostname time_Now cfg (ingress_sources cfg) t) as P.
    cbv zeta in P. destruct P as (P1 & P2 & P3 & _ & _ & P6). done.
  - rewrite (ingress_sources_of_failure cfg e E). cbn. done.
Qed.

End IngressPublished.

(** X1. The records that [getIngresses] publishes are the sources whose
    certificate could be fetched and parsed, in the order of discovery
    (namespaces, then ingresses, then TLS sections), each with its
    namespace, ingress name, secret name and expected hosts; a source that
    fails has no record. *)
Theorem ingress_records_are_the_parsed_sources
    (pem_Decode : bytes -> option bytes)
    (x509_ParseCertificate : bytes -> result Certificate)
    (VerifyHostname : Certificate -> string -> option error)
    (time_Now : nat -> Time) (cfg : ApplicationConfig) (t : nat) :
  map record_identity
    (elems (IngressVariant.ingressInfoList
              (IngressVariant.getIngresses pem_Decode x509_ParseCertificate
                 VerifyHostname time_Now cfg t)))
  = map (fun src => (ns_Name src.1.1, ing_Name src.1.2, tls_SecretName src.2,
                     tls_Hosts src.2))
      (filter (fun src => ingress_parses pem_Decode x509_ParseCertificate cfg src = true)
         (ingress_sources cfg)).
Proof.
  pose proof (ing_cycle_invariants pem_Decode x509_ParseCertificate VerifyHostname
                time_Now cfg t) as (H & _).
  exact H.
Qed.


(** X3. In every record that [getIngresses] publishes, isValid is true
    exactly when daysLeft is positive and [VerifyHostname] accepts every
    expected host of the record. *)
Theorem ingress_isValid_means_unexpired_and_covered
    (pem_Decode : bytes -> option bytes)
    (x509_ParseCertificate : bytes -> result Certificate)
    (VerifyHostname : Certificate -> string -> option error)
    (time_Now : nat -> Time) (cfg : ApplicationConfig) (t : nat) :
  Forall (fun r =>
            exists x c,
              IngressVariant.x509 r = Some x /\
              IngressVariant.certificate r = Some c /\
              (IngressVariant.IsValid c = true <->
               0 < IngressVariant.DaysLeft c /\
               forall h, h ∈ elems (IngressVariant.Hosts r) -> VerifyHostname x h = None))
    (elems (IngressVariant.ingressInfoList
              (IngressVariant.getIngresses pem_Decode x509_ParseCertificate
                 VerifyHostname time_Now cfg t))).
Proof.
  pose proof (ing_cycle_invariants pem_Decode x509_ParseCertificate VerifyHostname
                time_Now cfg t) as (_ & H & _).
  eapply Forall_impl; [exact H |]. intros r [(x & c & Hx & Hc & _) Hv].
  exists x, c. split_and!; try done. rewrite (Hv x c Hx Hc).
  unfold mismatching. split; intros [Hd Hh]; (split; [exact Hd |]).
  - intros h Hin. destruct (VerifyHostname x h) eqn:E; [| done].
    assert (h ∈ filter (fun h => VerifyHostname x h <> None) (elems (IngressVariant.Hosts r)))
      as Hf by (apply list_elem_of_filter; split; [congruence | done]).
    rewrite Hh in Hf. by apply not_elem_of_nil in Hf.
  - destruct (filter _ _) as [| h l] eqn:E; [done |].
    assert (h ∈ h :: l) as Hf by apply list_elem_of_here.
    rewrite <- E in Hf. apply list_elem_of_filter in Hf as [Hne Hin].
    by specialize (Hh h Hin).
Qed.

(** X4. A cycle of [getIngresses] returns one warning for each published
    certificate whose daysLeft is positive, above CritDaysLeft and below
    WarnDaysLeft, and no other warning. *)
Theorem ingress_one_warning_per_certificate_in_the_window
    (pem_Decode : bytes -> option bytes)
    (x509_ParseCertificate : bytes -> result Certificate)
    (VerifyHostname : Certificate -> string -> option error)
    (time_Now : nat -> Time) (cfg : ApplicationConfig) (t : nat) :
  let st := IngressVariant.getIngresses pem_Decode x509_ParseCertificate
              VerifyHostname time_Now cfg t in
  length (elems (IngressVariant.warnings st))
  = length (filter (in_warn_window cfg)
              (ingress_daysLeft (IngressVariant.ingressInfoList st))).
Proof.
  pose proof (ing_cycle_invariants pem_Decode x509_ParseCertificate VerifyHostname
                time_Now cfg t) as (_ & _ & H & _).
  exact H.
Qed.

(* ===================================================================== *)
(** ** The secret variant: what a cycle publishes *)
(* ===================================================================== *)

Module SecretRun.
Import SecretVariant.

Section Run.
Variable pem_Decode : bytes -> option bytes.
Variable x509_ParseCertificate : bytes -> result Certificate.
Variable time_Now : nat -> Time.
Variable cfg : ApplicationConfig.

Lemma secret_step_skips (ns : v1_Namespace) (st : Cycle) (secret : Secret) :
  relevant_secret ns secret <> true ->
  secret_step pem_Decode x509_ParseCertificate time_Now cfg ns st secret = st.
Proof.
  unfold relevant_secret, secret_step. intros H.
  destruct (decide (sec_Type secret <> "kubernetes.io/tls")) as [Hn | Hy]; [done |].
  destruct (copied_from_elsewhere secret ns); [done |].
  exfalso. apply H. rewrite bool_decide_eq_true_2; [done |].
  destruct (decide (sec_Type secret = "kubernetes.io/tls")); [done | tauto].
Qed.

Lemma secret_step_relevant (ns : v1_Namespace) (st : Cycle) (secret : Secret) :
  relevant_secret ns secret = true ->
  secret_step pem_Decode x509_ParseCertificate time_Now cfg ns st secret
  = match getx509Data pem_Decode x509_ParseCertificate (KubeClient cfg) secret with
    | Err err =>
      mkCycle (certificateInfoList st) (warnings st) (append (errors st) err)
        (ticks st)
    | Ok x509Data =>
      let k := classify cfg ns secret x509Data (time_Now (ticks st))
                 (warnings st) (errors st) in
      mkCycle (append (certificateInfoList st) (certificateInfo k))
        (vd_warnings k) (vd_errors k) (S (ticks st))
    end.
Proof.
  unfold relevant_secret, secret_step. intros H.
  apply andb_true_iff in H as [H1 H2]. apply bool_decide_eq_true in H1.
  apply negb_true_iff in H2. rewrite decide_False by (intros Hn; done).
  rewrite H2. reflexivity.
Qed.

Lemma getCertificateList_over_sources (t : nat) :
  getCertificateList pem_Decode x509_ParseCertificate time_Now cfg t
  = match Namespaces_List (KubeClient cfg) with
    | Err err => mkCycle None None (Some [err]) t
    | Ok _ =>
      normalize
        (fold_left (secret_source_step pem_Decode x509_ParseCertificate time_Now cfg)
           (secret_sources cfg) (mkCycle None None None t))
    end.
Proof.
  unfold getCertificateList, secret_sources.
  destruct (Namespaces_List (KubeClient cfg)) as [namespaces | err]; [| reflexivity].
  f_equal. rewrite fold_left_over_flat_map. apply fold_left_pointwise. intros s ns.
  unfold namespace_step.
  destruct (Secrets_List (KubeClient cfg) (ns_Name ns)) as [secrets lerr].
  cbn [fst]. rewrite fold_left_over_map.
  unfold secret_source_step. cbn [fst snd].
  rewrite (fold_left_over_filter
             (fun s0 x => secret_step pem_Decode x509_ParseCertificate time_Now cfg ns s0 x)).
  - reflexivity.
  - intros s0 x Hx. by apply secret_step_skips.
Qed.

Lemma sec_classify_outcome (ns : v1_Namespace) (secret : Secret)
    (x : Certificate) (now : Time) (w e : slice string) :
  let d := daysLeft_of (cert_NotAfter x) now in
  let k := classify cfg ns secret x now w e in
  exists X Y,
    elems (vd_errors k) = elems e ++ X /\
    elems (vd_warnings k) = elems w ++ Y /\
    (X = [] <-> 0 < d /\ CritDaysLeft cfg < d) /\
    (in_warn_window cfg d -> length Y = 1%nat) /\
    (~ in_warn_window cfg d -> Y = []) /\
    DaysLeft (certificateInfo k) = d /\
    (IsValid (certificateInfo k) = true <-> 0 < d) /\
    SecretName (certificateInfo k) = sec_Name secret /\
    Namespace (certificateInfo k) = ns_Name ns.
Proof.
  intros d k.
  set (c := collect_CommonNames x (new_certificateInfo secret ns x d)).
  pose proof (SecretFacts.sec_collect_CommonNames_fields x
                (new_certificateInfo secret ns x d)) as F.
  cbv zeta in F. fold c in F.
  cbn [new_certificateInfo SecretName Namespace Issuer NotBefore NotAfter DNSNames
         DaysLeft IsValid] in F.
  destruct F as (F1 & F2 & _ & _ & _ & _ & F7 & F8).
  unfold k, classify. fold d. fold c.
  unfold expiry_ladder, in_warn_window. repeat case_decide.
  - exists [msg_expired (ns_Name ns) c], []. cbn. rewrite app_nil_r, F1, F2, F7.
    split_and!; try done; try (intros; lia); split; intros; first [done | lia].
  - exists [msg_expiring (ns_Name ns) c], []. cbn. rewrite app_nil_r, F1, F2, F7, F8.
    split_and!; try done; try (intros; lia); split; intros; first [done | lia].
  - exists [], [msg_expiring (ns_Name ns) c]. cbn. rewrite app_nil_r, F1, F2, F7, F8.
    split_and!; try done; try (intros; lia); split; intros; first [done | lia].
  - exists [], []. cbn. rewrite !app_nil_r, F1, F2, F7, F8.
    split_and!; try done; try (intros; lia); split; intros; first [done | lia].
Qed.

Lemma sec_source_step_outcome (st : Cycle) (src : v1_Namespace * Secret) :
  relevant_secret src.1 src.2 = true ->
  let st' := secret_source_step pem_Decode x509_ParseCertificate time_Now cfg st src in
  match getx509Data pem_Decode x509_ParseCertificate (KubeClient cfg) src.2 with
  | Err err =>
    secret_parses pem_Decode x509_ParseCertificate cfg src = false /\
    st' = mkCycle (certificateInfoList st) (warnings st) (append (errors st) err)
            (ticks st)
  | Ok x =>
    secret_parses pem_Decode x509_ParseCertificate cfg src = true /\
    exists c X Y,
      let d := daysLeft_of (cert_NotAfter x) (time_Now (ticks st)) in
      elems (certificateInfoList st') = elems (certificateInfoList st) ++ [c] /\
      elems (errors st') = elems (errors st) ++ X /\
      elems (warnings st') = elems (warnings st) ++ Y /\
      (X = [] <-> 0 < d /\ CritDaysLeft cfg < d) /\
      (in_warn_window cfg d -> length Y = 1%nat) /\
      (~ in_warn_window cfg d -> Y = []) /\
      DaysLeft c = d /\
      (IsValid c = true <-> 0 < d) /\
      SecretName c = sec_Name src.2 /\
      Namespace c = ns_Name src.1
  end.
Proof.
  destruct src as [ns secret]. cbn [fst snd]. intros Hrel.
  unfold secret_source_step, secret_parses. cbn [fst snd].
  rewrite (secret_step_relevant ns st secret Hrel).
  destruct (getx509Data _ _ _ _) as [x | err]; [| done].
  split; [done |].
  pose proof (sec_classify_outcome ns secret x (time_Now (ticks st)) (warnings st)
                (errors st)) as C.
  cbv zeta in C |- *. destruct C as (X & Y & C).
  eexists _, X, Y. cbn [certificateInfoList errors warnings].
  split; [reflexivity |]. exact C.
Qed.

Lemma sec_pass_invariants (l : list (v1_Namespace * Secret)) (t : nat) :
  Forall (fun src => relevant_secret src.1 src.2 = true) l ->
  let st := fold_left (secret_source_step pem_Decode x509_ParseCertificate
                         time_Now cfg) l (mkCycle None None None t) in
  map (fun c => (Namespace c, SecretName c)) (elems (certificateInfoList st))
  = map (fun src => (ns_Name src.1, sec_Name src.2))
      (filter (fun src => secret_parses pem_Decode x509_ParseCertificate cfg src = true) l) /\
  Forall (fun c => IsValid c = true <-> 0 < DaysLeft c)
    (elems (certificateInfoList st)) /\
  length (elems (warnings st))
  = length (filter (in_warn_window cfg) (map DaysLeft (elems (certificateInfoList st)))) /\
  (elems (errors st) = [] /\ elems (warnings st) = [] <->
   Forall (fun src => secret_parses pem_Decode x509_ParseCertificate cfg src = true) l /\
   Forall (fun c => healthy cfg (IsValid c) (DaysLeft c))
     (elems (certificateInfoList st))).
Proof.
  cbv zeta.
  apply (fold_left_with_history
           (secret_source_step pem_Decode x509_ParseCertificate time_Now cfg)
           (fun l st =>
              Forall (fun src => relevant_secret src.1 src.2 = true) l ->
              map (fun c => (Namespace c, SecretName c)) (elems (certificateInfoList st))
              = map (fun src => (ns_Name src.1, sec_Name src.2))
                  (filter (fun src => secret_parses pem_Decode x509_ParseCertificate cfg src = true) l) /\
              Forall (fun c => IsValid c = true <-> 0 < DaysLeft c)
                (elems (certificateInfoList st)) /\
              length (elems (warnings st))
              = length (filter (in_warn_window cfg)
                          (map DaysLeft (elems (certificateInfoList st)))) /\
              (elems (errors st) = [] /\ elems (warnings st) = [] <->
               Forall (fun src => secret_parses pem_Decode x509_ParseCertificate cfg src = true) l /\
               Forall (fun c => healthy cfg (IsValid c) (DaysLeft c))
                 (elems (certificateInfoList st))))).
  - intros _. cbn. split_and!; done.
  - intros pre src st IH Hrel.
    apply Forall_app in Hrel as [Hpre Hsrc]. rewrite Forall_singleton in Hsrc.
    destruct (IH Hpre) as (I1 & I2 & I3 & I4).
    pose proof (sec_source_step_outcome st src Hsrc) as O. cbv zeta in O.
    destruct (getx509Data _ _ _ _) as [x | err].
    + destruct O as (Hp & c & X & Y & El & He & Hw & HX & HY1 & HY0 & Hd & Hv & Hn1 & Hn2).
      set (st' := secret_source_step _ _ _ _ st src) in *.
      split_and!.
      * rewrite El, map_app, I1, filter_app, map_app. f_equal.
        rewrite filter_cons, decide_True by exact Hp. cbn. by rewrite Hn1, Hn2.
      * rewrite El. apply Forall_app. split; [exact I2 |]. apply Forall_singleton.
        rewrite Hd. exact Hv.
      * rewrite Hw, length_app, I3, El, map_app, filter_app, length_app. f_equal.
        cbn [map]. rewrite Hd, filter_cons, filter_nil.
        destruct (decide (in_warn_window cfg _)) as [Hin | Hout].
        -- by rewrite (HY1 Hin).
        -- by rewrite (HY0 Hout).
      * rewrite He, Hw, El. rewrite !Forall_app, !Forall_singleton.
        split.
        -- intros (HeX & HwY). apply app_eq_nil in HeX as [He0 HX0].
           apply app_eq_nil in HwY as [Hw0 HY0'].
           destruct I4 as [I4 _]. destruct (I4 (conj He0 Hw0)) as [A B].
           split_and!; try done.
           apply HX in HX0 as (D1 & D2).
           unfold healthy. rewrite Hd. split_and!.
           ++ by apply Hv.
           ++ done.
           ++ destruct (decide (in_warn_window cfg (daysLeft_of (cert_NotAfter x) (time_Now (ticks st))))) as [Hin | Hout].
              ** apply HY1 in Hin. rewrite HY0' in Hin. done.
              ** unfold in_warn_window in Hout. lia.
        -- intros ((A & _) & (B & Hh)).
           destruct I4 as [_ I4]. destruct (I4 (conj A B)) as [He0 Hw0].
           unfold healthy in Hh. rewrite Hd in Hh. destruct Hh as (H1 & H2 & H3).
           apply Hv in H1.
           assert (X = []) as -> by (apply HX; done).
           assert (Y = []) as ->.
           { apply HY0. unfold in_warn_window. lia. }
           rewrite He0, Hw0. done.
    + destruct O as (Hp & ->).
      cbn [certificateInfoList warnings errors]. rewrite elems_append.
      split_and!.
      * rewrite I1, filter_app, map_app.
        rewrite filter_cons, decide_False by (rewrite Hp; done).
        cbn. by rewrite app_nil_r.
      * exact I2.
      * exact I3.
      * split.
        -- intros (E & _). by apply app_eq_nil in E as [_ E].
        -- intros (A & _). apply Forall_app in A as [_ A].
           rewrite Forall_singleton in A. congruence.
Qed.

Lemma secret_sources_relevant :
  Forall (fun src => relevant_secret src.1 src.2 = true) (secret_sources cfg).
Proof.
  unfold secret_sources. destruct (Namespaces_List (KubeClient cfg)) as [nss |]; [| constructor].
  apply Forall_forall. intros [ns secret] Hin. apply list_elem_of_In in Hin.
  apply in_flat_map in Hin as (ns' & _ & Hin).
  apply in_map_iff in Hin as (secret' & [= <- <-] & Hin).
  apply list_elem_of_In, list_elem_of_filter in Hin as [Hr _]. exact Hr.
Qed.

Lemma normalize_elems (st : Cycle) :
  certificateInfoList (normalize st) = certificateInfoList st /\
  elems (warnings (normalize st)) = elems (warnings st) /\
  elems (errors (normalize st)) = elems (errors st) /\
  warnings (normalize st) <> None /\ errors (normalize st) <> None /\
  ticks (normalize st) = ticks st.
Proof.
  unfold normalize. cbn. destruct (warnings st), (errors st); cbn; done.
Qed.

Lemma sec_cycle_invariants (t : nat) :
  let st := getCertificateList pem_Decode x509_ParseCertificate time_Now cfg t in
  map (fun c => (Namespace c, SecretName c)) (elems (certificateInfoList st))
  = map (fun src => (ns_Name src.1, sec_Name src.2))
      (filter (fun src => secret_parses pem_Decode x509_ParseCertificate cfg src = true)
         (secret_sources cfg)) /\
  Forall (fun c => IsValid c = true <-> 0 < DaysLeft c)
    (elems (certificateInfoList st)) /\
  length (elems (warnings st))
  = length (filter (in_warn_window cfg) (map DaysLeft (elems (certificateInfoList st)))) /\
  (forall nss, Namespaces_List (KubeClient cfg) = Ok nss ->
     (elems (errors st) = [] /\ elems (warnings st) = [] <->
      Forall (fun src => secret_parses pem_Decode x509_ParseCertificate cfg src = true)
        (secret_sources cfg) /\
      Forall (fun c => healthy cfg (IsValid c) (DaysLeft c))
        (elems (certificateInfoList st)))).
Proof.
  cbv zeta. rewrite getCertificateList_over_sources.
  destruct (Namespaces_List (KubeClient cfg)) as [nss | e] eqn:E.
  - pose proof (sec_pass_invariants (secret_sources cfg) t) as P.
    cbv zeta in P. destruct (P secret_sources_relevant) as (P1 & P2 & P3 & P4).
    destruct (normalize_elems
                (fold_left (secret_source_step pem_Decode x509_ParseCertificate time_Now cfg)
                   (secret_sources cfg) (mkCycle None None None t)))
      as (N1 & N2 & N3 & _).
    rewrite N1, N2, N3. split_and!; try done.
  - assert (secret_sources cfg = []) as -> by (unfold secret_sources; by rewrite E).
    cbn. split_and!; try done.
Qed.

End Run.
End SecretRun.

Lemma sec_status_200_iff (s : SecretVariant.StatusResponse) :
  SecretVariant.status_code s = 200 <->
  elems (SecretVariant.Errors s) = [] /\ elems (SecretVariant.Warnings s) = [].
Proof.
  unfold SecretVariant.status_code.
  pose proof (len_npos_iff (SecretVariant.Errors s)).
  pose proof (len_npos_iff (SecretVariant.Warnings s)).
  repeat case_decide; intuition (try congruence; try lia).
Qed.

Lemma filter_none {A} (P : A -> Prop) `{forall x, Decision (P x)} (l : list A) :
  (forall x, ~ P x) -> filter P l = [].
Proof.
  intros Hn. induction l as [| x l IH]; [done |].
  rewrite filter_cons, decide_False by apply Hn. exact IH.
Qed.

(** X5. The records that [getCertificateList] publishes are the secrets of
    type [kubernetes.io/tls], not copied by kubed from another namespace,
    whose certificate could be parsed, in the order of discovery, each with
    the namespace it was listed in and its name. *)
Theorem secret_records_are_the_parsed_tls_secrets
    (pem_Decode : bytes -> option bytes)
    (x509_ParseCertificate : bytes -> result Certificate)
    (time_Now : nat -> Time) (cfg : ApplicationConfig) (t : nat) :
  map (fun c => (SecretVariant.Namespace c, SecretVariant.SecretName c))
    (elems (SecretVariant.certificateInfoList
              (SecretVariant.getCertificateList pem_Decode x509_ParseCertificate
                 time_Now cfg t)))
  = map (fun src => (ns_Name src.1, sec_Name src.2))
      (filter (fun src => secret_parses pem_Decode x509_ParseCertificate cfg src = true)
         (secret_sources cfg)).
Proof.
  pose proof (SecretRun.sec_cycle_invariants pem_Decode x509_ParseCertificate
                time_Now cfg t) as (H & _).
  exact H.
Qed.

(** X6. In every record that [getCertificateList] publishes, isValid is
    true exactly when daysLeft is positive: this variant checks no
    hostname. *)
Theorem secret_isValid_means_unexpired
    (pem_Decode : bytes -> option bytes)
    (x509_ParseCertificate : bytes -> result Certificate)
    (time_Now : nat -> Time) (cfg : ApplicationConfig) (t : nat) :
  Forall (fun c => SecretVariant.IsValid c = true <-> 0 < SecretVariant.DaysLeft c)
    (elems (SecretVariant.certificateInfoList
              (SecretVariant.getCertificateList pem_Decode x509_ParseCertificate
                 time_Now cfg t))).
Proof.
  pose proof (SecretRun.sec_cycle_invariants pem_Decode x509_ParseCertificate
                time_Now cfg t) as (_ & H & _).
  exact H.
Qed.

(** X7. A cycle of [getCertificateList] returns one warning for each
    published certificate whose daysLeft is positive, above CritDaysLeft
    and below WarnDaysLeft, and no other warning. *)
Theorem secret_one_warning_per_certificate_in_the_window
    (pem_Decode : bytes -> option bytes)
    (x509_ParseCertificate : bytes -> result Certificate)
    (time_Now : nat -> Time) (cfg : ApplicationConfig) (t : nat) :
  let st := SecretVariant.getCertificateList pem_Decode x509_ParseCertificate
              time_Now cfg t in
  length (elems (SecretVariant.warnings st))
  = length (filter (in_warn_window cfg)
              (map SecretVariant.DaysLeft
                 (elems (SecretVariant.certificateInfoList st)))).
Proof.
  pose proof (SecretRun.sec_cycle_invariants pem_Decode x509_ParseCertificate
                time_Now cfg t) as (_ & _ & H & _).
  exact H.
Qed.

(** X8. The secrets that are not of type [kubernetes.io/tls], and the
    copies that kubed made from another namespace, have no effect on a
    cycle of [getCertificateList]: its result is that of the cluster without
    them. *)
Theorem secret_cycle_ignores_other_secrets
    (pem_Decode : bytes -> option bytes)
    (x509_ParseCertificate : bytes -> result Certificate)
    (time_Now : nat -> Time) (cfg : ApplicationConfig) (t : nat) :
  SecretVariant.getCertificateList pem_Decode x509_ParseCertificate time_Now cfg t
  = SecretVariant.getCertificateList pem_Decode x509_ParseCertificate time_Now
      (with_client (only_relevant_secrets (KubeClient cfg)) cfg) t.
Proof.
  set (cfg' := with_client (only_relevant_secrets (KubeClient cfg)) cfg).
  unfold SecretVariant.getCertificateList.
  change (Namespaces_List (KubeClient cfg')) with (Namespaces_List (KubeClient cfg)).
  destruct (Namespaces_List (KubeClient cfg)) as [nss | e]; [| reflexivity].
  f_equal. apply fold_left_pointwise. intros s ns.
  unfold SecretVariant.namespace_step.
  change (Secrets_List (KubeClient cfg') (ns_Name ns))
    with (filter (fun secret => relevant_secret (mkNamespace (ns_Name ns)) secret = true)
            (Secrets_List (KubeClient cfg) (ns_Name ns)).1,
          (Secrets_List (KubeClient cfg) (ns_Name ns)).2).
  destruct (Secrets_List (KubeClient cfg) (ns_Name ns)) as [secrets lerr]. cbn [fst snd].
  change (SecretVariant.secret_step pem_Decode x509_ParseCertificate time_Now cfg' ns)
    with (SecretVariant.secret_step pem_Decode x509_ParseCertificate time_Now cfg ns).
  symmetry. apply fold_left_over_filter.
  intros s0 x Hx. apply SecretRun.secret_step_skips. by destruct ns.
Qed.

(** X9. When WarnDaysLeft is at most CritDaysLeft + 1 the warning rung of
    the ladder is out of reach: no cycle of either variant returns a
    warning, and the handler never answers 201. *)
Theorem no_warning_when_thresholds_leave_no_window
    (pem_Decode : bytes -> option bytes)
    (x509_ParseCertificate : bytes -> result Certificate)
    (VerifyHostname : Certificate -> string -> option error)
    (time_Now : nat -> Time) (cfg : ApplicationConfig) :
  WarnDaysLeft cfg <= CritDaysLeft cfg + 1 ->
  (forall t,
     IngressVariant.warnings
       (IngressVariant.getIngresses pem_Decode x509_ParseCertificate VerifyHostname
          time_Now cfg t) = None) /\
  (forall t,
     elems (SecretVariant.warnings
              (SecretVariant.getCertificateList pem_Decode x509_ParseCertificate
                 time_Now cfg t)) = []) /\
  (forall p,
     IngressVariant.status_code
       (IngressVariant.currentStatus
          (IngressVariant.refresh_iteration pem_Decode x509_ParseCertificate
             VerifyHostname time_Now cfg p)) <> 201) /\
  (forall p,
     SecretVariant.status_code
       (SecretVariant.currentStatus
          (SecretVariant.refresh_iteration pem_Decode x509_ParseCertificate
             time_Now cfg p)) <> 201).
Proof.
  intros Hflat.
  assert (Hwin : forall d, ~ in_warn_window cfg d) by (unfold in_warn_window; intros d; lia).
  assert (HI : forall t, IngressVariant.warnings
                 (IngressVariant.getIngresses pem_Decode x509_ParseCertificate
                    VerifyHostname time_Now cfg t) = None).
  { intros t.
    pose proof (ing_cycle_invariants pem_Decode x509_ParseCertificate VerifyHostname
                  time_Now cfg t) as (_ & _ & Hc & Hn).
    apply Hn. rewrite (filter_none _ _ Hwin) in Hc. by apply nil_length_inv. }
  assert (HS : forall t, elems (SecretVariant.warnings
                 (SecretVariant.getCertificateList pem_Decode x509_ParseCertificate
                    time_Now cfg t)) = []).
  { intros t.
    pose proof (SecretRun.sec_cycle_invariants pem_Decode x509_ParseCertificate
                  time_Now cfg t) as (_ & _ & Hc & _).
    rewrite (filter_none _ _ Hwin) in Hc. by apply nil_length_inv. }
  split_and!; try done.
  - intros p. unfold IngressVariant.refresh_iteration, IngressVariant.status_code.
    cbn [IngressVariant.currentStatus IngressVariant.Errors IngressVariant.Warnings].
    rewrite HI. repeat case_decide; try done; unfold len in *; cbn in *; lia.
  - intros p. unfold SecretVariant.refresh_iteration, SecretVariant.status_code.
    cbn [SecretVariant.currentStatus SecretVariant.Errors SecretVariant.Warnings].
    unfold len. rewrite HS. repeat case_decide; try done; cbn in *; lia.
Qed.

(** Thresholds 30 and 30 leave no window. *)
Lemma no_warning_witness :
  WarnDaysLeft (Demo2.flat_config Demo2.healthy_client)
  <= CritDaysLeft (Demo2.flat_config Demo2.healthy_client) + 1 /\
  IngressVariant.warnings
    (IngressVariant.getIngresses Demo.pem_Decode Demo.x509_ParseCertificate
       Demo.VerifyHostname Demo.time_Now (Demo2.flat_config Demo2.healthy_client) 0)
  = None.
Proof.
  assert (H : WarnDaysLeft (Demo2.flat_config Demo2.healthy_client)
              <= CritDaysLeft (Demo2.flat_config Demo2.healthy_client) + 1)
    by (vm_compute; congruence).
  split; [exact H |].
  exact (proj1 (no_warning_when_thresholds_leave_no_window Demo.pem_Decode
                  Demo.x509_ParseCertificate Demo.VerifyHostname Demo.time_Now
                  (Demo2.flat_config Demo2.healthy_client) H) 0%nat).
Defined.

(* ===================================================================== *)
(** ** What the status code says about the cluster *)
(* ===================================================================== *)

(** X10. When the namespaces could be listed, the handler of the ingress
    variant answers 200 after a cycle exactly when the certificate of every
    discovered source could be fetched and parsed and every published
    certificate is valid, has more than CritDaysLeft days left and at least
    WarnDaysLeft. *)
Theorem ingress_200_exactly_when_all_is_well
    (pem_Decode : bytes -> option bytes)
    (x509_ParseCertificate : bytes -> result Certificate)
    (VerifyHostname : Certificate -> string -> option error)
    (time_Now : nat -> Time)
    (json : IngressVariant.StatusResponse -> result string)
    (cfg : ApplicationConfig) (p : IngressVariant.Process)
    (namespaces : list v1_Namespace) :
  Namespaces_List (KubeClient cfg) = Ok namespaces ->
  let s := IngressVariant.currentStatus
             (IngressVariant.refresh_iteration pem_Decode x509_ParseCertificate
                VerifyHostname time_Now cfg p) in
  resp_StatusCode (IngressVariant.handler json s) = 200 <->
  Forall (fun src => ingress_parses pem_Decode x509_ParseCertificate cfg src = true)
    (ingress_sources cfg) /\
  Forall (fun r => exists c, IngressVariant.certificate r = Some c /\
                             healthy cfg (IngressVariant.IsValid c)
                               (IngressVariant.DaysLeft c))
    (elems (IngressVariant.Certificates s)).
Proof.
  intros Hns s.
  assert (Hcode : resp_StatusCode (IngressVariant.handler json s)
                  = IngressVariant.status_code s)
    by (unfold IngressVariant.handler; destruct (json s); reflexivity).
  rewrite Hcode, ing_status_200_iff. subst s.
  unfold IngressVariant.refresh_iteration.
  cbn [IngressVariant.currentStatus IngressVariant.Errors IngressVariant.Warnings
         IngressVariant.Certificates].
  rewrite IngressRun.getIngresses_over_sources, Hns.
  pose proof (IngressRun.pass_invariants pem_Decode x509_ParseCertificate
                VerifyHostname time_Now cfg (ingress_sources cfg) (S (IngressVariant.proc_ticks p))) as P.
  cbv zeta in P. destruct P as (_ & _ & _ & P & _). exact P.
Qed.

(** The cluster of the examples in which everything is in order answers
    200, and X10 then tells that its one record is healthy. *)
Lemma ingress_200_witness :
  let s := IngressVariant.currentStatus
             (IngressVariant.refresh_iteration Demo.pem_Decode
                Demo.x509_ParseCertificate Demo.VerifyHostname Demo.time_Now
                Demo2.healthy_config
                (IngressVariant.mkProcess IngressVariant.initial_status 0)) in
  Namespaces_List (KubeClient Demo2.healthy_config) = Ok [mkNamespace "prod"] /\
  resp_StatusCode (IngressVariant.handler Demo.json_MarshalIndent s) = 200 /\
  Forall (fun r => exists c, IngressVariant.certificate r = Some c /\
                             healthy Demo2.healthy_config (IngressVariant.IsValid c)
                               (IngressVariant.DaysLeft c))
    (elems (IngressVariant.Certificates s)).
Proof.
  intros s.
  assert (H : Namespaces_List (KubeClient Demo2.healthy_config) = Ok [mkNamespace "prod"])
    by reflexivity.
  assert (H200 : resp_StatusCode (IngressVariant.handler Demo.json_MarshalIndent s) = 200)
    by reflexivity.
  split_and!; [exact H | exact H200 |].
  exact (proj2 (proj1 (ingress_200_exactly_when_all_is_well Demo.pem_Decode
                         Demo.x509_ParseCertificate Demo.VerifyHostname Demo.time_Now
                         Demo.json_MarshalIndent Demo2.healthy_config
                         (IngressVariant.mkProcess IngressVariant.initial_status 0)
                         [mkNamespace "prod"] H) H200)).
Defined.

(** X11. When the namespaces could be listed, the handler of the secret
    variant answers 200 after a cycle exactly when the certificate of every
    TLS secret that is not skipped could be parsed and every published
    certificate is valid, has more than CritDaysLeft days left and at least
    WarnDaysLeft. *)
Theorem secret_200_exactly_when_all_is_well
    (pem_Decode : bytes -> option bytes)
    (x509_ParseCertificate : bytes -> result Certificate)
    (time_Now : nat -> Time)
    (json : SecretVariant.StatusResponse -> result string)
    (cfg : ApplicationConfig) (p : SecretVariant.Process)
    (namespaces : list v1_Namespace) :
  Namespaces_List (KubeClient cfg) = Ok namespaces ->
  let s := SecretVariant.currentStatus
             (SecretVariant.refresh_iteration pem_Decode x509_ParseCertificate
                time_Now cfg p) in
  resp_StatusCode (SecretVariant.handler json s) = 200 <->
  Forall (fun src => secret_parses pem_Decode x509_ParseCertificate cfg src = true)
    (secret_sources cfg) /\
  Forall (fun c => healthy cfg (SecretVariant.IsValid c) (SecretVariant.DaysLeft c))
    (elems (SecretVariant.Certificates s)).
Proof.
  intros Hns s.
  assert (Hcode : resp_StatusCode (SecretVariant.handler json s)
                  = SecretVariant.status_code s)
    by (unfold SecretVariant.handler; destruct (json s); reflexivity).
  rewrite Hcode, sec_status_200_iff. subst s.
  unfold SecretVariant.refresh_iteration.
  cbn [SecretVariant.currentStatus SecretVariant.Errors SecretVariant.Warnings
         SecretVariant.Certificates].
  pose proof (SecretRun.sec_cycle_invariants pem_Decode x509_ParseCertificate
                time_Now cfg (S (SecretVariant.proc_ticks p))) as P.
  cbv zeta in P. destruct P as (_ & _ & _ & P). exact (P namespaces Hns).
Qed.

Lemma secret_200_witness :
  let s := SecretVariant.currentStatus
             (SecretVariant.refresh_iteration Demo.pem_Decode
                Demo.x509_ParseCertificate Demo.time_Now Demo2.healthy_config
                (SecretVariant.mkProcess SecretVariant.initial_status 0)) in
  Namespaces_List (KubeClient Demo2.healthy_config) = Ok [mkNamespace "prod"] /\
  resp_StatusCode (SecretVariant.handler Demo.json_MarshalIndent s) = 200 /\
  Forall (fun c => healthy Demo2.healthy_config (SecretVariant.IsValid c)
                     (SecretVariant.DaysLeft c))
    (elems (SecretVariant.Certificates s)).
Proof.
  intros s.
  assert (H : Namespaces_List (KubeClient Demo2.healthy_config) = Ok [mkNamespace "prod"])
    by reflexivity.
  assert (H200 : resp_StatusCode (SecretVariant.handler Demo.json_MarshalIndent s) = 200)
    by reflexivity.
  split_and!; [exact H | exact H200 |].
  exact (proj2 (proj1 (secret_200_exactly_when_all_is_well Demo.pem_Decode
                         Demo.x509_ParseCertificate Demo.time_Now
                         Demo.json_MarshalIndent Demo2.healthy_config
                         (SecretVariant.mkProcess SecretVariant.initial_status 0)
                         [mkNamespace "prod"] H) H200)).
Defined.

(** X12. When the namespaces cannot be listed, the handler of either
    variant answers 202 after the cycle, whatever the previous snapshot
    was. *)
Theorem enumeration_failure_answers_202
    (pem_Decode : bytes -> option bytes)
    (x509_ParseCertificate : bytes -> result Certificate)
    (VerifyHostname : Certificate -> string -> option error)
    (time_Now : nat -> Time) (cfg : ApplicationConfig) (e : error) :
  Namespaces_List (KubeClient cfg) = Err e ->
  (forall json p,
     resp_StatusCode
       (IngressVariant.handler json
          (IngressVariant.currentStatus
             (IngressVariant.refresh_iteration pem_Decode x509_ParseCertificate
                VerifyHostname time_Now cfg p))) = 202) /\
  (forall json p,
     resp_StatusCode
       (SecretVariant.handler json
          (SecretVariant.currentStatus
             (SecretVariant.refresh_iteration pem_Decode x509_ParseCertificate
                time_Now cfg p))) = 202).
Proof.
  intros Hfail. split; intros json p.
  - unfold IngressVariant.handler, IngressVariant.refresh_iteration,
      IngressVariant.getIngresses. rewrite Hfail.
    destruct (json _); reflexivity.
  - unfold SecretVariant.handler, SecretVariant.refresh_iteration,
      SecretVariant.getCertificateList. rewrite Hfail.
    destruct (json _); reflexivity.
Qed.

Lemma enumeration_failure_202_witness :
  Namespaces_List (KubeClient (Demo.config (Demo.client_down "boom"))) = Err "boom" /\
  resp_StatusCode
    (SecretVariant.handler Demo.json_MarshalIndent
       (SecretVariant.currentStatus
          (SecretVariant.refresh_iteration Demo.pem_Decode Demo.x509_ParseCertificate
             Demo.time_Now (Demo.config (Demo.client_down "boom"))
             (SecretVariant.mkProcess SecretVariant.initial_status 0)))) = 202.
Proof.
  assert (H : Namespaces_List (KubeClient (Demo.config (Demo.client_down "boom")))
              = Err "boom") by reflexivity.
  split; [exact H |].
  exact (proj2 (enumeration_failure_answers_202 Demo.pem_Decode
                  Demo.x509_ParseCertificate Demo.VerifyHostname Demo.time_Now
                  (Demo.config (Demo.client_down "boom")) "boom" H)
           Demo.json_MarshalIndent
           (SecretVariant.mkProcess SecretVariant.initial_status 0)).
Defined.

(* ===================================================================== *)
(** ** daysLeft as time passes *)
(* ===================================================================== *)

Lemma daysLeft_positive_iff (notAfter now : Time) :
  in_int64 (time_Unix notAfter - time_Unix now) ->
  (0 < daysLeft_of notAfter now <-> 86400 <= time_Unix notAfter - time_Unix now).
Proof.
  intros Hr. rewrite (daysLeft_of_quot _ _ Hr).
  set (diff := time_Unix notAfter - time_Unix now).
  pose proof (Z.quot_rem' diff 86400) as Hqr.
  destruct (Z.le_gt_cases 0 diff) as [Hpos | Hneg].
  - pose proof (Z.rem_bound_pos diff 86400 Hpos ltac:(lia)). lia.
  - pose proof (Z.rem_bound_pos_neg diff 86400 ltac:(lia) ltac:(lia)). lia.
Qed.

Lemma daysLeft_antitone (notAfter now now' : Time) :
  in_int64 (time_Unix notAfter - time_Unix now) ->
  in_int64 (time_Unix notAfter - time_Unix now') ->
  time_Unix now <= time_Unix now' ->
  daysLeft_of notAfter now' <= daysLeft_of notAfter now.
Proof.
  intros H1 H2 Hle. rewrite (daysLeft_of_quot _ _ H1), (daysLeft_of_quot _ _ H2).
  apply Z.quot_le_mono; lia.
Qed.

(** X13. A certificate counts as valid only with a full day left: for
    times whose difference is an int64, the record of the secret variant has
    isValid = true exactly when notAfter is at least 86400 seconds after
    now, and the record of the ingress variant exactly when this holds and
    every expected host is accepted.  With less than a day left daysLeft is
    not positive and the certificate is reported as expired. *)
Theorem isValid_needs_a_full_day
    (VerifyHostname : Certificate -> string -> option error)
    (cfg : ApplicationConfig) (x509Data : Certificate) (now : Time)
    (w e : slice string) :
  let diff := time_Unix (cert_NotAfter x509Data) - time_Unix now in
  in_int64 diff ->
  (daysLeft_of (cert_NotAfter x509Data) now <= 0 <-> diff < 86400) /\
  (forall ns secret,
     SecretVariant.IsValid
       (SecretVariant.certificateInfo
          (SecretVariant.classify cfg ns secret x509Data now w e)) = true
     <-> 86400 <= diff) /\
  (forall nsName ingressName hosts,
     IngressVariant.IsValid
       (IngressVariant.certInfo
          (IngressVariant.classify VerifyHostname cfg nsName ingressName hosts
             x509Data now w e)) = true
     <-> 86400 <= diff /\ mismatching VerifyHostname x509Data hosts = []).
Proof.
  intros diff Hr.
  pose proof (daysLeft_positive_iff (cert_NotAfter x509Data) now Hr) as Hp.
  fold diff in Hp. split_and!.
  - lia.
  - intros ns secret.
    pose proof (SecretRun.sec_classify_outcome cfg ns secret x509Data now w e) as C.
    cbv zeta in C. destruct C as (X & Y & _ & _ & _ & _ & _ & _ & Hv & _).
    rewrite Hv. exact Hp.
  - intros nsName ingressName hosts.
    pose proof (IngressRun.classify_outcome VerifyHostname cfg nsName ingressName
                  hosts x509Data now w e) as C.
    cbv zeta in C.
    destruct C as (X & Y & _ & _ & _ & _ & _ & _ & _ & _ & Hv & _).
    rewrite Hv, Hp. reflexivity.
Qed.

(** The certificate of the examples that expires in 100 days is valid in
    the secret variant. *)
Lemma isValid_needs_a_full_day_witness :
  in_int64 (time_Unix (cert_NotAfter Demo.cert_far) - time_Unix (Demo.time_Now 0)) /\
  SecretVariant.IsValid
    (SecretVariant.certificateInfo
       (SecretVariant.classify Demo2.healthy_config (mkNamespace "prod")
          (Demo.tls_secret "prod" "web-tls" "-far") Demo.cert_far (Demo.time_Now 0)
          None None)) = true.
Proof.
  assert (H : in_int64 (time_Unix (cert_NotAfter Demo.cert_far)
                        - time_Unix (Demo.time_Now 0)))
    by (vm_compute; split; congruence).
  split; [exact H |].
  apply (proj1 (proj2 (isValid_needs_a_full_day Demo.VerifyHostname
                         Demo2.healthy_config Demo.cert_far (Demo.time_Now 0)
                         None None H))).
  vm_compute. congruence.
Defined.

(** X14. Alarms do not go quiet as time passes: for the same certificate
    and a later reading of the clock (differences within int64), daysLeft
    is not larger, a record that was invalid stays invalid, and if the
    classification appended an error before, it appends one again.  Both
    variants. *)
Theorem expiry_alarms_persist
    (VerifyHostname : Certificate -> string -> option error)
    (cfg : ApplicationConfig) (x509Data : Certificate) (now now' : Time)
    (w e : slice string) :
  in_int64 (time_Unix (cert_NotAfter x509Data) - time_Unix now) ->
  in_int64 (time_Unix (cert_NotAfter x509Data) - time_Unix now') ->
  time_Unix now <= time_Unix now' ->
  daysLeft_of (cert_NotAfter x509Data) now' <= daysLeft_of (cert_NotAfter x509Data) now /\
  (forall ns secret,
     let k := SecretVariant.classify cfg ns secret x509Data now w e in
     let k' := SecretVariant.classify cfg ns secret x509Data now' w e in
     (SecretVariant.IsValid (SecretVariant.certificateInfo k) = false ->
      SecretVariant.IsValid (SecretVariant.certificateInfo k') = false) /\
     (elems (SecretVariant.vd_errors k) <> elems e ->
      elems (SecretVariant.vd_errors k') <> elems e)) /\
  (forall nsName ingressName hosts,
     let k := IngressVariant.classify VerifyHostname cfg nsName ingressName hosts
                x509Data now w e in
     let k' := IngressVariant.classify VerifyHostname cfg nsName ingressName hosts
                 x509Data now' w e in
     (IngressVariant.IsValid (IngressVariant.certInfo k) = false ->
      IngressVariant.IsValid (IngressVariant.certInfo k') = false) /\
     (elems (IngressVariant.vd_errors k) <> elems e ->
      elems (IngressVariant.vd_errors k') <> elems e)).
Proof.
  intros H1 H2 Hle.
  pose proof (daysLeft_antitone _ _ _ H1 H2 Hle) as Hd.
  split_and!; [exact Hd | |].
  - intros ns secret k k'.
    pose proof (SecretRun.sec_classify_outcome cfg ns secret x509Data now w e) as C.
    pose proof (SecretRun.sec_classify_outcome cfg ns secret x509Data now' w e) as C'.
    cbv zeta in C, C'. fold k in C. fold k' in C'.
    destruct C as (X & Y & He & _ & HX & _ & _ & _ & Hv & _).
    destruct C' as (X' & Y' & He' & _ & HX' & _ & _ & _ & Hv' & _).
    split.
    + intros Hf. apply not_true_is_false. intros Ht. apply Hv' in Ht.
      assert (SecretVariant.IsValid (SecretVariant.certificateInfo k) = true)
        by (apply Hv; lia). congruence.
    + intros Hne Heq. apply Hne. rewrite He. rewrite He' in Heq.
      assert (X' = []) as HX0.
      { apply (app_inv_head (elems e)). by rewrite app_nil_r. }
      apply HX' in HX0.
      assert (X = []) as -> by (apply HX; lia). by rewrite app_nil_r.
  - intros nsName ingressName hosts k k'.
    pose proof (IngressRun.classify_outcome VerifyHostname cfg nsName ingressName
                  hosts x509Data now w e) as C.
    pose proof (IngressRun.classify_outcome VerifyHostname cfg nsName ingressName
                  hosts x509Data now' w e) as C'.
    cbv zeta in C, C'. fold k in C. fold k' in C'.
    destruct C as (X & Y & He & _ & _ & _ & HX & _ & _ & _ & Hv & _).
    destruct C' as (X' & Y' & He' & _ & _ & _ & HX' & _ & _ & _ & Hv' & _).
    split.
    + intros Hf. apply not_true_is_false. intros Ht. apply Hv' in Ht.
      assert (IngressVariant.IsValid (IngressVariant.certInfo k) = true)
        by (apply Hv; split; [lia | tauto]). congruence.
    + intros Hne Heq. apply Hne. rewrite He. rewrite He' in Heq.
      assert (X' = []) as HX0.
      { apply (app_inv_head (elems e)). by rewrite app_nil_r. }
      apply HX' in HX0.
      assert (X = []) as -> by (apply HX; split_and!; [lia | lia | tauto]).
      by rewrite app_nil_r.
Qed.

(** The certificate of the examples that expires in 20 days, now and a day
    later. *)
Lemma expiry_alarms_persist_witness :
  let later := mkTime (Demo.t_now + 86400) "2023-11-15 22:13:20 +0000 UTC" in
  in_int64 (time_Unix (cert_NotAfter Demo.cert_soon) - time_Unix (Demo.time_Now 0)) /\
  in_int64 (time_Unix (cert_NotAfter Demo.cert_soon) - time_Unix later) /\
  time_Unix (Demo.time_Now 0) <= time_Unix later /\
  daysLeft_of (cert_NotAfter Demo.cert_soon) later
  <= daysLeft_of (cert_NotAfter Demo.cert_soon) (Demo.time_Now 0).
Proof.
  intros later.
  assert (H1 : in_int64 (time_Unix (cert_NotAfter Demo.cert_soon)
                         - time_Unix (Demo.time_Now 0)))
    by (vm_compute; split; congruence).
  assert (H2 : in_int64 (time_Unix (cert_NotAfter Demo.cert_soon) - time_Unix later))
    by (vm_compute; split; congruence).
  assert (H3 : time_Unix (Demo.time_Now 0) <= time_Unix later)
    by (vm_compute; congruence).
  split_and!; [exact H1 | exact H2 | exact H3 |].
  exact (proj1 (expiry_alarms_persist Demo.VerifyHostname Demo2.healthy_config
                  Demo.cert_soon (Demo.time_Now 0) later None None H1 H2 H3)).
Defined.

(* ===================================================================== *)
(** ** getx509Data *)
(* ===================================================================== *)

(** X15. [getx509Data] of the ingress variant returns a certificate
    exactly when the secret can be fetched, holds a non-empty [tls.crt],
    that payload holds a PEM block, and the block parses; the certificate is
    the parsed one.  The checks are made in this order and the first that
    fails decides the error; the reason given by [x509.ParseCertificate] is
    not passed on. *)
Theorem ingress_getx509Data_outcomes
    (pem_Decode : bytes -> option bytes)
    (x509_ParseCertificate : bytes -> result Certificate)
    (client : Clientset) (ingress : IngressVariant.IngressInfo) :
  let ns := IngressVariant.Namespace ingress in
  let name := IngressVariant.TLSSecretName ingress in
  let r := IngressVariant.getx509Data pem_Decode x509_ParseCertificate client ingress in
  (forall cert,
     r = Ok cert <->
     exists (secret : Secret) (tlsCrt : list Byte.byte) (block_Bytes : bytes),
       Secrets_Get client ns name = Ok secret /\
       sec_Data secret !! "tls.crt" = Some tlsCrt /\ tlsCrt <> [] /\
       pem_Decode tlsCrt = Some block_Bytes /\
       x509_ParseCertificate block_Bytes = Ok cert) /\
  (forall err, Secrets_Get client ns name = Err err -> r = Err err) /\
  (forall secret, Secrets_Get client ns name = Ok secret ->
     (sec_Data secret !! "tls.crt" = (None : option (list Byte.byte)) ->
      r = Err ("tls.crt does not exist in " +:+ ns +:+ "/" +:+ name)) /\
     (sec_Data secret !! "tls.crt" = Some ([] : list Byte.byte) ->
      r = Err ("tls.crt for " +:+ ns +:+ "/" +:+ name +:+ " is empty")) /\
     (forall tlsCrt : list Byte.byte, sec_Data secret !! "tls.crt" = Some tlsCrt -> tlsCrt <> [] ->
        (pem_Decode tlsCrt = None ->
         r = Err ("Failed to decode certificate " +:+ ns +:+ "/" +:+ name)) /\
        (forall block_Bytes reason,
           pem_Decode tlsCrt = Some block_Bytes ->
           x509_ParseCertificate block_Bytes = Err reason ->
           r = Err ("Failed to parse certificate " +:+ ns +:+ "/" +:+ name)))).
Proof.
  intros ns name r. subst r ns name. unfold IngressVariant.getx509Data.
  split_and!.
  - intros cert. split.
    + destruct (Secrets_Get _ _ _) as [secret | e0]; [| done].
      destruct (sec_Data secret !! "tls.crt") as [tlsCrt |] eqn:Ed; [| done].
      case_decide as Hlen; [done |].
      destruct (pem_Decode tlsCrt) as [b |] eqn:Ep; [| done].
      destruct (x509_ParseCertificate b) as [c |] eqn:Ex; [| done].
      intros [= <-]. exists secret, tlsCrt, b. split_and!; try done.
      intros ->. by apply Hlen.
    + intros (secret & tlsCrt & b & H1 & H2 & Hne & H3 & H4).
      rewrite H1; cbv beta iota. rewrite H2; cbv beta iota.
      rewrite decide_False by (by destruct tlsCrt).
      rewrite H3; cbv beta iota. by rewrite H4.
  - intros err H1. by rewrite H1.
  - intros secret H1. rewrite H1; cbv beta iota. split_and!.
    + intros H2. by rewrite H2.
    + intros H2. by rewrite H2.
    + intros tlsCrt H2 Hne. rewrite H2; cbv beta iota.
      rewrite decide_False by (by destruct tlsCrt).
      split.
      * intros H3. by rewrite H3.
      * intros b reason H3 H4. rewrite H3; cbv beta iota. by rewrite H4.
Qed.

(** X16. [getx509Data] of the secret variant does not consult the cluster:
    it returns a certificate exactly when the secret it is given holds a
    non-empty [tls.crt] with a PEM block that parses, and otherwise the
    error of the first check that fails, formatted with the namespace and
    the name written in the secret. *)
Theorem secret_getx509Data_outcomes
    (pem_Decode : bytes -> option bytes)
    (x509_ParseCertificate : bytes -> result Certificate)
    (client client' : Clientset) (secret : Secret) :
  let ns := sec_Namespace secret in
  let name := sec_Name secret in
  let r := SecretVariant.getx509Data pem_Decode x509_ParseCertificate client secret in
  SecretVariant.getx509Data pem_Decode x509_ParseCertificate client' secret = r /\
  (forall cert,
     r = Ok cert <->
     exists (tlsCrt : list Byte.byte) (block_Bytes : bytes),
       sec_Data secret !! "tls.crt" = Some tlsCrt /\ tlsCrt <> [] /\
       pem_Decode tlsCrt = Some block_Bytes /\
       x509_ParseCertificate block_Bytes = Ok cert) /\
  (sec_Data secret !! "tls.crt" = (None : option (list Byte.byte)) ->
   r = Err ("tls.crt does not exist in " +:+ ns +:+ "/" +:+ name)) /\
  (sec_Data secret !! "tls.crt" = Some ([] : list Byte.byte) ->
   r = Err ("tls.crt for " +:+ ns +:+ "/" +:+ name +:+ " is empty")) /\
  (forall tlsCrt : list Byte.byte, sec_Data secret !! "tls.crt" = Some tlsCrt -> tlsCrt <> [] ->
     (pem_Decode tlsCrt = None ->
      r = Err ("Failed to decode certificate " +:+ ns +:+ "/" +:+ name)) /\
     (forall block_Bytes reason,
        pem_Decode tlsCrt = Some block_Bytes ->
        x509_ParseCertificate block_Bytes = Err reason ->
        r = Err ("Failed to parse certificate " +:+ ns +:+ "/" +:+ name))).
Proof.
  intros ns name r. subst r ns name. unfold SecretVariant.getx509Data.
  split_and!.
  - reflexivity.
  - intros cert. split.
    + destruct (sec_Data secret !! "tls.crt") as [tlsCrt |] eqn:Ed; [| done].
      case_decide as Hlen; [done |].
      destruct (pem_Decode tlsCrt) as [b |] eqn:Ep; [| done].
      destruct (x509_ParseCertificate b) as [c |] eqn:Ex; [| done].
      intros [= <-]. exists tlsCrt, b. split_and!; try done.
      intros ->. by apply Hlen.
    + intros (tlsCrt & b & H2 & Hne & H3 & H4).
      rewrite H2; cbv beta iota.
      rewrite decide_False by (by destruct tlsCrt).
      rewrite H3; cbv beta iota. by rewrite H4.
  - intros H2. by rewrite H2.
  - intros H2. by rewrite H2.
  - intros tlsCrt H2 Hne. rewrite H2; cbv beta iota.
    rewrite decide_False by (by destruct tlsCrt).
    split.
    + intros H3. by rewrite H3.
    + intros b reason H3 H4. rewrite H3; cbv beta iota. by rewrite H4.
Qed.

(* ===================================================================== *)
(** ** The handler, the normalisation and the client *)
(* ===================================================================== *)

(** X17. The handler of either variant always answers with content type
    [application/json] and with one of the codes 200, 201, 202, chosen from
    the snapshot before the body is serialised: when [json.MarshalIndent]
    fails, the code is still that of the snapshot and the body is the
    object with the one key [error] holding the failure text, followed by a
    newline; otherwise the body is the serialised snapshot. *)
Theorem handler_answers_even_when_serialisation_fails :
  (forall (json : IngressVariant.StatusResponse -> result string)
          (s : IngressVariant.StatusResponse),
     let resp := IngressVariant.handler json s in
     resp_ContentType resp = "application/json" /\
     resp_StatusCode resp = IngressVariant.status_code s /\
     (resp_StatusCode resp = 200 \/ resp_StatusCode resp = 201 \/
      resp_StatusCode resp = 202) /\
     (forall j, json s = Ok j -> resp_Body resp = j) /\
     (forall err, json s = Err err ->
        resp_Body resp
        = "{" +:+ dquote +:+ "error" +:+ dquote +:+ ": " +:+ dquote +:+ err
            +:+ dquote +:+ "}" +:+ newline /\
        contains (resp_Body resp) err = true)) /\
  (forall (json : SecretVariant.StatusResponse -> result string)
          (s : SecretVariant.StatusResponse),
     let resp := SecretVariant.handler json s in
     resp_ContentType resp = "application/json" /\
     resp_StatusCode resp = SecretVariant.status_code s /\
     (resp_StatusCode resp = 200 \/ resp_StatusCode resp = 201 \/
      resp_StatusCode resp = 202) /\
     (forall j, json s = Ok j -> resp_Body resp = j) /\
     (forall err, json s = Err err ->
        resp_Body resp
        = "{" +:+ dquote +:+ "error" +:+ dquote +:+ ": " +:+ dquote +:+ err
            +:+ dquote +:+ "}" +:+ newline /\
        contains (resp_Body resp) err = true)).
Proof.
  split; intros json s resp; subst resp.
  - unfold IngressVariant.handler.
    assert (Hc : IngressVariant.status_code s = 200 \/ IngressVariant.status_code s = 201
                 \/ IngressVariant.status_code s = 202)
      by (unfold IngressVariant.status_code; repeat case_decide; tauto).
    destruct (json s) as [j | err]; cbn [resp_ContentType resp_StatusCode resp_Body];
      split_and!; try done.
    + by intros j' [= ->].
    + intros err' [= ->]. split; [done |].
      do 6 apply contains_app_r. apply contains_here.
  - unfold SecretVariant.handler.
    assert (Hc : SecretVariant.status_code s = 200 \/ SecretVariant.status_code s = 201
                 \/ SecretVariant.status_code s = 202)
      by (unfold SecretVariant.status_code; repeat case_decide; tauto).
    destruct (json s) as [j | err]; cbn [resp_ContentType resp_StatusCode resp_Body];
      split_and!; try done.
    + by intros j' [= ->].
    + intros err' [= ->]. split; [done |].
      do 6 apply contains_app_r. apply contains_here.
Qed.

Lemma filter_all_false {A} (f : A -> bool) (l : list A) :
  Forall (fun x => f x = false) l -> filter (fun x => f x = true) l = [].
Proof.
  induction 1 as [| x l Hx Hl IH]; [done |].
  rewrite filter_cons, decide_False by congruence. exact IH.
Qed.

Lemma sec_records_nil_or_not_empty
    (pem_Decode : bytes -> option bytes)
    (x509_ParseCertificate : bytes -> result Certificate)
    (time_Now : nat -> Time) (cfg : ApplicationConfig)
    (l : list (v1_Namespace * Secret)) (t : nat) :
  let st := fold_left (secret_source_step pem_Decode x509_ParseCertificate
                         time_Now cfg) l
              (SecretVariant.mkCycle None None None t) in
  elems (SecretVariant.certificateInfoList st) = [] ->
  SecretVariant.certificateInfoList st = None.
Proof.
  cbv zeta.
  apply (fold_left_preserves _
           (fun st => elems (SecretVariant.certificateInfoList st) = [] ->
                      SecretVariant.certificateInfoList st = None)); [| done].
  intros st [ns secret] IH.
  unfold secret_source_step, SecretVariant.secret_step. cbn [fst snd].
  case_decide; [done |].
  destruct (SecretVariant.copied_from_elsewhere secret ns); [done |].
  destruct (SecretVariant.getx509Data _ _ _ _); cbn; [| done].
  intros E. by apply app_eq_nil in E as [_ E].
Qed.

(** X18. When the namespaces could be listed, the warnings and the errors
    that [getCertificateList] returns are never nil (they serialise as
    arrays), while its list of records is nil exactly when no TLS secret
    that is not skipped has a certificate that parses. *)
Theorem secret_lists_after_a_listing
    (pem_Decode : bytes -> option bytes)
    (x509_ParseCertificate : bytes -> result Certificate)
    (time_Now : nat -> Time) (cfg : ApplicationConfig) (t : nat)
    (namespaces : list v1_Namespace) :
  Namespaces_List (KubeClient cfg) = Ok namespaces ->
  let r := SecretVariant.getCertificateList pem_Decode x509_ParseCertificate
             time_Now cfg t in
  SecretVariant.warnings r <> None /\
  SecretVariant.errors r <> None /\
  (SecretVariant.certificateInfoList r = None <->
   Forall (fun src => secret_parses pem_Decode x509_ParseCertificate cfg src = false)
     (secret_sources cfg)).
Proof.
  intros Hns r.
  pose proof (SecretRun.sec_cycle_invariants pem_Decode x509_ParseCertificate
                time_Now cfg t) as (I1 & _).
  fold r in I1.
  assert (Er : r = SecretVariant.normalize
                     (fold_left (secret_source_step pem_Decode x509_ParseCertificate time_Now cfg)
                        (secret_sources cfg) (SecretVariant.mkCycle None None None t))).
  { unfold r. rewrite SecretRun.getCertificateList_over_sources, Hns. reflexivity. }
  destruct (SecretRun.normalize_elems
              (fold_left (secret_source_step pem_Decode x509_ParseCertificate time_Now cfg)
                 (secret_sources cfg) (SecretVariant.mkCycle None None None t)))
    as (N1 & _ & _ & N4 & N5 & _).
  rewrite <- Er in N1, N4, N5.
  split_and!; [exact N4 | exact N5 |].
  assert (Hempty : elems (SecretVariant.certificateInfoList r) = [] <->
                   Forall (fun src => secret_parses pem_Decode x509_ParseCertificate cfg src = false)
                     (secret_sources cfg)).
  { split.
    - intros E. rewrite E in I1. cbn in I1. symmetry in I1. apply map_eq_nil in I1.
      apply Forall_forall. intros src Hin.
      destruct (secret_parses pem_Decode x509_ParseCertificate cfg src) eqn:Ep; [| done].
      assert (src ∈ filter (fun src => secret_parses pem_Decode x509_ParseCertificate cfg src = true)
                      (secret_sources cfg)) as Hf by (by apply list_elem_of_filter).
      rewrite I1 in Hf. by apply not_elem_of_nil in Hf.
    - intros Hall.
      assert (filter (fun src => secret_parses pem_Decode x509_ParseCertificate cfg src = true)
                (secret_sources cfg) = []) as Hf.
      { by apply filter_all_false. }
      rewrite Hf in I1. cbn in I1. by apply map_eq_nil in I1. }
  rewrite <- Hempty. split.
  - by intros ->.
  - rewrite N1. apply sec_records_nil_or_not_empty.
Qed.

(** The cluster of the examples in which everything is in order. *)
Lemma secret_lists_after_a_listing_witness :
  Namespaces_List (KubeClient Demo2.healthy_config) = Ok [mkNamespace "prod"] /\
  SecretVariant.warnings
    (SecretVariant.getCertificateList Demo.pem_Decode Demo.x509_ParseCertificate
       Demo.time_Now Demo2.healthy_config 0) <> None.
Proof.
  assert (H : Namespaces_List (KubeClient Demo2.healthy_config) = Ok [mkNamespace "prod"])
    by reflexivity.
  split; [exact H |].
  exact (proj1 (secret_lists_after_a_listing Demo.pem_Decode
                  Demo.x509_ParseCertificate Demo.time_Now Demo2.healthy_config 0%nat
                  [mkNamespace "prod"] H)).
Defined.

(** X19. [newKubernetesClient] builds the configuration from the kubeconfig
    file exactly when [KubeConfig] is not empty and from the in-cluster
    configuration otherwise; it returns a client exactly when that
    configuration could be built and [kubernetes.NewForConfig] accepts it,
    and otherwise the error of the step that failed, unchanged; the source
    that was not chosen has no influence. *)
Theorem newKubernetesClient_outcomes
    (Config : Type)
    (BuildConfigFromFlags : string -> string -> result Config)
    (InClusterConfig InClusterConfig' : result Config)
    (BuildConfigFromFlags' : string -> string -> result Config)
    (NewForConfig : Config -> result Clientset) (kubeConfig : string) :
  let chosen := if decide (kubeConfig = EmptyString) then InClusterConfig
                else BuildConfigFromFlags EmptyString kubeConfig in
  let r := newKubernetesClient Config BuildConfigFromFlags InClusterConfig
             NewForConfig kubeConfig in
  (forall clientset,
     r = Ok clientset <->
     exists config, chosen = Ok config /\ NewForConfig config = Ok clientset) /\
  (forall err,
     r = Err err <->
     chosen = Err err \/
     exists config, chosen = Ok config /\ NewForConfig config = Err err) /\
  (kubeConfig <> EmptyString ->
   newKubernetesClient Config BuildConfigFromFlags InClusterConfig' NewForConfig
     kubeConfig = r) /\
  (kubeConfig = EmptyString ->
   newKubernetesClient Config BuildConfigFromFlags' InClusterConfig NewForConfig
     kubeConfig = r).
Proof.
  intros chosen r. subst chosen r. unfold newKubernetesClient.
  destruct (decide (kubeConfig = EmptyString)) as [-> | Hne].
  - rewrite !decide_False by (intros H; by apply H).
    split_and!; try done.
    + intros c. destruct InClusterConfig as [conf | e]; [| split; [done | by intros (? & ? & ?)]].
      destruct (NewForConfig conf) eqn:E; split; try done.
      * intros [= <-]. by exists conf.
      * intros (conf' & [= <-] & H'). congruence.
      * intros (conf' & [= <-] & H'). congruence.
    + intros err. destruct InClusterConfig as [conf | e].
      * destruct (NewForConfig conf) eqn:E; split; try done.
        -- intros [H' | (conf' & [= <-] & H')]; [done | congruence].
        -- intros [= <-]. right. by exists conf.
        -- intros [H' | (conf' & [= <-] & H')]; [done | congruence].
      * split; [intros [= <-]; by left |].
        intros [[= <-] | (conf' & H' & _)]; done.
  - rewrite !decide_True by done.
    split_and!; try done.
    + intros c. destruct (BuildConfigFromFlags _ _) as [conf | e];
        [| split; [done | by intros (? & ? & ?)]].
      destruct (NewForConfig conf) eqn:E; split; try done.
      * intros [= <-]. by exists conf.
      * intros (conf' & [= <-] & H'). congruence.
      * intros (conf' & [= <-] & H'). congruence.
    + intros err. destruct (BuildConfigFromFlags _ _) as [conf | e].
      * destruct (NewForConfig conf) eqn:E; split; try done.
        -- intros [H' | (conf' & [= <-] & H')]; [done | congruence].
        -- intros [= <-]. right. by exists conf.
        -- intros [H' | (conf' & [= <-] & H')]; [done | congruence].
      * split; [intros [= <-]; by left |].
        intros [[= <-] | (conf' & H' & _)]; done.
Qed.

(* ===================================================================== *)
(** ** The refresh loop *)
(* ===================================================================== *)

Lemma fold_left_related {A B} (R : A -> A -> Prop) (f : A -> B -> A) (l : list B) :
  (forall s s' x, R s s' -> R (f s x) (f s' x)) ->
  forall s s', R s s' -> R (fold_left f l s) (fold_left f l s').
Proof.
  intros Hstep. induction l as [| x l IH]; intros s s' HR; simpl; auto.
Qed.

Section FrozenClock.
Variable pem_Decode : bytes -> option bytes.
Variable x509_ParseCertificate : bytes -> result Certificate.
Variable VerifyHostname : Certificate -> string -> option error.
Variable time_Now : nat -> Time.
Variable cfg : ApplicationConfig.
Hypothesis frozen : forall i j, time_Now i = time_Now j.

Lemma ing_cycle_frozen (t t' : nat) :
  let r := IngressVariant.getIngresses pem_Decode x509_ParseCertificate
             VerifyHostname time_Now cfg t in
  let r' := IngressVariant.getIngresses pem_Decode x509_ParseCertificate
              VerifyHostname time_Now cfg t' in
  IngressVariant.ingressInfoList r = IngressVariant.ingressInfoList r' /\
  IngressVariant.warnings r = IngressVariant.warnings r' /\
  IngressVariant.errors r = IngressVariant.errors r'.
Proof.
  cbv zeta. rewrite !IngressRun.getIngresses_over_sources.
  destruct (Namespaces_List (KubeClient cfg)); [| done].
  apply (fold_left_related
           (fun s s' => IngressVariant.ingressInfoList s = IngressVariant.ingressInfoList s' /\
                        IngressVariant.warnings s = IngressVariant.warnings s' /\
                        IngressVariant.errors s = IngressVariant.errors s')); [| done].
  intros s s' [[ns ingress] tlsSpec] (H1 & H2 & H3).
  unfold ingress_source_step, IngressVariant.tls_step. cbn [fst snd].
  destruct (IngressVariant.getx509Data _ _ _ _); cbn.
  - rewrite H1, H2, H3, (frozen (IngressVariant.ticks s) (IngressVariant.ticks s')). done.
  - rewrite H1, H2, H3. done.
Qed.

Lemma sec_cycle_frozen (t t' : nat) :
  let r := SecretVariant.getCertificateList pem_Decode x509_ParseCertificate
             time_Now cfg t in
  let r' := SecretVariant.getCertificateList pem_Decode x509_ParseCertificate
              time_Now cfg t' in
  SecretVariant.certificateInfoList r = SecretVariant.certificateInfoList r' /\
  SecretVariant.warnings r = SecretVariant.warnings r' /\
  SecretVariant.errors r = SecretVariant.errors r'.
Proof.
  cbv zeta. unfold SecretVariant.getCertificateList.
  destruct (Namespaces_List (KubeClient cfg)) as [nss |]; [| done].
  assert (G : forall s s' : SecretVariant.Cycle,
             SecretVariant.certificateInfoList s = SecretVariant.certificateInfoList s' /\
             SecretVariant.warnings s = SecretVariant.warnings s' /\
             SecretVariant.errors s = SecretVariant.errors s' ->
             SecretVariant.certificateInfoList (SecretVariant.normalize s)
             = SecretVariant.certificateInfoList (SecretVariant.normalize s') /\
             SecretVariant.warnings (SecretVariant.normalize s)
             = SecretVariant.warnings (SecretVariant.normalize s') /\
             SecretVariant.errors (SecretVariant.normalize s)
             = SecretVariant.errors (SecretVariant.normalize s')).
  { intros s s' (H1 & H2 & H3). unfold SecretVariant.normalize. cbn.
    rewrite H1, H2, H3. done. }
  apply G.
  apply (fold_left_related
           (fun s s' => SecretVariant.certificateInfoList s = SecretVariant.certificateInfoList s' /\
                        SecretVariant.warnings s = SecretVariant.warnings s' /\
                        SecretVariant.errors s = SecretVariant.errors s')); [| done].
  intros s s' ns HR. unfold SecretVariant.namespace_step.
  destruct (Secrets_List (KubeClient cfg) (ns_Name ns)) as [secrets lerr].
  revert s s' HR.
  apply (fold_left_related
           (fun s s' => SecretVariant.certificateInfoList s = SecretVariant.certificateInfoList s' /\
                        SecretVariant.warnings s = SecretVariant.warnings s' /\
                        SecretVariant.errors s = SecretVariant.errors s')).
  intros s s' secret (H1 & H2 & H3). unfold SecretVariant.secret_step.
  case_decide; [done |].
  destruct (SecretVariant.copied_from_elsewhere secret ns); [done |].
  destruct (SecretVariant.getx509Data _ _ _ _); cbn.
  - rewrite H1, H2, H3, (frozen (SecretVariant.ticks s) (SecretVariant.ticks s')). done.
  - rewrite H1, H2, H3. done.
Qed.

Lemma ing_iteration_frozen (p p' : IngressVariant.Process) :
  IngressVariant.currentStatus
    (IngressVariant.refresh_iteration pem_Decode x509_ParseCertificate VerifyHostname
       time_Now cfg p)
  = IngressVariant.currentStatus
      (IngressVariant.refresh_iteration pem_Decode x509_ParseCertificate
         VerifyHostname time_Now cfg p').
Proof.
  unfold IngressVariant.refresh_iteration. cbn [IngressVariant.currentStatus].
  pose proof (ing_cycle_frozen (S (IngressVariant.proc_ticks p))
                (S (IngressVariant.proc_ticks p'))) as (H1 & H2 & H3).
  rewrite H1, H2, H3. f_equal. f_equal. apply frozen.
Qed.

Lemma sec_iteration_frozen (p p' : SecretVariant.Process) :
  SecretVariant.currentStatus
    (SecretVariant.refresh_iteration pem_Decode x509_ParseCertificate time_Now cfg p)
  = SecretVariant.currentStatus
      (SecretVariant.refresh_iteration pem_Decode x509_ParseCertificate time_Now
         cfg p').
Proof.
  unfold SecretVariant.refresh_iteration. cbn [SecretVariant.currentStatus].
  pose proof (sec_cycle_frozen (S (SecretVariant.proc_ticks p))
                (S (SecretVariant.proc_ticks p'))) as (H1 & H2 & H3).
  rewrite H1, H2, H3. f_equal. f_equal. apply frozen.
Qed.

End FrozenClock.

(** X20. Nothing is carried from one cycle to the next: with the same
    answers of the cluster and a clock that stands still, the snapshot
    installed after any number of iterations of the refresh loop, from any
    earlier state, is the one a single iteration installs.  Both
    variants. *)
Theorem refresh_loop_keeps_no_state
    (pem_Decode : bytes -> option bytes)
    (x509_ParseCertificate : bytes -> result Certificate)
    (VerifyHostname : Certificate -> string -> option error)
    (time_Now : nat -> Time) (cfg : ApplicationConfig) :
  (forall i j, time_Now i = time_Now j) ->
  (forall n p p',
     IngressVariant.currentStatus
       (ingress_refresh_loop pem_Decode x509_ParseCertificate VerifyHostname
          time_Now cfg (S n) p)
     = IngressVariant.currentStatus
         (IngressVariant.refresh_iteration pem_Decode x509_ParseCertificate
            VerifyHostname time_Now cfg p')) /\
  (forall n p p',
     SecretVariant.currentStatus
       (secret_refresh_loop pem_Decode x509_ParseCertificate time_Now cfg (S n) p)
     = SecretVariant.currentStatus
         (SecretVariant.refresh_iteration pem_Decode x509_ParseCertificate time_Now
            cfg p')).
Proof.
  intros frozen. split.
  - induction n as [| n IH]; intros p p'.
    + cbn [ingress_refresh_loop]. by apply ing_iteration_frozen.
    + change (ingress_refresh_loop pem_Decode x509_ParseCertificate VerifyHostname
                time_Now cfg (S (S n)) p)
        with (ingress_refresh_loop pem_Decode x509_ParseCertificate VerifyHostname
                time_Now cfg (S n)
                (IngressVariant.refresh_iteration pem_Decode x509_ParseCertificate
                   VerifyHostname time_Now cfg p)).
      apply IH.
  - induction n as [| n IH]; intros p p'.
    + cbn [secret_refresh_loop]. by apply sec_iteration_frozen.
    + change (secret_refresh_loop pem_Decode x509_ParseCertificate time_Now cfg
                (S (S n)) p)
        with (secret_refresh_loop pem_Decode x509_ParseCertificate time_Now cfg (S n)
                (SecretVariant.refresh_iteration pem_Decode x509_ParseCertificate
                   time_Now cfg p)).
      apply IH.
Qed.

(** The clock of the examples stands still: after three iterations on the
    cluster with the missing secret the snapshot is that of one. *)
Lemma refresh_loop_witness :
  let cfg := Demo.config (Demo.client Demo.get_missing [] None) in
  (forall i j, Demo.time_Now i = Demo.time_Now j) /\
  IngressVariant.currentStatus
    (ingress_refresh_loop Demo.pem_Decode Demo.x509_ParseCertificate
       Demo.VerifyHostname Demo.time_Now cfg 3
       (IngressVariant.mkProcess IngressVariant.initial_status 0))
  = IngressVariant.currentStatus
      (IngressVariant.refresh_iteration Demo.pem_Decode Demo.x509_ParseCertificate
         Demo.VerifyHostname Demo.time_Now cfg
         (IngressVariant.mkProcess IngressVariant.initial_status 0)).
Proof.
  intros cfg.
  assert (H : forall i j, Demo.time_Now i = Demo.time_Now j) by reflexivity.
  split; [exact H |].
  exact (proj1 (refresh_loop_keeps_no_state Demo.pem_Decode Demo.x509_ParseCertificate
                  Demo.VerifyHostname Demo.time_Now cfg H) 2%nat
           (IngressVariant.mkProcess IngressVariant.initial_status 0)
           (IngressVariant.mkProcess IngressVariant.initial_status 0)).
Defined.

(* ===================================================================== *)
(** ** The Nagios plugin *)
(* ===================================================================== *)

Section NagiosFacts.
Variable Json : Type.
Variable parse_json_safe : string -> Json.
Variable truthy : Json -> bool.
Variable array_field : Json -> string -> option (list string).
Variable ua_get : string -> Nagios.HTTPResponse.

Lemma nagios_cases (url : string) (rest : list string) :
  let resp := ua_get url in
  let doc := parse_json_safe (Nagios.content resp) in
  let o := Nagios.check_k8s_certmon Json parse_json_safe truthy array_field ua_get
             (url :: rest) in
  (Nagios.code resp = 200 /\ truthy doc = true /\
   o = Nagios.Exit 0 ("OK: All certificates is valid." +:+ newline)) \/
  (Nagios.code resp = 201 /\ truthy doc = true /\
   exists ws, array_field doc "warnings" = Some ws /\
              o = Nagios.Exit 1 ("WARNING: " +:+ String.concat ", " ws +:+ newline)) \/
  (Nagios.code resp = 201 /\ truthy doc = true /\
   array_field doc "warnings" = None /\ o = Nagios.Died) \/
  (Nagios.code resp = 202 /\ truthy doc = true /\
   array_field doc "errors" = None /\ o = Nagios.Died) \/
  ((Nagios.code resp <> 200 \/ truthy doc = false) /\
   (Nagios.code resp <> 201 \/ truthy doc = false) /\
   exists out, o = Nagios.Exit 2 out).
Proof.
  cbv zeta. unfold Nagios.check_k8s_certmon, Nagios.is_success, Nagios.handlers,
    Nagios.h_200, Nagios.h_201, Nagios.h_202.
  destruct (decide (200 <= Nagios.code (ua_get url) < 300)) as [Hs | Hs].
  - rewrite bool_decide_eq_true_2 by exact Hs.
    destruct (truthy (parse_json_safe (Nagios.content (ua_get url)))) eqn:Et.
    + repeat case_decide; cbn [negb].
      * left. done.
      * destruct (array_field _ "warnings") as [ws |] eqn:Ea.
        -- right. left. split_and!; try done. by exists ws.
        -- do 2 right. left. done.
      * destruct (array_field _ "errors") as [es |] eqn:Ea.
        -- do 4 right. split_and!; [left; lia | left; lia | by eexists].
        -- do 3 right. left. done.
      * do 4 right. split_and!; [by left | by left | by eexists].
    + do 4 right. repeat case_decide; cbn [negb];
        (split_and!; [by right | by right | by eexists]).
  - rewrite bool_decide_eq_false_2 by exact Hs.
    do 4 right. split_and!; [left; lia | left; lia | by eexists].
Qed.

End NagiosFacts.

(** X21. The Nagios plugin ends with status 0, 1 or 2 or dies.  It exits
    with 0 exactly when the answer has code 200 and its body is a
    document that Perl takes for true; with 1 exactly when the code is 201,
    the document is true and its field [warnings] is an array; it dies
    exactly when it has no argument, or the document is true and the field
    it needs ([warnings] for 201, [errors] for 202) is not an array.  Every
    other run (a failed request, another code, a body that is not a
    document) exits with 2. *)
Theorem nagios_exit_status
    (Json : Type) (parse_json_safe : string -> Json) (truthy : Json -> bool)
    (array_field : Json -> string -> option (list string))
    (ua_get : string -> Nagios.HTTPResponse) (argv : list string) :
  let o := Nagios.check_k8s_certmon Json parse_json_safe truthy array_field ua_get
             argv in
  (forall n out, o = Nagios.Exit n out -> n = 0 \/ n = 1 \/ n = 2) /\
  ((exists out, o = Nagios.Exit 0 out) <->
   exists url rest, argv = url :: rest /\
     Nagios.code (ua_get url) = 200 /\
     truthy (parse_json_safe (Nagios.content (ua_get url))) = true) /\
  ((exists out, o = Nagios.Exit 1 out) <->
   exists url rest, argv = url :: rest /\
     Nagios.code (ua_get url) = 201 /\
     truthy (parse_json_safe (Nagios.content (ua_get url))) = true /\
     array_field (parse_json_safe (Nagios.content (ua_get url))) "warnings" <> None) /\
  (o = Nagios.Died <->
   argv = [] \/
   exists url rest, argv = url :: rest /\
     truthy (parse_json_safe (Nagios.content (ua_get url))) = true /\
     ((Nagios.code (ua_get url) = 201 /\
       array_field (parse_json_safe (Nagios.content (ua_get url))) "warnings" = None) \/
      (Nagios.code (ua_get url) = 202 /\
       array_field (parse_json_safe (Nagios.content (ua_get url))) "errors" = None))).
Proof.
  intros o. destruct argv as [| url rest].
  - subst o. cbn. split_and!.
    + intros n out [=].
    + split; [intros (out & [=]) | intros (url & rest & [=] & _)].
    + split; [intros (out & [=]) | intros (url & rest & [=] & _)].
    + split; [by left | done].
  - pose proof (nagios_cases Json parse_json_safe truthy array_field ua_get url rest) as C.
    cbv zeta in C. fold o in C.
    destruct C as [(Hc & Ht & Ho) | [(Hc & Ht & ws & Ha & Ho) | [(Hc & Ht & Ha & Ho)
                  | [(Hc & Ht & Ha & Ho) | (Hn0 & Hn1 & out2 & Ho)]]]]; rewrite Ho.
    + split_and!.
      * intros n out [= <- _]. tauto.
      * split; [intros _; by exists url, rest | intros _; by eexists].
      * split; [intros (out & [=]) |].
        intros (url' & rest' & [= <- <-] & Hc' & _). lia.
      * split; [done |].
        intros [[=] | (url' & rest' & [= <- <-] & _ & [[Hc' _] | [Hc' _]])]; lia.
    + split_and!.
      * intros n out [= <- _]. tauto.
      * split; [intros (out & [=]) |].
        intros (url' & rest' & [= <- <-] & Hc' & _). lia.
      * split; [intros _ | intros _; by eexists].
        exists url, rest. split_and!; try done. by rewrite Ha.
      * split; [done |].
        intros [[=] | (url' & rest' & [= <- <-] & _ & [[_ Ha'] | [Hc' _]])];
          [congruence | lia].
    + split_and!.
      * intros n out [=].
      * split; [intros (out & [=]) |].
        intros (url' & rest' & [= <- <-] & Hc' & _). lia.
      * split; [intros (out & [=]) |].
        intros (url' & rest' & [= <- <-] & _ & _ & Ha'). done.
      * split; [intros _ | done]. right. exists url, rest. split_and!; try done.
        left. done.
    + split_and!.
      * intros n out [=].
      * split; [intros (out & [=]) |].
        intros (url' & rest' & [= <- <-] & Hc' & _). lia.
      * split; [intros (out & [=]) |].
        intros (url' & rest' & [= <- <-] & Hc' & _). lia.
      * split; [intros _ | done]. right. exists url, rest. split_and!; try done.
        right. done.
    + split_and!.
      * intros n out [= <- _]. tauto.
      * split; [intros (out & [=]) |].
        intros (url' & rest' & [= <- <-] & Hc' & Ht'). destruct Hn0; congruence.
      * split; [intros (out & [=]) |].
        intros (url' & rest' & [= <- <-] & Hc' & Ht' & _). destruct Hn1; congruence.
      * split; [done |].
        intros [[=] | (url' & rest' & [= <- <-] & Ht' & [[Hc' _] | [Hc' Ha']])].
        -- destruct Hn1; congruence.
        -- exfalso. revert Ho. subst o.
           unfold Nagios.check_k8s_certmon, Nagios.is_success, Nagios.handlers, Nagios.h_202.
           rewrite bool_decide_eq_true_2 by lia. rewrite Hc', Ht'.
           rewrite decide_False by done. rewrite decide_False by done.
           rewrite decide_True by done. cbn [negb]. rewrite Ha'. done.
Qed.

(** X22. The plugin never calls a snapshot with diagnostics healthy: run
    against the answer of the handler of either variant, it exits with 0
    only if the errors and the warnings of the snapshot are both empty, with
    1 only if the errors are empty and the warnings are not, and when the
    errors are not empty it exits with 2 or dies. *)
Theorem nagios_follows_the_snapshot
    (Json : Type) (parse_json_safe : string -> Json) (truthy : Json -> bool)
    (array_field : Json -> string -> option (list string))
    (status_line url : string) (rest : list string) :
  (forall json s,
     let r := IngressVariant.handler json s in
     let o := Nagios.check_k8s_certmon Json parse_json_safe truthy array_field
                (fun _ => Nagios.mkHTTPResponse (resp_StatusCode r) status_line
                            (resp_Body r))
                (url :: rest) in
     ((exists out, o = Nagios.Exit 0 out) ->
      elems (IngressVariant.Errors s) = [] /\ elems (IngressVariant.Warnings s) = []) /\
     ((exists out, o = Nagios.Exit 1 out) ->
      elems (IngressVariant.Errors s) = [] /\ elems (IngressVariant.Warnings s) <> []) /\
     (elems (IngressVariant.Errors s) <> [] ->
      o = Nagios.Died \/ exists out, o = Nagios.Exit 2 out)) /\
  (forall json s,
     let r := SecretVariant.handler json s in
     let o := Nagios.check_k8s_certmon Json parse_json_safe truthy array_field
                (fun _ => Nagios.mkHTTPResponse (resp_StatusCode r) status_line
                            (resp_Body r))
                (url :: rest) in
     ((exists out, o = Nagios.Exit 0 out) ->
      elems (SecretVariant.Errors s) = [] /\ elems (SecretVariant.Warnings s) = []) /\
     ((exists out, o = Nagios.Exit 1 out) ->
      elems (SecretVariant.Errors s) = [] /\ elems (SecretVariant.Warnings s) <> []) /\
     (elems (SecretVariant.Errors s) <> [] ->
      o = Nagios.Died \/ exists out, o = Nagios.Exit 2 out)).
Proof.
  assert (G : forall (code : Z) (body : string) (errs warns : slice string),
             code = (if decide (len errs > 0) then 202
                     else if decide (len warns > 0) then 201 else 200) ->
             let o := Nagios.check_k8s_certmon Json parse_json_safe truthy array_field
                        (fun _ => Nagios.mkHTTPResponse code status_line body)
                        (url :: rest) in
             ((exists out, o = Nagios.Exit 0 out) -> elems errs = [] /\ elems warns = []) /\
             ((exists out, o = Nagios.Exit 1 out) -> elems errs = [] /\ elems warns <> []) /\
             (elems errs <> [] -> o = Nagios.Died \/ exists out, o = Nagios.Exit 2 out)).
  { intros code body errs warns Hcode o.
    pose proof (len_pos_iff errs) as He. pose proof (len_npos_iff errs) as He'.
    pose proof (len_pos_iff warns) as Hw. pose proof (len_npos_iff warns) as Hw'.
    pose proof (nagios_cases Json parse_json_safe truthy array_field
                  (fun _ => Nagios.mkHTTPResponse code status_line body) url rest) as C.
    cbv zeta in C. fold o in C. cbn [Nagios.code Nagios.content] in C.
    destruct C as [(Hc & Ht & Ho) | [(Hc & Ht & ws & Ha & Ho) | [(Hc & Ht & Ha & Ho)
                  | [(Hc & Ht & Ha & Ho) | (Hn0 & Hn1 & out2 & Ho)]]]]; rewrite Ho;
      repeat case_decide; try lia;
      (split_and!; [intros (out & Hout); first [discriminate Hout | tauto]
                   | intros (out & Hout); first [discriminate Hout | tauto]
                   | intros Hne; first [tauto | right; by eexists | by left]]). }
  split; intros json s r o.
  - apply (G (resp_StatusCode r) (resp_Body r) (IngressVariant.Errors s)
             (IngressVariant.Warnings s)).
    subst r. unfold IngressVariant.handler, IngressVariant.status_code.
    destruct (json s); reflexivity.
  - apply (G (resp_StatusCode r) (resp_Body r) (SecretVariant.Errors s)
             (SecretVariant.Warnings s)).
    subst r. unfold SecretVariant.handler, SecretVariant.status_code.
    destruct (json s); reflexivity.
Qed.

(* ===================================================================== *)
(** ** When the handler answers 202 *)
(* ===================================================================== *)

Lemma ing_errors_invariant
    (pem_Decode : bytes -> option bytes)
    (x509_ParseCertificate : bytes -> result Certificate)
    (VerifyHostname : Certificate -> string -> option error)
    (time_Now : nat -> Time) (cfg : ApplicationConfig)
    (l : list (v1_Namespace * Ingress * IngressTLS)) (t : nat) :
  let st := fold_left (ingress_source_step pem_Decode x509_ParseCertificate
                         VerifyHostname time_Now cfg) l
              (IngressVariant.mkCycle None None None t) in
  elems (IngressVariant.errors st) = [] <->
  Forall (fun src => ingress_parses pem_Decode x509_ParseCertificate cfg src = true) l /\
  Forall (fun r => exists c, IngressVariant.certificate r = Some c /\
                             IngressVariant.IsValid c = true /\
                             CritDaysLeft cfg < IngressVariant.DaysLeft c)
    (elems (IngressVariant.ingressInfoList st)).
Proof.
  cbv zeta.
  apply (fold_left_with_history
           (ingress_source_step pem_Decode x509_ParseCertificate VerifyHostname
              time_Now cfg)
           (fun l st =>
              elems (IngressVariant.errors st) = [] <->
              Forall (fun src => ingress_parses pem_Decode x509_ParseCertificate cfg src = true) l /\
              Forall (fun r => exists c, IngressVariant.certificate r = Some c /\
                                         IngressVariant.IsValid c = true /\
                                         CritDaysLeft cfg < IngressVariant.DaysLeft c)
                (elems (IngressVariant.ingressInfoList st)))).
  - cbn. split; [intros _; split; constructor | done].
  - intros pre src st I.
    pose proof (IngressRun.source_step_outcome pem_Decode x509_ParseCertificate
                  VerifyHostname time_Now cfg st src) as O.
    cbv zeta in O.
    destruct (IngressVariant.getx509Data _ _ _ _) as [x | err].
    + destruct O as (Hp & c & X & Y & Hl & _ & He & _ & _ & _ & HX & _ & _ & Hd & Hv & _).
      match type of Hl with _ = append ?l0 ?r0 =>
        assert (El : elems (IngressVariant.ingressInfoList
                              (ingress_source_step pem_Decode x509_ParseCertificate
                                 VerifyHostname time_Now cfg st src))
                     = elems l0 ++ [r0]) by (rewrite Hl; reflexivity)
      end.
      rewrite He, El.
      rewrite !Forall_app, !Forall_singleton. split.
      * intros HeX. apply app_eq_nil in HeX as [He0 HX0].
        apply I in He0 as [A B]. split_and!; try done.
        exists c. cbn. apply HX in HX0 as (D1 & D2 & D3).
        split_and!; [done | apply Hv; done | by rewrite Hd].
      * intros ((A & _) & (B & (c0 & Hc0 & Hv0 & Hcrit))).
        cbn in Hc0. injection Hc0 as <-.
        assert (elems (IngressVariant.errors st) = []) as -> by (apply I; done).
        apply Hv in Hv0 as (D1 & D3). rewrite Hd in Hcrit.
        assert (X = []) as -> by (apply HX; done). done.
    + destruct O as (Hp & ->). unfold record_error.
      cbn [IngressVariant.errors IngressVariant.ingressInfoList]. rewrite elems_append.
      split.
      * intros E. by apply app_eq_nil in E as [_ E].
      * intros (A & _). apply Forall_app in A as [_ A].
        rewrite Forall_singleton in A. congruence.
Qed.

Lemma sec_errors_invariant
    (pem_Decode : bytes -> option bytes)
    (x509_ParseCertificate : bytes -> result Certificate)
    (time_Now : nat -> Time) (cfg : ApplicationConfig)
    (l : list (v1_Namespace * Secret)) (t : nat) :
  Forall (fun src => relevant_secret src.1 src.2 = true) l ->
  let st := fold_left (secret_source_step pem_Decode x509_ParseCertificate
                         time_Now cfg) l
              (SecretVariant.mkCycle None None None t) in
  elems (SecretVariant.errors st) = [] <->
  Forall (fun src => secret_parses pem_Decode x509_ParseCertificate cfg src = true) l /\
  Forall (fun c => SecretVariant.IsValid c = true /\
                   CritDaysLeft cfg < SecretVariant.DaysLeft c)
    (elems (SecretVariant.certificateInfoList st)).
Proof.
  cbv zeta.
  apply (fold_left_with_history
           (secret_source_step pem_Decode x509_ParseCertificate time_Now cfg)
           (fun l st =>
              Forall (fun src => relevant_secret src.1 src.2 = true) l ->
              (elems (SecretVariant.errors st) = [] <->
               Forall (fun src => secret_parses pem_Decode x509_ParseCertificate cfg src = true) l /\
               Forall (fun c => SecretVariant.IsValid c = true /\
                                CritDaysLeft cfg < SecretVariant.DaysLeft c)
                 (elems (SecretVariant.certificateInfoList st))))).
  - intros _. cbn. split; [intros _; split; constructor | done].
  - intros pre src st IH Hrel.
    apply Forall_app in Hrel as [Hpre Hsrc]. rewrite Forall_singleton in Hsrc.
    specialize (IH Hpre).
    pose proof (SecretRun.sec_source_step_outcome pem_Decode x509_ParseCertificate
                  time_Now cfg st src Hsrc) as O.
    cbv zeta in O.
    destruct (SecretVariant.getx509Data _ _ _ _) as [x | err].
    + destruct O as (Hp & c & X & Y & El & He & _ & HX & _ & _ & Hd & Hv & _).
      rewrite He, El. rewrite !Forall_app, !Forall_singleton. split.
      * intros HeX. apply app_eq_nil in HeX as [He0 HX0].
        apply IH in He0 as [A B]. split_and!; try done.
        -- apply Hv. apply HX in HX0. tauto.
        -- rewrite Hd. apply HX in HX0. tauto.
      * intros ((A & _) & (B & (Hv0 & Hcrit))).
        assert (elems (SecretVariant.errors st) = []) as -> by (apply IH; done).
        apply Hv in Hv0. rewrite Hd in Hcrit.
        assert (X = []) as -> by (apply HX; done). done.
    + destruct O as (Hp & ->).
      cbn [SecretVariant.errors SecretVariant.certificateInfoList]. rewrite elems_append.
      split.
      * intros E. by apply app_eq_nil in E as [_ E].
      * intros (A & _). apply Forall_app in A as [_ A].
        rewrite Forall_singleton in A. congruence.
Qed.

(** X23. When the namespaces could be listed, a cycle of either variant
    is answered with 202 exactly when the certificate of some discovered
    source could not be fetched or parsed, or some published certificate is
    invalid or has at most CritDaysLeft days left. *)
Theorem answer_202_exactly_when_something_is_critical
    (pem_Decode : bytes -> option bytes)
    (x509_ParseCertificate : bytes -> result Certificate)
    (VerifyHostname : Certificate -> string -> option error)
    (time_Now : nat -> Time) (cfg : ApplicationConfig)
    (namespaces : list v1_Namespace) :
  Namespaces_List (KubeClient cfg) = Ok namespaces ->
  (forall json p,
     let s := IngressVariant.currentStatus
                (IngressVariant.refresh_iteration pem_Decode x509_ParseCertificate
                   VerifyHostname time_Now cfg p) in
     resp_StatusCode (IngressVariant.handler json s) = 202 <->
     ~ (Forall (fun src => ingress_parses pem_Decode x509_ParseCertificate cfg src = true)
          (ingress_sources cfg) /\
        Forall (fun r => exists c, IngressVariant.certificate r = Some c /\
                                   IngressVariant.IsValid c = true /\
                                   CritDaysLeft cfg < IngressVariant.DaysLeft c)
          (elems (IngressVariant.Certificates s)))) /\
  (forall json p,
     let s := SecretVariant.currentStatus
                (SecretVariant.refresh_iteration pem_Decode x509_ParseCertificate
                   time_Now cfg p) in
     resp_StatusCode (SecretVariant.handler json s) = 202 <->
     ~ (Forall (fun src => secret_parses pem_Decode x509_ParseCertificate cfg src = true)
          (secret_sources cfg) /\
        Forall (fun c => SecretVariant.IsValid c = true /\
                         CritDaysLeft cfg < SecretVariant.DaysLeft c)
          (elems (SecretVariant.Certificates s)))).
Proof.
  intros Hns. split; intros json p s.
  - assert (Hcode : resp_StatusCode (IngressVariant.handler json s) = 202 <->
                    elems (IngressVariant.Errors s) <> []).
    { unfold IngressVariant.handler, IngressVariant.status_code.
      pose proof (len_pos_iff (IngressVariant.Errors s)).
      destruct (json s); cbn [resp_StatusCode]; repeat case_decide;
        intuition (try congruence; try lia). }
    rewrite Hcode. subst s. unfold IngressVariant.refresh_iteration.
    cbn [IngressVariant.currentStatus IngressVariant.Errors IngressVariant.Certificates].
    rewrite IngressRun.getIngresses_over_sources, Hns.
    pose proof (ing_errors_invariant pem_Decode x509_ParseCertificate VerifyHostname
                  time_Now cfg (ingress_sources cfg) (S (IngressVariant.proc_ticks p))) as I.
    cbv zeta in I. rewrite <- I. reflexivity.
  - assert (Hcode : resp_StatusCode (SecretVariant.handler json s) = 202 <->
                    elems (SecretVariant.Errors s) <> []).
    { unfold SecretVariant.handler, SecretVariant.status_code.
      pose proof (len_pos_iff (SecretVariant.Errors s)).
      destruct (json s); cbn [resp_StatusCode]; repeat case_decide;
        intuition (try congruence; try lia). }
    rewrite Hcode. subst s. unfold SecretVariant.refresh_iteration.
    cbn [SecretVariant.currentStatus SecretVariant.Errors SecretVariant.Certificates].
    rewrite SecretRun.getCertificateList_over_sources, Hns.
    pose proof (sec_errors_invariant pem_Decode x509_ParseCertificate time_Now cfg
                  (secret_sources cfg) (S (SecretVariant.proc_ticks p))
                  (SecretRun.secret_sources_relevant cfg)) as I.
    cbv zeta in I.
    destruct (SecretRun.normalize_elems
                (fold_left (secret_source_step pem_Decode x509_ParseCertificate time_Now cfg)
                   (secret_sources cfg)
                   (SecretVariant.mkCycle None None None (S (SecretVariant.proc_ticks p)))))
      as (N1 & _ & N3 & _).
    rewrite N1, N3, <- I. reflexivity.
Qed.

(** The cluster of the examples with the missing secret is answered with
    202. *)
Lemma answer_202_witness :
  let cfg := Demo.config (Demo.client Demo.get_missing [] None) in
  let s := IngressVariant.currentStatus
             (IngressVariant.refresh_iteration Demo.pem_Decode
                Demo.x509_ParseCertificate Demo.VerifyHostname Demo.time_Now cfg
                (IngressVariant.mkProcess IngressVariant.initial_status 0)) in
  Namespaces_List (KubeClient cfg) = Ok [mkNamespace "prod"] /\
  resp_StatusCode (IngressVariant.handler Demo.json_MarshalIndent s) = 202 /\
  ~ (Forall (fun src => ingress_parses Demo.pem_Decode Demo.x509_ParseCertificate cfg src = true)
       (ingress_sources cfg) /\
     Forall (fun r => exists c, IngressVariant.certificate r = Some c /\
                                IngressVariant.IsValid c = true /\
                                CritDaysLeft cfg < IngressVariant.DaysLeft c)
       (elems (IngressVariant.Certificates s))).
Proof.
  intros cfg s.
  assert (H : Namespaces_List (KubeClient cfg) = Ok [mkNamespace "prod"]) by reflexivity.
  assert (H202 : resp_StatusCode (IngressVariant.handler Demo.json_MarshalIndent s) = 202)
    by reflexivity.
  split_and!; [exact H | exact H202 |].
  exact (proj1 (proj1 (answer_202_exactly_when_something_is_critical Demo.pem_Decode
                         Demo.x509_ParseCertificate Demo.VerifyHostname Demo.time_Now
                         cfg [mkNamespace "prod"] H) Demo.json_MarshalIndent
                  (IngressVariant.mkProcess IngressVariant.initial_status 0)) H202).
Defined.

(* ===================================================================== *)
(** ** Every error is accounted for *)
(* ===================================================================== *)

Lemma ing_classify_error_count
    (VerifyHostname : Certificate -> string -> option error)
    (cfg : ApplicationConfig) (ns name : string) (hosts : slice string)
    (x : Certificate) (now : Time) (w e : slice string) :
  let d := daysLeft_of (cert_NotAfter x) now in
  let k := IngressVariant.classify VerifyHostname cfg ns name hosts x now w e in
  length (elems (IngressVariant.vd_errors k))
  = (length (elems e) + (if decide (critical_days cfg d) then 1 else 0)
     + length (mismatching VerifyHostname x hosts))%nat.
Proof.
  intros d k. unfold k, IngressVariant.classify. fold d.
  pose proof (IngressFacts.ing_verify_hosts_spec VerifyHostname x ns name hosts) as V.
  cbv zeta in V. edestruct V as (_ & -> & _).
  rewrite length_app, length_map. f_equal.
  unfold IngressVariant.expiry_ladder, critical_days.
  repeat case_decide; cbn [IngressVariant.vd_errors]; rewrite ?elems_append, ?length_app;
    cbn [length]; lia.
Qed.

Lemma sec_classify_error_count
    (cfg : ApplicationConfig) (ns : v1_Namespace) (secret : Secret)
    (x : Certificate) (now : Time) (w e : slice string) :
  let d := daysLeft_of (cert_NotAfter x) now in
  let k := SecretVariant.classify cfg ns secret x now w e in
  length (elems (SecretVariant.vd_errors k))
  = (length (elems e) + (if decide (critical_days cfg d) then 1 else 0))%nat.
Proof.
  intros d k. unfold k, SecretVariant.classify. fold d.
  unfold SecretVariant.expiry_ladder, critical_days.
  repeat case_decide; cbn [SecretVariant.vd_errors]; rewrite ?elems_append, ?length_app;
    cbn [length]; lia.
Qed.

(** X24. When the namespaces could be listed, the errors of a cycle of
    [getIngresses] are accounted for one by one: one for each source whose
    certificate could not be fetched or parsed, one for each published
    certificate that is expired or has at most CritDaysLeft days left, and
    one for each expected host that a published certificate does not cover;
    there is no other error. *)
Theorem ingress_every_error_is_accounted_for
    (pem_Decode : bytes -> option bytes)
    (x509_ParseCertificate : bytes -> result Certificate)
    (VerifyHostname : Certificate -> string -> option error)
    (time_Now : nat -> Time) (cfg : ApplicationConfig) (t : nat)
    (namespaces : list v1_Namespace) :
  Namespaces_List (KubeClient cfg) = Ok namespaces ->
  let st := IngressVariant.getIngresses pem_Decode x509_ParseCertificate
              VerifyHostname time_Now cfg t in
  length (elems (IngressVariant.errors st))
  = (length (filter (fun src => ingress_parses pem_Decode x509_ParseCertificate cfg src = false)
               (ingress_sources cfg))
     + length (filter (critical_days cfg)
                 (ingress_daysLeft (IngressVariant.ingressInfoList st)))
     + ingress_mismatches VerifyHostname (IngressVariant.ingressInfoList st))%nat.
Proof.
  intros Hns. cbv zeta. rewrite IngressRun.getIngresses_over_sources, Hns.
  apply (fold_left_with_history
           (ingress_source_step pem_Decode x509_ParseCertificate VerifyHostname
              time_Now cfg)
           (fun l st =>
              length (elems (IngressVariant.errors st))
              = (length (filter (fun src => ingress_parses pem_Decode x509_ParseCertificate cfg src = false) l)
                 + length (filter (critical_days cfg)
                             (ingress_daysLeft (IngressVariant.ingressInfoList st)))
                 + ingress_mismatches VerifyHostname (IngressVariant.ingressInfoList st))%nat)).
  - reflexivity.
  - intros pre [[ns ingress] tlsSpec] st I.
    rewrite filter_app, length_app, filter_cons, filter_nil.
    assert (Hp : ingress_parses pem_Decode x509_ParseCertificate cfg (ns, ingress, tlsSpec)
                 = match IngressVariant.getx509Data pem_Decode x509_ParseCertificate
                           (KubeClient cfg) (source_of ns ingress tlsSpec) with
                   | Ok _ => true
                   | Err _ => false
                   end) by reflexivity.
    rewrite Hp.
    unfold ingress_source_step, IngressVariant.tls_step. cbn [fst snd].
    fold (source_of ns ingress tlsSpec).
    destruct (IngressVariant.getx509Data _ _ _ _) as [x | err].
    + rewrite decide_False by done.
      cbn [IngressVariant.errors IngressVariant.ingressInfoList].
      rewrite ing_classify_error_count, I.
      pose proof (IngressRun.classify_outcome VerifyHostname cfg (ns_Name ns)
                    (ing_Name ingress) (tls_Hosts tlsSpec) x
                    (time_Now (IngressVariant.ticks st)) (IngressVariant.warnings st)
                    (IngressVariant.errors st)) as C.
      cbv zeta in C. destruct C as (X & Y & _ & _ & _ & _ & _ & _ & _ & Hd & _).
      unfold ingress_daysLeft, ingress_mismatches.
      rewrite !elems_append, omap_app, filter_app, length_app, sum_list_with_app.
      cbn [omap list_omap IngressVariant.certificate IngressVariant.x509
             IngressVariant.Hosts source_of fmap option_fmap option_map
             sum_list_with].
      rewrite Hd, filter_cons, filter_nil.
      destruct (decide (critical_days cfg _)); cbn [length]; lia.
    + rewrite decide_True by done.
      cbn [IngressVariant.errors IngressVariant.ingressInfoList].
      rewrite elems_append, length_app, I. cbn [length]. lia.
Qed.

Lemma ingress_every_error_witness :
  let cfg := Demo.config (Demo.client (Demo.get_ok "-gone") [] None) in
  let st := IngressVariant.getIngresses Demo.pem_Decode Demo.x509_ParseCertificate
              Demo.VerifyHostname Demo.time_Now cfg 0 in
  Namespaces_List (KubeClient cfg) = Ok [mkNamespace "prod"] /\
  length (elems (IngressVariant.errors st)) = 2%nat.
Proof.
  intros cfg st.
  assert (H : Namespaces_List (KubeClient cfg) = Ok [mkNamespace "prod"]) by reflexivity.
  split; [exact H |].
  exact (ingress_every_error_is_accounted_for Demo.pem_Decode Demo.x509_ParseCertificate
           Demo.VerifyHostname Demo.time_Now cfg 0%nat [mkNamespace "prod"] H).
Defined.

(** X25. When the namespaces could be listed, the errors of a cycle of
    [getCertificateList] are accounted for one by one: one for each TLS
    secret that is not skipped and whose certificate could not be parsed,
    and one for each published certificate that is expired or has at most
    CritDaysLeft days left; there is no other error. *)
Theorem secret_every_error_is_accounted_for
    (pem_Decode : bytes -> option bytes)
    (x509_ParseCertificate : bytes -> result Certificate)
    (time_Now : nat -> Time) (cfg : ApplicationConfig) (t : nat)
    (namespaces : list v1_Namespace) :
  Namespaces_List (KubeClient cfg) = Ok namespaces ->
  let st := SecretVariant.getCertificateList pem_Decode x509_ParseCertificate
              time_Now cfg t in
  length (elems (SecretVariant.errors st))
  = (length (filter (fun src => secret_parses pem_Decode x509_ParseCertificate cfg src = false)
               (secret_sources cfg))
     + length (filter (critical_days cfg)
                 (map SecretVariant.DaysLeft
                    (elems (SecretVariant.certificateInfoList st)))))%nat.
Proof.
  intros Hns. cbv zeta. rewrite SecretRun.getCertificateList_over_sources, Hns.
  destruct (SecretRun.normalize_elems
              (fold_left (secret_source_step pem_Decode x509_ParseCertificate time_Now cfg)
                 (secret_sources cfg) (SecretVariant.mkCycle None None None t)))
    as (N1 & _ & N3 & _).
  rewrite N1, N3.
  pose proof (SecretRun.secret_sources_relevant cfg) as Hrel. revert Hrel.
  apply (fold_left_with_history
           (secret_source_step pem_Decode x509_ParseCertificate time_Now cfg)
           (fun l st =>
              Forall (fun src => relevant_secret src.1 src.2 = true) l ->
              length (elems (SecretVariant.errors st))
              = (length (filter (fun src => secret_parses pem_Decode x509_ParseCertificate cfg src = false) l)
                 + length (filter (critical_days cfg)
                             (map SecretVariant.DaysLeft
                                (elems (SecretVariant.certificateInfoList st)))))%nat)).
  - reflexivity.
  - intros pre [ns secret] st IH Hrel.
    apply Forall_app in Hrel as [Hpre Hsrc]. rewrite Forall_singleton in Hsrc.
    cbn [fst snd] in Hsrc. specialize (IH Hpre).
    rewrite filter_app, length_app, filter_cons, filter_nil.
    assert (Hp : secret_parses pem_Decode x509_ParseCertificate cfg (ns, secret)
                 = match SecretVariant.getx509Data pem_Decode x509_ParseCertificate
                           (KubeClient cfg) secret with
                   | Ok _ => true
                   | Err _ => false
                   end) by reflexivity.
    rewrite Hp.
    unfold secret_source_step. cbn [fst snd].
    rewrite (SecretRun.secret_step_relevant pem_Decode x509_ParseCertificate time_Now
               cfg ns st secret Hsrc).
    destruct (SecretVariant.getx509Data _ _ _ _) as [x | err].
    + rewrite decide_False by done. cbv zeta.
      cbn [SecretVariant.errors SecretVariant.certificateInfoList].
      rewrite sec_classify_error_count, IH.
      rewrite elems_append, map_app, filter_app, length_app.
      cbn [map]. rewrite SecretFacts.sec_classify_DaysLeft, filter_cons, filter_nil.
      destruct (decide (critical_days cfg _)); cbn [length]; lia.
    + rewrite decide_True by done.
      cbn [SecretVariant.errors SecretVariant.certificateInfoList].
      rewrite elems_append, length_app, IH. cbn [length]. lia.
Qed.

Lemma secret_every_error_witness :
  let cfg := Demo.config
               (Demo.client Demo.get_missing
                  [Demo.tls_secret "prod" "web-tls" "-gone";
                   Demo.tls_secret "prod" "api-tls" "broken"] None) in
  let st := SecretVariant.getCertificateList Demo.pem_Decode
              Demo.x509_ParseCertificate Demo.time_Now cfg 0 in
  Namespaces_List (KubeClient cfg) = Ok [mkNamespace "prod"] /\
  length (elems (SecretVariant.errors st)) = 2%nat.
Proof.
  intros cfg st.
  assert (H : Namespaces_List (KubeClient cfg) = Ok [mkNamespace "prod"]) by reflexivity.
  split; [exact H |].
  exact (secret_every_error_is_accounted_for Demo.pem_Decode Demo.x509_ParseCertificate
           Demo.time_Now cfg 0%nat [mkNamespace "prod"] H).
Defined.

(* ===================================================================== *)
(** ** Reads of the snapshot beside its installation (C2) *)
(* ===================================================================== *)


